(** * ai-devops-idp: the pattern classifier, the runbook matcher and the
      response normalizer of the AI agent

    A shallow embedding of [ai-agent/log_analyzer.py] and
    [ai-agent/rag_chain.py], and of the endpoints of [ai-agent/main.py]
    with the node part of [ai-agent/k8s_collector.py] that they use.
    Python [str] values are lists of characters;
    the embedding is exact on ASCII text (bytes above 127 stand for the
    UTF-8 bytes of other characters and carry neither case nor
    whitespace, which they can have in Python: a property that compares
    texts across [str.lower] or the case-blind detectors is stated for
    [ascii_text]).  Python dictionaries that are built and read key by key
    are association lists in insertion order; the classifier's
    [seen_categories] and the matcher's [query_words] are finite sets. *)

From Stdlib Require Import Ascii String ZArith QArith Qminmax Lia.
From Stdlib Require Import DecimalString.
From stdpp Require Import base option list gmap sorting strings.

Local Open Scope nat_scope.

(** ** Python strings *)

Definition str := list ascii.

Definition py (s : string) : str := list_ascii_of_string s.

Definition in_range (lo hi : nat) (c : ascii) : bool :=
  (lo <=? nat_of_ascii c) && (nat_of_ascii c <=? hi).

(** [str.isspace] on one character: TAB..CR, FS..US and the space. *)
Definition isspace (c : ascii) : bool := in_range 9 13 c || in_range 28 32 c.

Definition isdigit (c : ascii) : bool := in_range 48 57 c.

Definition lower_char (c : ascii) : ascii :=
  if in_range 65 90 c then ascii_of_nat (nat_of_ascii c + 32) else c.

Definition upper_char (c : ascii) : ascii :=
  if in_range 97 122 c then ascii_of_nat (nat_of_ascii c - 32) else c.

(** The newline as a string *)
Definition NL : str := ["010"%char].

(** A text of ASCII characters only; on these texts [lower], [strip],
    the split at whitespace and the detectors below are those of Python. *)
Definition ascii_text (s : str) : Prop :=
  Forall (fun c => nat_of_ascii c < 128) s.

(** [s.lower()], as it is on ASCII text: the letters A to Z are mapped,
    every other character is kept. *)
Definition lower (s : str) : str := map lower_char s.

(** [s.lstrip()], [s.rstrip()], [s.strip()] *)
Fixpoint lstrip (s : str) : str :=
  match s with
  | c :: s' => if isspace c then lstrip s' else s
  | [] => []
  end.

Definition rstrip (s : str) : str := rev (lstrip (rev s)).

Definition strip (s : str) : str := rstrip (lstrip s).

(** [s.startswith(p)], [s.endswith(p)] *)
Fixpoint startswith (s p : str) {struct p} : bool :=
  match p, s with
  | [], _ => true
  | _ :: _, [] => false
  | a :: p', c :: s' => Ascii.eqb c a && startswith s' p'
  end.

Definition endswith (s p : str) : bool := startswith (rev s) (rev p).

(** [sub in s] *)
Fixpoint contains (s sub : str) : bool :=
  startswith s sub ||
  match s with
  | [] => false
  | _ :: s' => contains s' sub
  end.

(** [s.split(sep)] for a one-character separator *)
Fixpoint split_on (sep : ascii) (s : str) : list str :=
  match s with
  | [] => [[]]
  | c :: s' =>
      if Ascii.eqb c sep then [] :: split_on sep s'
      else match split_on sep s' with
           | h :: t => (c :: h) :: t
           | [] => [[c]]
           end
  end.

(** [s.split()]: the maximal runs of non-space characters *)
Fixpoint split_ws_aux (cur : str) (s : str) : list str :=
  match s with
  | [] => match cur with [] => [] | _ => [rev cur] end
  | c :: s' =>
      if isspace c
      then match cur with
           | [] => split_ws_aux [] s'
           | _ => rev cur :: split_ws_aux [] s'
           end
      else split_ws_aux (c :: cur) s'
  end.

Definition split_ws (s : str) : list str := split_ws_aux [] s.

(** [s.replace(c, empty)] for a one-character [c] *)
Definition remove_char (c : ascii) (s : str) : str :=
  List.filter (fun a => negb (Ascii.eqb a c)) s.

(** [sep.join(parts)] *)
Fixpoint join (sep : str) (parts : list str) : str :=
  match parts with
  | [] => []
  | [p] => p
  | p :: rest => p ++ sep ++ join sep rest
  end.

(** [str(n)] for a non-negative integer *)
Definition str_of_nat (n : nat) : str :=
  list_ascii_of_string (NilEmpty.string_of_uint (Nat.to_uint n)).

(** [l[:k]] for a Python integer [k] (a negative [k] counts from the end) *)
Definition slice_to {A} (l : list A) (k : Z) : list A :=
  if (0 <=? k)%Z then take (Z.to_nat k) l
  else take (length l - Z.to_nat (- k)) l.

(** ** [list.sort(key=...)]: a stable sort

    Python's sort is stable, also with [reverse=True]; a stable sort is
    determined by its ordering, here an insertion sort that puts an element
    in front of the first later element it does not exceed. *)

Section StableSort.
Context {A : Type} (leb : A -> A -> bool).

Fixpoint insert_sorted (x : A) (l : list A) : list A :=
  match l with
  | [] => [x]
  | y :: l' => if leb x y then x :: l else y :: insert_sorted x l'
  end.

Fixpoint stable_sort (l : list A) : list A :=
  match l with
  | [] => []
  | x :: l' => insert_sorted x (stable_sort l')
  end.
End StableSort.

(** ** [models.py]: the enumerations *)

Inductive Severity := CRITICAL | HIGH | MEDIUM | LOW | INFO.

Inductive ErrorCategory :=
| OOM_KILLED | CRASH_LOOP | IMAGE_PULL | CONFIG_ERROR | READINESS_PROBE
| LIVENESS_PROBE | RESOURCE_QUOTA | PERMISSION_DENIED | TERRAFORM_STATE_LOCK
| TERRAFORM_PROVIDER | CI_CD_FAILURE | NETWORK_ERROR | UNKNOWN.

Definition Severity_value (s : Severity) : str :=
  match s with
  | CRITICAL => py "CRITICAL"
  | HIGH => py "HIGH"
  | MEDIUM => py "MEDIUM"
  | LOW => py "LOW"
  | INFO => py "INFO"
  end.

Definition ErrorCategory_value (c : ErrorCategory) : str :=
  match c with
  | OOM_KILLED => py "OOMKilled"
  | CRASH_LOOP => py "CrashLoopBackOff"
  | IMAGE_PULL => py "ImagePullBackOff"
  | CONFIG_ERROR => py "CreateContainerConfigError"
  | READINESS_PROBE => py "ReadinessProbeFailure"
  | LIVENESS_PROBE => py "LivenessProbeFailure"
  | RESOURCE_QUOTA => py "ResourceQuotaExceeded"
  | PERMISSION_DENIED => py "PermissionDenied"
  | TERRAFORM_STATE_LOCK => py "TerraformStateLock"
  | TERRAFORM_PROVIDER => py "TerraformProviderError"
  | CI_CD_FAILURE => py "CICDPipelineFailure"
  | NETWORK_ERROR => py "NetworkError"
  | UNKNOWN => py "Unknown"
  end.

Definition ErrorCategory_index (c : ErrorCategory) : nat :=
  match c with
  | OOM_KILLED => 0 | CRASH_LOOP => 1 | IMAGE_PULL => 2 | CONFIG_ERROR => 3
  | READINESS_PROBE => 4 | LIVENESS_PROBE => 5 | RESOURCE_QUOTA => 6
  | PERMISSION_DENIED => 7 | TERRAFORM_STATE_LOCK => 8
  | TERRAFORM_PROVIDER => 9 | CI_CD_FAILURE => 10 | NETWORK_ERROR => 11
  | UNKNOWN => 12
  end.

Definition ErrorCategory_of_index (n : nat) : ErrorCategory :=
  match n with
  | 0 => OOM_KILLED | 1 => CRASH_LOOP | 2 => IMAGE_PULL | 3 => CONFIG_ERROR
  | 4 => READINESS_PROBE | 5 => LIVENESS_PROBE | 6 => RESOURCE_QUOTA
  | 7 => PERMISSION_DENIED | 8 => TERRAFORM_STATE_LOCK
  | 9 => TERRAFORM_PROVIDER | 10 => CI_CD_FAILURE | 11 => NETWORK_ERROR
  | _ => UNKNOWN
  end.

#[global] Instance ErrorCategory_eq_dec : EqDecision ErrorCategory.
Proof. solve_decision. Defined.

#[global] Instance ErrorCategory_countable : Countable ErrorCategory.
Proof.
  apply (inj_countable' ErrorCategory_index ErrorCategory_of_index).
  intros []; reflexivity.
Defined.

(** ** The detectors: the fragment of [re] the registry is written in

    Every registry pattern is compiled with [re.IGNORECASE] and has no
    group, so [findall] yields the matched substrings.  The matcher is the
    backtracking one of [re]: the first alternative that leads to a match
    wins and a star takes as many repetitions as it can.

    A character of the text is compared as [re] compares ASCII
    characters: letters without case, [\s] as the whitespace of
    [isspace], [\d] as 0 to 9.  On text outside ASCII [re] also folds a few
    letters onto ASCII ones and knows more spaces and digits; the
    properties below that depend on it are stated for [ascii_text]. *)

Inductive regex :=
| Eps                        (* the empty pattern *)
| Lit (c : ascii)            (* a literal, compared without case *)
| AnyChar                    (* [.]: any character but a newline *)
| Space                      (* [\s] *)
| Digit                      (* [\d] *)
| Range (lo hi : ascii)      (* [[lo-hi]] *)
| Seq (r1 r2 : regex)
| Alt (r1 r2 : regex)
| Star (r : regex).

Definition char_matches (r : regex) (a : ascii) : bool :=
  match r with
  | Lit c => Ascii.eqb (lower_char a) (lower_char c)
  | AnyChar => negb (Ascii.eqb a "010"%char)
  | Space => isspace a
  | Digit => isdigit a
  | Range lo hi =>
      in_range (nat_of_ascii lo) (nat_of_ascii hi) a
      || in_range (nat_of_ascii lo) (nat_of_ascii hi) (lower_char a)
      || in_range (nat_of_ascii lo) (nat_of_ascii hi) (upper_char a)
  | _ => false
  end.

(** [rmatch r s k]: match [r] at the front of [s] and hand the rest to the
    continuation [k]; the result is what follows the whole match. *)
Fixpoint rmatch (r : regex) (s : str) (k : str -> option str) {struct r}
  : option str :=
  match r with
  | Eps => k s
  | Seq r1 r2 => rmatch r1 s (fun s' => rmatch r2 s' k)
  | Alt r1 r2 =>
      match rmatch r1 s k with
      | Some rest => Some rest
      | None => rmatch r2 s k
      end
  | Star r1 =>
      (fix loop (n : nat) (s : str) : option str :=
         match n with
         | O => k s
         | S n' =>
             match rmatch r1 s
                     (fun s' => if length s' <? length s then loop n' s'
                                else None) with
             | Some rest => Some rest
             | None => k s
             end
         end) (length s) s
  | _ =>
      match s with
      | a :: s' => if char_matches r a then k s' else None
      | [] => None
      end
  end.

(** [pattern.findall(text)]: the non-overlapping matches, left to right.
    After an empty match the scan moves on by one character; no registry
    detector matches the empty string ([registry_excerpts_nonempty]), so
    that step is never taken for a registry detector. *)
Fixpoint findall_from (fuel : nat) (r : regex) (s : str) : list str :=
  match fuel with
  | O => []
  | S fuel' =>
      match rmatch r s Some with
      | Some rest =>
          let m := take (length s - length rest) s in
          m :: match m, s with
               | _ :: _, _ => findall_from fuel' r rest
               | [], _ :: s' => findall_from fuel' r s'
               | [], [] => []
               end
      | None =>
          match s with
          | _ :: s' => findall_from fuel' r s'
          | [] => []
          end
      end
  end.

Definition findall (r : regex) (text : str) : list str :=
  findall_from (S (length text)) r text.

(** Whether a pattern can match the empty string. *)
Fixpoint nullable (r : regex) : bool :=
  match r with
  | Eps | Star _ => true
  | Seq r1 r2 => nullable r1 && nullable r2
  | Alt r1 r2 => nullable r1 || nullable r2
  | _ => false
  end.

(** Pattern syntax: a literal word, [\s*], [.*], [a b ...] and [a|b|...]. *)
Fixpoint lit_chars (s : str) : regex :=
  match s with
  | [] => Eps
  | [c] => Lit c
  | c :: s' => Seq (Lit c) (lit_chars s')
  end.

Definition lit (s : string) : regex := lit_chars (py s).

Fixpoint seq (r : regex) (rs : list regex) : regex :=
  match rs with
  | [] => r
  | r' :: rs' => Seq r (seq r' rs')
  end.

Fixpoint alt (r : regex) (rs : list regex) : regex :=
  match rs with
  | [] => r
  | r' :: rs' => Alt r (alt r' rs')
  end.

Definition ws : regex := Star Space.
Definition dots : regex := Star AnyChar.

(** ** [log_analyzer.py]: the registry *)

Module Entry.
Record t := mk {
  pattern : regex;
  category : ErrorCategory;
  severity : Severity;
  hint : str
}.
End Entry.

Definition ERROR_PATTERNS : list Entry.t := [
  (* Kubernetes *)
  Entry.mk (lit "OOMKilled") OOM_KILLED CRITICAL
    (py "Container exceeded memory limits and was killed by the kernel OOM killer.");
  Entry.mk (lit "CrashLoopBackOff") CRASH_LOOP CRITICAL
    (py "Container is crashing repeatedly. Check exit code and last termination reason.");
  Entry.mk
    (alt (lit "ImagePullBackOff") [lit "ErrImagePull"; lit "ImagePullError"])
    IMAGE_PULL HIGH
    (py "Unable to pull container image. Check image name/tag, registry auth, and network.");
  Entry.mk (lit "CreateContainerConfigError") CONFIG_ERROR HIGH
    (py "Container configuration error. Usually a missing Secret, ConfigMap, or volume mount.");
  Entry.mk
    (alt (seq (lit "Readiness") [ws; lit "probe"; ws; lit "failed"])
         [lit "readinessProbe"])
    READINESS_PROBE MEDIUM
    (py "Readiness probe failing — pod won't receive traffic. Check health endpoint and port.");
  Entry.mk
    (alt (seq (lit "Liveness") [ws; lit "probe"; ws; lit "failed"])
         [lit "livenessProbe"])
    LIVENESS_PROBE HIGH
    (py "Liveness probe failing — kubelet will restart the container. Check health endpoint.");
  Entry.mk
    (alt (seq (lit "exceeded") [ws; lit "quota"])
         [lit "ResourceQuota"; seq (lit "forbidden") [dots; lit "quota"]])
    RESOURCE_QUOTA MEDIUM
    (py "Resource quota exceeded. Request more quota or reduce resource requests.");
  Entry.mk
    (alt (lit "forbidden") [lit "Unauthorized"; lit "403"; lit "RBAC"])
    PERMISSION_DENIED HIGH
    (py "Permission denied. Check RBAC roles, service account, and cluster role bindings.");
  Entry.mk
    (alt (seq (lit "connection") [ws; lit "refused"])
         [seq (lit "dial") [ws; lit "tcp"; dots; lit "refused"];
          lit "timeout"; lit "ETIMEDOUT";
          seq (lit "network") [ws; lit "unreachable"]])
    NETWORK_ERROR HIGH
    (py "Network connectivity issue. Check service endpoints, DNS, security groups, and NACLs.");
  (* Terraform *)
  Entry.mk
    (alt (seq (lit "state") [ws; lit "lock"])
         [seq (lit "lock") [ws; lit "ID"];
          seq (lit "ConditionalCheckFailedException") [dots; lit "terraform"]])
    TERRAFORM_STATE_LOCK MEDIUM
    (py "Terraform state is locked. Check DynamoDB lock table or use force-unlock if safe.");
  Entry.mk
    (alt (seq (lit "provider") [dots; lit "error"])
         [lit "NoCredentialProviders"; lit "ExpiredToken";
          lit "InvalidClientTokenId"])
    TERRAFORM_PROVIDER HIGH
    (py "Terraform provider authentication failure. Check AWS credentials and assume-role config.");
  (* CI/CD *)
  Entry.mk
    (alt (seq (lit "exit")
            [ws; lit "code"; ws; Range "1"%char "9"%char; Star Digit])
         [seq (lit "Process")
            [ws; lit "completed"; ws; lit "with"; ws; lit "exit"; ws;
             lit "code"; ws; Range "1"%char "9"%char]])
    CI_CD_FAILURE MEDIUM
    (py "Build step failed with a non-zero exit code. Check the failing command output.");
  Entry.mk
    (alt (seq (lit "permission") [ws; lit "denied"]) [lit "EACCES"])
    PERMISSION_DENIED MEDIUM
    (py "File/system permission denied. Check file ownership and process privileges.")
].

(** ** [log_analyzer.py]: the classifier *)

(** [matched_text] is one excerpt when there is exactly one match and a
    list of excerpts otherwise. *)
Inductive matched :=
| One (m : str)
| Many (ms : list str).

Module Cls.
Record t := mk {
  category : str;
  severity : str;
  hint : str;
  matched_text : matched;
  match_count : nat
}.
End Cls.

Definition record_of (entry : Entry.t) (matches : list str) : Cls.t :=
  {| Cls.category := ErrorCategory_value (Entry.category entry);
     Cls.severity := Severity_value (Entry.severity entry);
     Cls.hint := Entry.hint entry;
     Cls.matched_text :=
       match matches with
       | [m] => One m
       | _ => Many (take 3 matches)
       end;
     Cls.match_count := length matches |}.

(** One turn of the loop over the registry; the state is
    [(classifications, seen_categories)]. *)
Definition scan_step (text : str)
    (st : list Cls.t * gset ErrorCategory) (entry : Entry.t)
  : list Cls.t * gset ErrorCategory :=
  let matches := findall (Entry.pattern entry) text in
  if bool_decide (matches <> [])
     && bool_decide (Entry.category entry ∉ st.2)
  then (st.1 ++ [record_of entry matches], st.2 ∪ {[Entry.category entry]})
  else st.

Definition scan (registry : list Entry.t) (text : str)
  : list Cls.t * gset ErrorCategory :=
  foldl (scan_step text) ([], ∅) registry.

(** [severity_order.get(s, 5)] *)
Definition severity_order (s : str) : nat :=
  if decide (s = Severity_value CRITICAL) then 0
  else if decide (s = Severity_value HIGH) then 1
  else if decide (s = Severity_value MEDIUM) then 2
  else if decide (s = Severity_value LOW) then 3
  else if decide (s = Severity_value INFO) then 4
  else 5.

Definition by_severity (x y : Cls.t) : bool :=
  severity_order (Cls.severity x) <=? severity_order (Cls.severity y).

Definition classify_errors (text : str) : list Cls.t :=
  stable_sort by_severity (scan ERROR_PATTERNS text).1.

Definition get_highest_severity (classifications : list Cls.t) : Severity :=
  match classifications with
  | [] => INFO
  | c :: _ =>
      default INFO
        (List.find (fun s => bool_decide (Severity_value s = Cls.severity c))
           [CRITICAL; HIGH; MEDIUM; LOW; INFO])
  end.

Definition format_classifications_for_prompt (classifications : list Cls.t)
  : str :=
  match classifications with
  | [] => py "No known error patterns detected."
  | _ =>
      join NL
        (py "Pre-analysis detected the following error patterns:"
         :: imap (fun i c =>
                    py "  " ++ str_of_nat (S i) ++ py ". [" ++ Cls.severity c
                    ++ py "] " ++ Cls.category c ++ py ": " ++ Cls.hint c)
              classifications)
  end.

(** The rank a classification is sorted by. *)
Definition severity_rank (c : Cls.t) : nat := severity_order (Cls.severity c).

(** The excerpts that [matched_text] holds, as a list. *)
Definition excerpts (m : matched) : list str :=
  match m with
  | One x => [x]
  | Many xs => xs
  end.

Definition detects (text : str) (entry : Entry.t) : Prop :=
  findall (Entry.pattern entry) text <> [].

(** The registry entries that get recorded when the loop is entered with
    [seen] as the categories already seen. *)
Fixpoint winners (text : str) (seen : gset ErrorCategory)
    (registry : list Entry.t) : list Entry.t :=
  match registry with
  | [] => []
  | entry :: rest =>
      if bool_decide (detects text entry)
         && bool_decide (Entry.category entry ∉ seen)
      then entry :: winners text (seen ∪ {[Entry.category entry]}) rest
      else winners text seen rest
  end.

Definition classification_of (text : str) (entry : Entry.t) : Cls.t :=
  record_of entry (findall (Entry.pattern entry) text).

(** ** [rag_chain.py]: the runbook store *)

Module Rb.
Record t := mk {
  filename : str;
  title : str;
  content : str
}.
End Rb.

(** The runbook directory as the loader finds it: [None] when it does not
    exist, otherwise the [*.md] files in the order [glob] lists them, each
    with its path and what reading it gives ([None] when reading raises). *)
Definition directory : Type := option (list (str * option str)).

(** [os.path.basename(path)] *)
Definition basename (path : str) : str :=
  default [] (last (split_on "/"%char path)).

(** The title of a document: the first element of [content.split(newline)]
    without any [#], stripped. *)
Definition title_of (content : str) : str :=
  strip (remove_char "#"%char (default [] (head (split_on "010"%char content)))).

Definition load_step (cache : list Rb.t) (file : str * option str)
  : list Rb.t :=
  match file.2 with
  | Some content =>
      cache ++ [ {| Rb.filename := basename file.1;
                    Rb.title := title_of content;
                    Rb.content := content |} ]
  | None => cache
  end.

(** [load_runbooks()], with the module-level cache passed in; what it
    returns is also the cache it leaves behind. *)
Definition load_runbooks (dir : directory) (cache : list Rb.t) : list Rb.t :=
  match cache, dir with
  | _ :: _, _ => cache
  | [], None => []
  | [], Some files => foldl load_step [] files
  end.

(** ** [rag_chain.py]: the keyword search *)

Module Hit.
Record t := mk {
  title : str;
  filename : str;
  relevance_score : Q;
  summary : str
}.
End Hit.

(** [set(query.lower().split())] *)
Definition query_words (query : str) : gset str :=
  list_to_set (split_ws (lower query)).

(** [sum(1 for word in query_words if word in content_lower)] *)
Definition count_matches (words : gset str) (content_lower : str) : nat :=
  length (filter (fun word => contains content_lower word = true)
            (elements words)).

(** [min(matches / max(len(query_words), 1), 1.0)].  The quotient of the
    two counts is kept exact: in one search every score has the same
    denominator, and the rounded quotients of two counts by one
    denominator compare as the counts do, so the order and the ties of the
    scores are those of the exact quotients. *)
Definition relevance (matches n : nat) : Q :=
  Qmin (Z.of_nat matches # Pos.of_nat (Nat.max n 1)) 1.

Definition scored_entry (words : gset str) (rb : Rb.t) : Hit.t :=
  {| Hit.title := Rb.title rb;
     Hit.filename := Rb.filename rb;
     Hit.relevance_score :=
       relevance (count_matches words (lower (Rb.content rb))) (size words);
     Hit.summary := take 200 (Rb.content rb) ++ py "..." |}.

Definition search_step (words : gset str) (scored : list Hit.t) (rb : Rb.t)
  : list Hit.t :=
  if 0 <? count_matches words (lower (Rb.content rb))
  then scored ++ [scored_entry words rb]
  else scored.

(** The key of [scored.sort(..., reverse=True)]: higher scores first. *)
Definition by_score (x y : Hit.t) : bool :=
  Qle_bool (Hit.relevance_score y) (Hit.relevance_score x).

Definition search_runbooks (dir : directory) (cache : list Rb.t)
    (query : str) (top_k : Z) : list Hit.t :=
  match load_runbooks dir cache with
  | [] => []
  | runbooks =>
      let scored := foldl (search_step (query_words query)) [] runbooks in
      slice_to (stable_sort by_score scored) top_k
  end.

(** The claimed title of a document: its first non-empty line without the
    heading markup in front of it. *)
Fixpoint drop_heading_markup (line : str) : str :=
  match line with
  | c :: line' =>
      if Ascii.eqb c "#"%char || isspace c then drop_heading_markup line'
      else line
  | [] => []
  end.

Definition first_nonempty_line (content : str) : str :=
  default [] (head (filter (fun l => l <> []) (split_on "010"%char content))).

Definition claimed_title (content : str) : str :=
  rstrip (drop_heading_markup (first_nonempty_line content)).

(** The text before the first newline. *)
Fixpoint first_line (content : str) : str :=
  match content with
  | [] => []
  | c :: rest => if Ascii.eqb c "010"%char then [] else c :: first_line rest
  end.

(** The number of query words found in a document. *)
Definition overlap (query : str) (rb : Rb.t) : nat :=
  count_matches (query_words query) (lower (Rb.content rb)).

#[global] Instance Qeq_decision (x y : Q) : Decision (x == y)%Q := Qeq_dec x y.

(** ** The Python values that [json] reads and writes *)

#[local] Set Warnings "-register-all".

Inductive value :=
| VNone
| VBool (b : bool)
| VInt (z : Z)
| VFloat (lexeme : str)      (* a float, kept as the text that denotes it *)
| VStr (s : str)
| VList (l : list value)
| VDict (d : list (str * value)).

(** A [dict] with string keys, in insertion order. *)
Definition dict : Type := list (str * value).

(** [d.get(k)] *)
Fixpoint dict_get (d : dict) (k : str) : option value :=
  match d with
  | [] => None
  | (k', v) :: d' => if decide (k' = k) then Some v else dict_get d' k
  end.

(** [d[k] = v] *)
Fixpoint dict_set (d : dict) (k : str) (v : value) : dict :=
  match d with
  | [] => [(k, v)]
  | (k', v') :: d' =>
      if decide (k' = k) then (k, v) :: d' else (k', v') :: dict_set d' k v
  end.

(** [d.setdefault(k, v)], for its effect on [d] *)
Definition setdefault (k : str) (v : value) (d : dict) : dict :=
  match dict_get d k with
  | Some _ => d
  | None => d ++ [(k, v)]
  end.

(** [type(v).__name__] *)
Definition type_name (v : value) : str :=
  match v with
  | VNone => py "NoneType"
  | VBool _ => py "bool"
  | VInt _ => py "int"
  | VFloat _ => py "float"
  | VStr _ => py "str"
  | VList _ => py "list"
  | VDict _ => py "dict"
  end.

(** ** [json.loads] on a [str]

    The decoder of the standard library: whitespace is blank, tab, newline
    and carriage return; strings are strict (no raw control character);
    [NaN], [Infinity] and [-Infinity] are read as floats; a key given
    twice keeps its last value.

    Decoding ends in one of four ways.  A text that is not JSON raises
    [JSONDecodeError].  Two errors of the interpreter pass through the
    decoder unchanged: it enters one level of recursion for every array
    and object it opens and raises RecursionError when the interpreter has
    no level left, and converting an integer of too many digits raises a
    plain ValueError.  Neither is a [JSONDecodeError].  The scanner works
    from left to right, so the first of these to occur decides. *)

(** What the decoder depends on beyond the text: [recursion_room], the
    number of containers, one inside the other, that can be entered before
    the recursion limit is reached (it is what the call stack leaves of
    [sys.getrecursionlimit()] when [json.loads] is called), and
    [int_max_str_digits], the value of [sys.get_int_max_str_digits()],
    where 0 means no limit. *)
Record interpreter := {
  recursion_room : nat;
  int_max_str_digits : nat
}.

(** An interpreter for the examples: room for a thousand containers,
    which is the recursion limit that Python starts with and so more than
    a running service has left of it, and the digit limit 4300 that Python
    starts with. *)
Definition fresh_interpreter : interpreter :=
  {| recursion_room := 1000; int_max_str_digits := 4300 |}.

Inductive decoded (A : Type) : Type :=
| Decoded (a : A)
| JSONDecodeError
| RecursionError (container : str)  (* array or object *)
| ValueError (digits : nat).         (* an integer of that many digits *)
Arguments Decoded {A} a.
Arguments JSONDecodeError {A}.
Arguments RecursionError {A} container.
Arguments ValueError {A} digits.

(** The conversion of a digit string to [int] refuses more than
    [int_max_str_digits] digits; it looks at the limit only for strings of
    more than 640 digits. *)
Definition too_many_digits (interp : interpreter) (digits : nat) : bool :=
  (640 <? digits) && (0 <? int_max_str_digits interp)
  && (int_max_str_digits interp <? digits).

Definition dquote : ascii := "034"%char.
Definition backslash : ascii := "092"%char.

Definition is_json_ws (c : ascii) : bool :=
  Ascii.eqb c " "%char || Ascii.eqb c "009"%char
  || Ascii.eqb c "010"%char || Ascii.eqb c "013"%char.

Fixpoint skip_ws (s : str) : str :=
  match s with
  | c :: s' => if is_json_ws c then skip_ws s' else s
  | [] => []
  end.

Definition hex_digit (c : ascii) : option N :=
  let n := N_of_ascii c in
  if isdigit c then Some (n - 48)%N
  else if in_range 97 102 c then Some (n - 87)%N
  else if in_range 65 70 c then Some (n - 55)%N
  else None.

Definition hex4 (s : str) : option (N * str) :=
  match s with
  | a :: b :: c :: d :: rest =>
      match hex_digit a, hex_digit b, hex_digit c, hex_digit d with
      | Some x, Some y, Some z, Some w =>
          Some ((((x * 16 + y) * 16 + z) * 16 + w)%N, rest)
      | _, _, _, _ => None
      end
  | _ => None
  end.

(** A code point as the characters of the model: its UTF-8 bytes. *)
Definition utf8_encode (cp : N) : str :=
  if (cp <? 128)%N then [ascii_of_N cp]
  else if (cp <? 2048)%N then
    [ascii_of_N (192 + cp / 64); ascii_of_N (128 + cp mod 64)]
  else if (cp <? 65536)%N then
    [ascii_of_N (224 + cp / 4096); ascii_of_N (128 + (cp / 64) mod 64);
     ascii_of_N (128 + cp mod 64)]
  else
    [ascii_of_N (240 + cp / 262144); ascii_of_N (128 + (cp / 4096) mod 64);
     ascii_of_N (128 + (cp / 64) mod 64); ascii_of_N (128 + cp mod 64)].

Definition simple_escape (e : ascii) : option ascii :=
  if Ascii.eqb e dquote then Some dquote
  else if Ascii.eqb e backslash then Some backslash
  else if Ascii.eqb e "/"%char then Some "/"%char
  else if Ascii.eqb e "b"%char then Some "008"%char
  else if Ascii.eqb e "f"%char then Some "012"%char
  else if Ascii.eqb e "n"%char then Some "010"%char
  else if Ascii.eqb e "r"%char then Some "013"%char
  else if Ascii.eqb e "t"%char then Some "009"%char
  else None.

(** The body of a string literal, after its opening quote. *)
Fixpoint scanstring (fuel : nat) (s : str) (acc : str) : option (str * str) :=
  match fuel with
  | O => None
  | S fuel' =>
      match s with
      | [] => None
      | c :: s' =>
          if Ascii.eqb c dquote then Some (rev acc, s')
          else if Ascii.eqb c backslash then
            match s' with
            | [] => None
            | e :: s'' =>
                if Ascii.eqb e "u"%char then
                  match hex4 s'' with
                  | None => None
                  | Some (uni, s3) =>
                      let alone :=
                        scanstring fuel' s3 (rev (utf8_encode uni) ++ acc) in
                      if (55296 <=? uni)%N && (uni <=? 56319)%N then
                        match s3 with
                        | b :: u :: s4 =>
                            if Ascii.eqb b backslash && Ascii.eqb u "u"%char
                            then
                              match hex4 s4 with
                              | None => None
                              | Some (uni2, s5) =>
                                  if (56320 <=? uni2)%N && (uni2 <=? 57343)%N
                                  then
                                    scanstring fuel' s5
                                      (rev (utf8_encode
                                              (65536 + (uni - 55296) * 1024
                                               + (uni2 - 56320))%N)
                                       ++ acc)
                                  else alone
                              end
                            else alone
                        | _ => alone
                        end
                      else alone
                  end
                else
                  match simple_escape e with
                  | Some ch => scanstring fuel' s'' (ch :: acc)
                  | None => None
                  end
            end
          else if (N_of_ascii c <? 32)%N then None
          else scanstring fuel' s' (c :: acc)
      end
  end.

Fixpoint span_digits (s : str) : str * str :=
  match s with
  | c :: s' =>
      if isdigit c then let '(ds, rest) := span_digits s' in (c :: ds, rest)
      else ([], s)
  | [] => ([], [])
  end.

Definition Z_of_digits (ds : str) : Z :=
  foldl (fun acc c => (acc * 10 + Z.of_N (N_of_ascii c - 48))%Z) 0%Z ds.

(** A number: an optional minus sign, then 0 or a digit string that does
    not start with 0, then an optional fraction (a dot and digits) and an
    optional exponent (e or E, an optional sign, digits); it is an [int]
    unless it has a fraction or an exponent. *)
Definition scan_number (interp : interpreter) (s : str)
  : decoded (value * str) :=
  let '(sign, s1) :=
    match s with
    | c :: t => if Ascii.eqb c "-"%char then ([c], t) else ([], s)
    | [] => ([], s)
    end in
  match s1 with
  | [] => JSONDecodeError
  | c :: t =>
      let int_part :=
        if Ascii.eqb c "0"%char then Some ([c], t)
        else if in_range 49 57 c
             then let '(ds, r) := span_digits t in Some (c :: ds, r)
             else None in
      match int_part with
      | None => JSONDecodeError
      | Some (ds, r) =>
          let '(frac, r1) :=
            match r with
            | d :: x :: r' =>
                if Ascii.eqb d "."%char && isdigit x
                then let '(fs, r'') := span_digits r' in (d :: x :: fs, r'')
                else ([], r)
            | _ => ([], r)
            end in
          let '(ex, r2) :=
            match r1 with
            | e :: r' =>
                if Ascii.eqb e "e"%char || Ascii.eqb e "E"%char then
                  let '(sg, r'') :=
                    match r' with
                    | g :: r3 =>
                        if Ascii.eqb g "+"%char || Ascii.eqb g "-"%char
                        then ([g], r3) else ([], r')
                    | [] => ([], r')
                    end in
                  let '(es, r4) := span_digits r'' in
                  match es with
                  | [] => ([], r1)
                  | _ => (e :: sg ++ es, r4)
                  end
                else ([], r1)
            | [] => ([], r1)
            end in
          match frac, ex with
          | [], [] =>
              if too_many_digits interp (length ds)
              then ValueError (length ds)
              else Decoded (VInt (match sign with
                                  | [] => Z_of_digits ds
                                  | _ => - Z_of_digits ds
                                  end), r2)
          | _, _ => Decoded (VFloat (sign ++ ds ++ frac ++ ex), r2)
          end
      end
  end.

Definition literal (s : str) (word : string) (v : value)
  : decoded (value * str) :=
  if startswith s (py word) then Decoded (v, drop (length (py word)) s)
  else JSONDecodeError.

(** [room] is the number of containers that can still be entered. *)
Fixpoint scan_once (interp : interpreter) (fuel room : nat) (s : str)
  : decoded (value * str) :=
  match fuel with
  | O => JSONDecodeError
  | S fuel' =>
      match s with
      | [] => JSONDecodeError
      | c :: t =>
          if Ascii.eqb c dquote then
            match scanstring (length s) t [] with
            | Some (x, r) => Decoded (VStr x, r)
            | None => JSONDecodeError
            end
          else if Ascii.eqb c "{"%char then
            match room with
            | O => RecursionError (py "object")
            | S room' =>
                match skip_ws t with
                | c' :: r =>
                    if Ascii.eqb c' "}"%char then Decoded (VDict [], r)
                    else parse_members interp fuel' room' (c' :: r) []
                | [] => JSONDecodeError
                end
            end
          else if Ascii.eqb c "["%char then
            match room with
            | O => RecursionError (py "array")
            | S room' =>
                match skip_ws t with
                | c' :: r =>
                    if Ascii.eqb c' "]"%char then Decoded (VList [], r)
                    else parse_items interp fuel' room' (c' :: r) []
                | [] => JSONDecodeError
                end
            end
          else if Ascii.eqb c "n"%char then literal s "null" VNone
          else if Ascii.eqb c "t"%char then literal s "true" (VBool true)
          else if Ascii.eqb c "f"%char then literal s "false" (VBool false)
          else if Ascii.eqb c "N"%char then literal s "NaN" (VFloat (py "NaN"))
          else if Ascii.eqb c "I"%char
               then literal s "Infinity" (VFloat (py "Infinity"))
          else if startswith s (py "-Infinity")
               then literal s "-Infinity" (VFloat (py "-Infinity"))
          else scan_number interp s
      end
  end
with parse_items (interp : interpreter) (fuel room : nat) (s : str)
    (acc : list value) : decoded (value * str) :=
  match fuel with
  | O => JSONDecodeError
  | S fuel' =>
      match scan_once interp fuel' room s with
      | Decoded (v, r) =>
          match skip_ws r with
          | c :: r' =>
              if Ascii.eqb c "]"%char then Decoded (VList (rev (v :: acc)), r')
              else if Ascii.eqb c ","%char
                   then parse_items interp fuel' room (skip_ws r') (v :: acc)
                   else JSONDecodeError
          | [] => JSONDecodeError
          end
      | JSONDecodeError => JSONDecodeError
      | RecursionError container => RecursionError container
      | ValueError digits => ValueError digits
      end
  end
with parse_members (interp : interpreter) (fuel room : nat) (s : str)
    (acc : dict) : decoded (value * str) :=
  match fuel with
  | O => JSONDecodeError
  | S fuel' =>
      match s with
      | [] => JSONDecodeError
      | q :: t =>
          if Ascii.eqb q dquote then
            match scanstring (length s) t [] with
            | None => JSONDecodeError
            | Some (key, r) =>
                match skip_ws r with
                | c :: r' =>
                    if Ascii.eqb c ":"%char then
                      match scan_once interp fuel' room (skip_ws r') with
                      | Decoded (v, r2) =>
                          match skip_ws r2 with
                          | e :: r3 =>
                              if Ascii.eqb e "}"%char
                              then Decoded (VDict (dict_set acc key v), r3)
                              else if Ascii.eqb e ","%char
                                   then parse_members interp fuel' room
                                          (skip_ws r3) (dict_set acc key v)
                                   else JSONDecodeError
                          | [] => JSONDecodeError
                          end
                      | JSONDecodeError => JSONDecodeError
                      | RecursionError container => RecursionError container
                      | ValueError digits => ValueError digits
                      end
                    else JSONDecodeError
                | [] => JSONDecodeError
                end
            end
          else JSONDecodeError
      end
  end.

Definition json_loads (interp : interpreter) (s : str) : decoded value :=
  match scan_once interp (2 * length s + 2) (recursion_room interp)
          (skip_ws s) with
  | Decoded (v, rest) =>
      match skip_ws rest with
      | [] => Decoded v
      | _ :: _ => JSONDecodeError
      end
  | JSONDecodeError => JSONDecodeError
  | RecursionError container => RecursionError container
  | ValueError digits => ValueError digits
  end.

(** ** [json.dumps], with and without [indent]

    Strings are written with [ensure_ascii]: a character outside the
    printable ASCII range becomes an escape. *)

Fixpoint utf8_decode (s : str) : list N :=
  match s with
  | [] => []
  | a :: t =>
      let n := N_of_ascii a in
      if (n <? 192)%N then n :: utf8_decode t
      else if (n <? 224)%N then
        match t with
        | b :: t' =>
            ((n - 192) * 64 + (N_of_ascii b - 128))%N :: utf8_decode t'
        | [] => [n]
        end
      else if (n <? 240)%N then
        match t with
        | b :: c :: t' =>
            ((n - 224) * 4096 + (N_of_ascii b - 128) * 64
             + (N_of_ascii c - 128))%N :: utf8_decode t'
        | _ => n :: utf8_decode t
        end
      else
        match t with
        | b :: c :: d :: t' =>
            ((n - 240) * 262144 + (N_of_ascii b - 128) * 4096
             + (N_of_ascii c - 128) * 64 + (N_of_ascii d - 128))%N
            :: utf8_decode t'
        | _ => n :: utf8_decode t
        end
  end.

Definition hex_char (n : N) : ascii :=
  if (n <? 10)%N then ascii_of_N (48 + n) else ascii_of_N (87 + n).

Definition u_escape (cp : N) : str :=
  [backslash; "u"%char; hex_char (cp / 4096); hex_char ((cp / 256) mod 16);
   hex_char ((cp / 16) mod 16); hex_char (cp mod 16)].

Definition escape_code_point (cp : N) : str :=
  if (cp =? 34)%N then [backslash; dquote]
  else if (cp =? 92)%N then [backslash; backslash]
  else if (cp =? 10)%N then [backslash; "n"%char]
  else if (cp =? 13)%N then [backslash; "r"%char]
  else if (cp =? 9)%N then [backslash; "t"%char]
  else if (cp =? 8)%N then [backslash; "b"%char]
  else if (cp =? 12)%N then [backslash; "f"%char]
  else if (32 <=? cp)%N && (cp <=? 126)%N then [ascii_of_N cp]
  else if (cp <? 65536)%N then u_escape cp
  else u_escape (55296 + (cp - 65536) / 1024)
       ++ u_escape (56320 + (cp - 65536) mod 1024).

Definition dumps_str (s : str) : str :=
  [dquote] ++ concat (map escape_code_point (utf8_decode s)) ++ [dquote].

Definition str_of_Z (z : Z) : str :=
  if (z <? 0)%Z then "-"%char :: str_of_nat (Z.to_nat (- z))
  else str_of_nat (Z.to_nat z).

Definition spaces (n : nat) : str := replicate n " "%char.

Definition item_open (indent : option nat) (level : nat) : str :=
  match indent with
  | None => []
  | Some n => NL ++ spaces (n * S level)
  end.

Definition item_separator (indent : option nat) (level : nat) : str :=
  match indent with
  | None => py ", "
  | Some n => py "," ++ NL ++ spaces (n * S level)
  end.

Definition item_close (indent : option nat) (level : nat) : str :=
  match indent with
  | None => []
  | Some n => NL ++ spaces (n * level)
  end.

Fixpoint dumps_at (indent : option nat) (level : nat) (v : value) : str :=
  match v with
  | VNone => py "null"
  | VBool true => py "true"
  | VBool false => py "false"
  | VInt z => str_of_Z z
  | VFloat x => x
  | VStr s => dumps_str s
  | VList [] => py "[]"
  | VList l =>
      py "[" ++ item_open indent level
      ++ join (item_separator indent level)
           (map (dumps_at indent (S level)) l)
      ++ item_close indent level ++ py "]"
  | VDict [] => py "{}"
  | VDict d =>
      py "{" ++ item_open indent level
      ++ join (item_separator indent level)
           (map (fun kv => dumps_str kv.1 ++ py ": "
                           ++ dumps_at indent (S level) kv.2) d)
      ++ item_close indent level ++ py "}"
  end.

(** [json.dumps(v)] is [json_dumps None v]; [json.dumps(v, indent=2)] is
    [json_dumps (Some 2) v]. *)
Definition json_dumps (indent : option nat) (v : value) : str :=
  dumps_at indent 0 v.

(** ** [rag_chain.py]: the responses *)

(** A classification as the dictionary the classifier builds. *)
Definition classification_value (c : Cls.t) : value :=
  VDict [
    (py "category", VStr (Cls.category c));
    (py "severity", VStr (Cls.severity c));
    (py "hint", VStr (Cls.hint c));
    (py "matched_text",
      match Cls.matched_text c with
      | One m => VStr m
      | Many ms => VList (map VStr ms)
      end);
    (py "match_count", VInt (Z.of_nat (Cls.match_count c)))
  ].

(** [classifications or []], as the value handed to [json.dumps] *)
Definition classifications_value (classifications : option (list Cls.t))
  : value :=
  VList (map classification_value (default [] classifications)).

(** [[rb["filename"] for rb in runbooks]] *)
Definition filenames (runbooks : list Hit.t) : value :=
  VList (map (fun rb => VStr (Hit.filename rb)) runbooks).

Definition fence : str := py "```".

(** The text handed to [json.loads]: the reply without its code fence. *)
Definition cleaned_response (raw_response : str) : str :=
  let cleaned := strip raw_response in
  let cleaned :=
    if startswith cleaned (fence ++ py "json") then drop 7 cleaned
    else cleaned in
  let cleaned := if startswith cleaned fence then drop 3 cleaned else cleaned in
  let cleaned :=
    if endswith cleaned fence then slice_to cleaned (-3) else cleaned in
  strip cleaned.

(** What a call returns: a dictionary, or an exception with its message. *)
Inductive result :=
| Return (d : dict)
| Raise (msg : str).

(** The messages of the two errors that the decoder lets through. *)
Definition recursion_error_message (container : str) : str :=
  py "maximum recursion depth exceeded while decoding a JSON " ++ container
  ++ py " from a unicode string".

Definition value_error_message (interp : interpreter) (digits : nat) : str :=
  py "Exceeds the limit (" ++ str_of_nat (int_max_str_digits interp)
  ++ py " digits) for integer string conversion: value has "
  ++ str_of_nat digits
  ++ py " digits; use sys.set_int_max_str_digits() to increase the limit".

Definition _parse_llm_response (interp : interpreter) (raw_response : str)
    (runbooks : list Hit.t) : result :=
  match json_loads interp (cleaned_response raw_response) with
  | Decoded (VDict parsed) =>
      Return
        (setdefault (py "related_runbooks") (filenames runbooks)
        (setdefault (py "prevention_tips") (VList [])
        (setdefault (py "fix_commands") (VList [])
        (setdefault (py "explanation") (VStr raw_response)
        (setdefault (py "error_category") (VStr (py "Unknown"))
        (setdefault (py "severity") (VStr (py "MEDIUM"))
        (setdefault (py "root_cause")
           (VStr (py "Unable to determine root cause")) parsed)))))))
  | Decoded v =>
      (* [parsed.setdefault] on a value that is not a dictionary *)
      Raise (py "'" ++ type_name v
             ++ py "' object has no attribute 'setdefault'")
  | RecursionError container =>
      (* not a [JSONDecodeError]: the handler below does not catch it *)
      Raise (recursion_error_message container)
  | ValueError digits =>
      (* a plain ValueError, of which [JSONDecodeError] is a subclass *)
      Raise (value_error_message interp digits)
  | JSONDecodeError =>
      (* [except json.JSONDecodeError] *)
      Return [
        (py "root_cause", VStr (py "See explanation"));
        (py "severity", VStr (py "MEDIUM"));
        (py "error_category", VStr (py "Unknown"));
        (py "explanation", VStr raw_response);
        (py "fix_commands", VList []);
        (py "prevention_tips", VList []);
        (py "related_runbooks", filenames runbooks)
      ]
  end.

Definition fix_command (command description risk_level : string) : value :=
  VDict [
    (py "command", VStr (py command));
    (py "description", VStr (py description));
    (py "risk_level", VStr (py risk_level))
  ].

Definition _generate_mock_response (error_context : str)
    (classifications : option (list Cls.t)) (runbooks : list Hit.t) : dict :=
  let severity :=
    match classifications with
    | Some (c :: _) => Cls.severity c
    | _ => py "MEDIUM"
    end in
  let category :=
    match classifications with
    | Some (c :: _) => Cls.category c
    | _ => py "Unknown"
    end in
  [
    (py "root_cause",
      VStr (py "[MOCK] Detected " ++ category ++ py " error pattern"));
    (py "severity", VStr severity);
    (py "error_category", VStr category);
    (py "explanation",
      VStr (py "[MOCK MODE — No GOOGLE_API_KEY set]" ++ NL
            ++ py "Detected error patterns: "
            ++ json_dumps (Some 2) (classifications_value classifications)
            ++ NL ++ NL ++ py "Original error:" ++ NL
            ++ take 500 error_context));
    (py "fix_commands",
      VList [
        fix_command "kubectl describe pod <pod-name> -n <namespace>"
          "Get detailed pod information including events and conditions"
          "LOW";
        fix_command "kubectl logs <pod-name> -n <namespace> --previous"
          "Check logs from the previous crashed container instance"
          "LOW"
      ]);
    (py "prevention_tips",
      VList [
        VStr (py "Set proper resource requests and limits for all containers");
        VStr (py "Configure health probes with appropriate initialDelaySeconds")
      ]);
    (py "related_runbooks", filenames runbooks)
  ].

Definition _generate_fallback_response (error_msg : str)
    (classifications : option (list Cls.t)) (runbooks : list Hit.t) : dict :=
  [
    (py "root_cause",
      VStr (py "LLM analysis failed — see pre-classified errors below"));
    (py "severity",
      VStr match classifications with
           | Some (c :: _) => Cls.severity c
           | _ => py "MEDIUM"
           end);
    (py "error_category",
      VStr match classifications with
           | Some (c :: _) => Cls.category c
           | _ => py "Unknown"
           end);
    (py "explanation",
      VStr (py "The AI model could not be reached (" ++ error_msg
            ++ py "). However, pattern-based analysis detected: "
            ++ json_dumps None (classifications_value classifications)));
    (py "fix_commands",
      VList [
        fix_command
          "kubectl get events -n <namespace> --sort-by='.lastTimestamp'"
          "Check recent events in the namespace for clues"
          "LOW"
      ]);
    (py "prevention_tips",
      VList [VStr (py "Ensure GOOGLE_API_KEY is set and valid")]);
    (py "related_runbooks", filenames runbooks)
  ].

(** ** [rag_chain.py]: the pipeline *)

(** What invoking the reasoning engine gives: the text of its reply, or an
    exception with its message. *)
Inductive outcome :=
| Reply (content : str)
| Failure (msg : str).

Definition runbook_context (matching_runbooks : list Hit.t) : str :=
  match matching_runbooks with
  | [] => []
  | _ =>
      NL ++ NL ++ py "Relevant Internal Runbooks:" ++ NL
      ++ concat
           (map (fun rb =>
                   NL ++ py "--- " ++ Hit.title rb ++ py " ("
                   ++ Hit.filename rb ++ py ") ---" ++ NL
                   ++ Hit.summary rb ++ NL)
              matching_runbooks)
  end.

Definition classification_context (classifications : option (list Cls.t))
  : str :=
  match classifications with
  | Some (c :: cs) => NL ++ NL ++ format_classifications_for_prompt (c :: cs)
  | _ => []
  end.

(** The prompt; [k8s_context] is the summary of the cluster snapshot, which
    the assembler renders from data of the collector. *)
Definition full_prompt (error_context : str)
    (classifications : option (list Cls.t)) (k8s_context : str)
    (matching_runbooks : list Hit.t) : str :=
  NL ++ py "--- Developer Error Report ---" ++ NL
  ++ error_context ++ NL
  ++ classification_context classifications ++ NL
  ++ k8s_context ++ NL
  ++ runbook_context matching_runbooks ++ NL ++ NL
  ++ py "Analyze this error comprehensively and respond in the required JSON format."
  ++ NL.

(** [analyze_devops_issue], given the interpreter, the configured key, the
    reasoning engine (called with the prompt, under the fixed system
    instruction) and the state of the runbook store. *)
Definition analyze_devops_issue (interp : interpreter) (google_api_key : str)
    (llm : str -> outcome) (dir : directory) (cache : list Rb.t)
    (error_context : str) (classifications : option (list Cls.t))
    (k8s_context : str) : dict :=
  let matching_runbooks := search_runbooks dir cache error_context 3 in
  let prompt :=
    full_prompt error_context classifications k8s_context matching_runbooks in
  match google_api_key with
  | _ :: _ =>
      match llm prompt with
      | Reply content =>
          match _parse_llm_response interp content matching_runbooks with
          | Return parsed => parsed
          | Raise e =>
              _generate_fallback_response e classifications matching_runbooks
          end
      | Failure e =>
          _generate_fallback_response e classifications matching_runbooks
      end
  | [] =>
      _generate_mock_response error_context classifications matching_runbooks
  end.

(** A text of whitespace only. *)
Definition blank (ws : str) : Prop := Forall (fun c => isspace c = true) ws.

(** A JSON string literal, for writing replies down. *)
Definition quoted (s : string) : str := dquote :: py s ++ [dquote].

(** The whole ranking of a search: the documents that hold a query word,
    scored and sorted, before the cut at [top_k]. *)
Definition ranking (dir : directory) (cache : list Rb.t) (query : str)
  : list Hit.t :=
  stable_sort by_score
    (map (scored_entry (query_words query))
       (filter (fun rb => 0 < overlap query rb) (load_runbooks dir cache))).

(** ** [main.py]: the runbook endpoint *)

Module Suggestion.
Record t := mk {
  query : str;
  results : list Hit.t;
  total_matched : nat
}.
End Suggestion.

(** [suggest_runbook], for a request body with [error_message] and
    [top_k]; the body model puts no bound on [top_k]. *)
Definition suggest_runbook (dir : directory) (cache : list Rb.t)
    (error_message : str) (top_k : Z) : Suggestion.t :=
  let results := search_runbooks dir cache error_message top_k in
  {| Suggestion.query := error_message;
     Suggestion.results := results;
     Suggestion.total_matched := length results |}.

(** A classification with its excerpts rewritten by [f]. *)
Definition map_excerpts (f : str -> str) (c : Cls.t) : Cls.t :=
  {| Cls.category := Cls.category c;
     Cls.severity := Cls.severity c;
     Cls.hint := Cls.hint c;
     Cls.matched_text :=
       match Cls.matched_text c with
       | One m => One (f m)
       | Many ms => Many (map f ms)
       end;
     Cls.match_count := Cls.match_count c |}.

(** The defaults that [_parse_llm_response] fills in, in the order of its
    [setdefault] calls. *)
Definition response_defaults (raw_response : str) (runbooks : list Hit.t)
  : dict :=
  [
    (py "root_cause", VStr (py "Unable to determine root cause"));
    (py "severity", VStr (py "MEDIUM"));
    (py "error_category", VStr (py "Unknown"));
    (py "explanation", VStr raw_response);
    (py "fix_commands", VList []);
    (py "prevention_tips", VList []);
    (py "related_runbooks", filenames runbooks)
  ].

(** The fields that every diagnosis has. *)
Definition response_fields : list str :=
  map py ["root_cause"; "severity"; "error_category"; "explanation";
          "fix_commands"; "prevention_tips"; "related_runbooks"]%string.

(** ** [main.py]: the severity and the category of a diagnosis

    [Severity(v)] and [ErrorCategory(v)] give the member whose value is
    [v]; for any other value they raise ValueError, here [None]. *)

Definition Severity_of (v : value) : option Severity :=
  match v with
  | VStr s =>
      List.find (fun member => bool_decide (Severity_value member = s))
        [CRITICAL; HIGH; MEDIUM; LOW; INFO]
  | _ => None
  end.

Definition ErrorCategory_of (v : value) : option ErrorCategory :=
  match v with
  | VStr s =>
      List.find (fun member => bool_decide (ErrorCategory_value member = s))
        [OOM_KILLED; CRASH_LOOP; IMAGE_PULL; CONFIG_ERROR; READINESS_PROBE;
         LIVENESS_PROBE; RESOURCE_QUOTA; PERMISSION_DENIED;
         TERRAFORM_STATE_LOCK; TERRAFORM_PROVIDER; CI_CD_FAILURE;
         NETWORK_ERROR; UNKNOWN]
  | _ => None
  end.

(** The severity that [diagnose] puts in its response: the one of the
    analysis when it is a severity, otherwise the highest one of the
    classifications, or MEDIUM when there is none. *)
Definition response_severity (analysis : dict) (classifications : list Cls.t)
  : Severity :=
  match Severity_of (default (VStr (py "MEDIUM"))
                       (dict_get analysis (py "severity"))) with
  | Some severity => severity
  | None =>
      match classifications with
      | [] => MEDIUM
      | _ :: _ => get_highest_severity classifications
      end
  end.

(** The category that [diagnose] puts in its response. *)
Definition response_category (analysis : dict) : ErrorCategory :=
  default UNKNOWN
    (ErrorCategory_of (default (VStr (py "Unknown"))
                         (dict_get analysis (py "error_category")))).

(** ** [rag_chain.py]: the cluster snapshot in the prompt *)

(** [v[:10]]: a list and a string can be sliced, any other value raises,
    here [None]. *)
Definition first_ten (v : value) : option value :=
  match v with
  | VList l => Some (VList (take 10 l))
  | VStr s => Some (VStr (take 10 s))
  | _ => None
  end.

(** [lines[-50:]] *)
Definition last_fifty {A} (lines : list A) : list A :=
  drop (length lines - 50) lines.

(** One part of the summary for a key that is dumped as it is. *)
Definition dumped_part (k8s_data : dict) (key title : string) : list str :=
  match dict_get k8s_data (py key) with
  | Some v => [py title ++ json_dumps (Some 2) v]
  | None => []
  end.

(** [k8s_summary_parts], in the order in which they are appended; [None]
    when slicing the events raises. *)
Definition k8s_summary_parts (k8s_data : dict) : option (list str) :=
  let containers := dumped_part k8s_data "containers" "Container Statuses: " in
  let conditions :=
    dumped_part k8s_data "conditions" "Deployment Conditions: " in
  let resource_spec := dumped_part k8s_data "resource_spec" "Resource Spec: " in
  let recent_logs :=
    match dict_get k8s_data (py "recent_logs") with
    | Some (VStr logs) =>
        [py "Recent Pod Logs (last 50 lines):" ++ NL
         ++ join NL (last_fifty (split_on "010"%char (strip logs)))]
    | _ => []
    end in
  match dict_get k8s_data (py "events") with
  | Some events =>
      match first_ten events with
      | Some shown =>
          Some (containers
                ++ [py "Recent Events: " ++ json_dumps (Some 2) shown]
                ++ conditions ++ resource_spec ++ recent_logs)
      | None => None
      end
  | None => Some (containers ++ conditions ++ resource_spec ++ recent_logs)
  end.

(** The [k8s_context] that [analyze_devops_issue] renders from its
    [k8s_data] argument; [None] when rendering raises. *)
Definition k8s_context_of (k8s_data : option dict) : option str :=
  match k8s_data with
  | None | Some [] => Some []
  | Some d =>
      match k8s_summary_parts d with
      | None => None
      | Some [] => Some []
      | Some parts =>
          Some (NL ++ NL ++ py "Live Kubernetes Cluster Data:" ++ NL
                ++ join (NL ++ NL) parts)
      end
  end.

(** [analyze_devops_issue] on a snapshot; the snapshot is rendered before
    the guarded block, so an exception there leaves the function. *)
Definition analyze_devops_issue_snapshot (interp : interpreter)
    (google_api_key : str)
    (llm : str -> outcome) (dir : directory) (cache : list Rb.t)
    (error_context : str) (classifications : option (list Cls.t))
    (k8s_data : option dict) : option dict :=
  analyze_devops_issue interp google_api_key llm dir cache error_context
    classifications <$> k8s_context_of k8s_data.

(** The keys of a snapshot that the prompt is built from. *)
Definition summary_keys : list str :=
  map py ["containers"; "events"; "conditions"; "resource_spec";
          "recent_logs"]%string.

(** ** [k8s_collector.py] and [main.py]: the health of the cluster *)

(** What the collector reads of a node that [list_node] returned: its
    name, the conditions of its status as (type, status) pairs and its
    allocatable resources; the last two may be missing. *)
Module Node.
Record t := mk {
  name : str;
  conditions : option (list (str * str));
  allocatable : option (gmap str str);
}.
End Node.

(** The answer of a listing call of the API: the items, or an
    [ApiException] with its reason. *)
Inductive listing (A : Type) : Type :=
  | Items (items : list A)
  | ApiException (reason : str).
Arguments Items {A} items.
Arguments ApiException {A} reason.

(** [{c.type: c.status for c in conditions}]: a later condition of a type
    replaces an earlier one. *)
Definition condition_map (conditions : list (str * str)) : gmap str str :=
  foldl (fun m c => <[c.1 := c.2]> m) ∅ conditions.

Module NodeInfo.
Record t := mk {
  name : str;
  ready : str;
  memory_pressure : bool;
  disk_pressure : bool;
  pid_pressure : bool;
  allocatable_cpu : str;
  allocatable_memory : str;
}.
End NodeInfo.

(** [allocatable.get(key, "?") if allocatable else "?"]; an empty dict is
    false. *)
Definition allocatable_of (allocatable : option (gmap str str)) (key : str)
  : str :=
  match allocatable with
  | Some resources =>
      if decide (resources = ∅) then py "?"
      else default (py "?") (resources !! key)
  | None => py "?"
  end.

(** The [node_info] of one node. *)
Definition node_info (node : Node.t) : NodeInfo.t :=
  let conditions := condition_map (default [] (Node.conditions node)) in
  let is_true (type : string) :=
    bool_decide (default (py "False") (conditions !! py type) = py "True") in
  {| NodeInfo.name := Node.name node;
     NodeInfo.ready := default (py "Unknown") (conditions !! py "Ready");
     NodeInfo.memory_pressure := is_true "MemoryPressure";
     NodeInfo.disk_pressure := is_true "DiskPressure";
     NodeInfo.pid_pressure := is_true "PIDPressure";
     NodeInfo.allocatable_cpu := allocatable_of (Node.allocatable node) (py "cpu");
     NodeInfo.allocatable_memory :=
       allocatable_of (Node.allocatable node) (py "memory") |}.

(** The keys of the result of [collect_cluster_health] that
    [cluster_health] reads, each present or not, with the two keys that say
    why the nodes are missing.  (The autoscalers and quotas, which
    [cluster_health] never reads, are not modelled.) *)
Module Health.
Record t := mk {
  error : option str;
  nodes : option (list NodeInfo.t);
  total_nodes : option nat;
  ready_nodes : option nat;
  nodes_error : option str;
}.
End Health.

Definition collect_cluster_health (_k8s_available : bool)
    (list_node : listing Node.t) : Health.t :=
  if negb _k8s_available then
    {| Health.error := Some (py "Kubernetes not available");
       Health.nodes := None; Health.total_nodes := None;
       Health.ready_nodes := None; Health.nodes_error := None |}
  else
    match list_node with
    | Items items =>
        let node_list := map node_info items in
        {| Health.error := None;
           Health.nodes := Some node_list;
           Health.total_nodes := Some (length node_list);
           Health.ready_nodes :=
             Some (length (filter (fun n => NodeInfo.ready n = py "True")
                             node_list));
           Health.nodes_error := None |}
    | ApiException reason =>
        {| Health.error := None;
           Health.nodes := None; Health.total_nodes := None;
           Health.ready_nodes := None; Health.nodes_error := Some reason |}
    end.

Module PodHealthSummary.
Record t := mk {
  name : str;
  namespace : str;
  status : str;
  restarts : Z;
  ready : bool;
  age : str;
  issues : list str;
}.
End PodHealthSummary.

Module NodeHealthSummary.
Record t := mk {
  name : str;
  status : str;
  conditions : list str;
  cpu_pressure : bool;
  memory_pressure : bool;
  disk_pressure : bool;
}.
End NodeHealthSummary.

(** [ClusterHealthResponse] without its request id and its timestamp. *)
Module ClusterHealthResponse.
Record t := mk {
  cluster_status : str;
  total_nodes : nat;
  ready_nodes : nat;
  total_pods : nat;
  unhealthy_pods : list PodHealthSummary.t;
  node_issues : list NodeHealthSummary.t;
  warnings : list str;
}.
End ClusterHealthResponse.

(** One turn of the loop over the nodes in [cluster_health]: what it
    appends to [node_issues]. *)
Definition node_issue (node : NodeInfo.t) : list NodeHealthSummary.t :=
  if NodeInfo.memory_pressure node || NodeInfo.disk_pressure node
     || NodeInfo.pid_pressure node
  then
    let issues :=
      (if NodeInfo.memory_pressure node then [py "MemoryPressure"] else [])
      ++ (if NodeInfo.disk_pressure node then [py "DiskPressure"] else [])
      ++ (if NodeInfo.pid_pressure node then [py "PIDPressure"] else []) in
    [ {| NodeHealthSummary.name := NodeInfo.name node;
         NodeHealthSummary.status := py "Degraded";
         NodeHealthSummary.conditions := issues;
         NodeHealthSummary.cpu_pressure := false;
         NodeHealthSummary.memory_pressure := NodeInfo.memory_pressure node;
         NodeHealthSummary.disk_pressure := NodeInfo.disk_pressure node |} ]
  else [].

(** [cluster_health] (main.py), given whether Kubernetes is configured
    and what [list_node] answers. *)
Definition cluster_health (_k8s_available : bool)
    (list_node : listing Node.t) : ClusterHealthResponse.t :=
  if negb _k8s_available then
    {| ClusterHealthResponse.cluster_status := py "UNKNOWN";
       ClusterHealthResponse.total_nodes := 0;
       ClusterHealthResponse.ready_nodes := 0;
       ClusterHealthResponse.total_pods := 0;
       ClusterHealthResponse.unhealthy_pods := [];
       ClusterHealthResponse.node_issues := [];
       ClusterHealthResponse.warnings :=
         [py "Kubernetes is not configured. Cannot collect cluster health."] |}
  else
    let health := collect_cluster_health _k8s_available list_node in
    let node_issues := flat_map node_issue (default [] (Health.nodes health)) in
    let total_nodes := default 0 (Health.total_nodes health) in
    let ready_nodes := default 0 (Health.ready_nodes health) in
    let cluster_status :=
      if (ready_nodes =? 0) && (0 <? total_nodes) then py "CRITICAL"
      else if negb (bool_decide (node_issues = [])) || (ready_nodes <? total_nodes)
           then py "DEGRADED"
           else py "HEALTHY" in
    {| ClusterHealthResponse.cluster_status := cluster_status;
       ClusterHealthResponse.total_nodes := total_nodes;
       ClusterHealthResponse.ready_nodes := ready_nodes;
       ClusterHealthResponse.total_pods := 0;
       ClusterHealthResponse.unhealthy_pods := [];
       ClusterHealthResponse.node_issues := node_issues;
       ClusterHealthResponse.warnings := [] |}.

(** The nodes that a listing answered with. *)
Definition listed {A} (answer : listing A) : list A :=
  match answer with
  | Items items => items
  | ApiException _ => []
  end.

(** A node is ready when the last condition of type Ready in its status
    says True; it is under pressure when one of its memory, disk and PID
    pressure conditions does. *)
Definition is_ready (node : Node.t) : Prop :=
  NodeInfo.ready (node_info node) = py "True".

Definition under_pressure (node : Node.t) : Prop :=
  NodeInfo.memory_pressure (node_info node) = true
  \/ NodeInfo.disk_pressure (node_info node) = true
  \/ NodeInfo.pid_pressure (node_info node) = true.

#[global] Instance under_pressure_dec (node : Node.t) :
  Decision (under_pressure node).
Proof. unfold under_pressure. apply _. Defined.

(** ** [main.py]: the cluster data of a diagnosis *)

(** [d.update(other)] *)
Definition dict_update (d other : dict) : dict :=
  foldl (fun d item => dict_set d item.1 item.2) d other.

(** Step 2 of [diagnose]: the cluster data collected for a request, given
    whether Kubernetes is configured and the three collectors, and what is
    handed to the analysis and returned as [k8s_context]: [None] for empty
    data.  A name that is missing or empty is false. *)
Definition diagnose_k8s_data (is_k8s_available : bool)
    (collect_pod_details collect_deployment_details : str -> str -> dict)
    (collect_namespace_overview : str -> dict)
    (pod_name deployment_name : option str) (namespace : str)
    (include_cluster_health : bool) : option dict :=
  let k8s_data : dict := [] in
  let k8s_data :=
    if is_k8s_available then
      let k8s_data :=
        match pod_name with
        | Some ((_ :: _) as name) => collect_pod_details name namespace
        | _ => k8s_data
        end in
      let k8s_data :=
        match deployment_name with
        | Some ((_ :: _) as name) =>
            dict_update k8s_data (collect_deployment_details name namespace)
        | _ => k8s_data
        end in
      if include_cluster_health
      then dict_set k8s_data (py "namespace_overview")
             (VDict (collect_namespace_overview namespace))
      else k8s_data
    else k8s_data in
  match k8s_data with
  | [] => None
  | _ => Some k8s_data
  end.

(** ** [main.py]: the runbooks of a diagnosis *)

Module RelatedRunbook.
Record t := mk {
  title : str;
  filename : str;
  relevance_score : Q;
  summary : str
}.
End RelatedRunbook.

(** What a [for] runs through: the items of a list, the characters of a
    string, the keys of a dictionary; any other value cannot be iterated,
    here [None]. *)
Definition iterate (v : value) : option (list value) :=
  match v with
  | VList l => Some l
  | VStr s => Some (map (fun c => VStr [c]) s)
  | VDict d => Some (map (fun item => VStr item.1) d)
  | _ => None
  end.

(** The model classes of [models.py] check the values they are built
    from.  A string given for a field declared [str] is taken as it is, and
    so is a list for a field declared [List], element by element.  What the
    validation library does with a value of another type, convert it or
    refuse it, differs between its versions and is left open here: [None]
    stands for its ValidationError.  [related_runbook_model] stands for
    [RelatedRunbook] called with the entries of a value as its keywords. *)
Record pydantic := {
  lax_str : value -> option str;
  lax_list : value -> option (list value);
  related_runbook_model : value -> option RelatedRunbook.t
}.

(** A value for a field declared [str]. *)
Definition str_field (validation : pydantic) (v : value) : option str :=
  match v with
  | VStr text => Some text
  | _ => lax_str validation v
  end.

(** A value for a field declared [List[str]]. *)
Definition list_str_field (validation : pydantic) (v : value)
  : option (list str) :=
  items ← match v with
          | VList l => Some l
          | _ => lax_list validation v
          end;
  mapM (str_field validation) items.

Module FixCommand.
Record t := mk {
  command : str;
  description : str;
  risk_level : str
}.
End FixCommand.

(** One command of the response: [cmd.get] needs a dictionary, any other
    value has no [get] and raises AttributeError; the three values go to
    the model class. *)
Definition fix_command_of (validation : pydantic) (cmd : value)
  : option FixCommand.t :=
  match cmd with
  | VDict d =>
      command ← str_field validation
                  (default (VStr []) (dict_get d (py "command")));
      description ← str_field validation
                      (default (VStr []) (dict_get d (py "description")));
      risk_level ← str_field validation
                     (default (VStr (py "LOW"))
                        (dict_get d (py "risk_level")));
      Some {| FixCommand.command := command;
              FixCommand.description := description;
              FixCommand.risk_level := risk_level |}
  | _ => None
  end.

(** [fix_commands] in step 4 of [diagnose]; [None] when building the list
    raises. *)
Definition fix_commands_of (validation : pydantic) (analysis : dict)
  : option (list FixCommand.t) :=
  items ← iterate (default (VList []) (dict_get analysis (py "fix_commands")));
  mapM (fix_command_of validation) items.

(** One reference of the response: a string becomes the title and the
    file name of a reference with the score 0.8; any other value goes to
    the model class as keywords. *)
Definition related_runbook (validation : pydantic) (rb : value)
  : option RelatedRunbook.t :=
  match rb with
  | VStr name =>
      Some {| RelatedRunbook.title := name;
              RelatedRunbook.filename := name;
              RelatedRunbook.relevance_score := 8 # 10;
              RelatedRunbook.summary := [] |}
  | _ => related_runbook_model validation rb
  end.

(** [related_runbooks] in step 4 of [diagnose]; [None] when building the
    list raises. *)
Definition related_runbooks_of (validation : pydantic) (analysis : dict)
  : option (list RelatedRunbook.t) :=
  items ← iterate (default (VList [])
                     (dict_get analysis (py "related_runbooks")));
  mapM (related_runbook validation) items.

(** ** [main.py]: the diagnosis *)

(** [DiagnoseResponse] without its request id and its timestamp, and
    without [k8s_context], which repeats the collected cluster data. *)
Module DiagnoseResponse.
Record t := mk {
  severity : Severity;
  error_category : ErrorCategory;
  root_cause : str;
  explanation : str;
  fix_commands : list FixCommand.t;
  prevention_tips : list str;
  related_runbooks : list RelatedRunbook.t;
  classified_errors : option (list Cls.t)
}.
End DiagnoseResponse.

(** Step 4 of [diagnose]: the response built from the analysis, in the
    order of the source; [None] when a step raises or the validation
    refuses a value. *)
Definition build_response (validation : pydantic) (analysis : dict)
    (classifications : list Cls.t) : option DiagnoseResponse.t :=
  fix_commands ← fix_commands_of validation analysis;
  related_runbooks ← related_runbooks_of validation analysis;
  let severity := response_severity analysis classifications in
  let error_category := response_category analysis in
  root_cause ← str_field validation
                 (default (VStr (py "Unknown"))
                    (dict_get analysis (py "root_cause")));
  explanation ← str_field validation
                  (default (VStr (py "No analysis available"))
                     (dict_get analysis (py "explanation")));
  prevention_tips ← list_str_field validation
                      (default (VList [])
                         (dict_get analysis (py "prevention_tips")));
  Some {| DiagnoseResponse.severity := severity;
          DiagnoseResponse.error_category := error_category;
          DiagnoseResponse.root_cause := root_cause;
          DiagnoseResponse.explanation := explanation;
          DiagnoseResponse.fix_commands := fix_commands;
          DiagnoseResponse.prevention_tips := prevention_tips;
          DiagnoseResponse.related_runbooks := related_runbooks;
          DiagnoseResponse.classified_errors :=
            match classifications with
            | [] => None
            | _ => Some classifications
            end |}.

(** Steps 1, 3 and 4 of [diagnose], for cluster data that is collected
    ([diagnose_k8s_data]) and rendered ([k8s_context_of]) already: classify
    the message, analyze it with the classifications, and build the
    response.  All of it runs inside one [try]: an exception in any step
    ends the request with HTTP status 500, here [None]. *)
Definition diagnose (interp : interpreter) (validation : pydantic)
    (google_api_key : str) (llm : str -> outcome)
    (dir : directory) (cache : list Rb.t) (error_message k8s_context : str)
  : option DiagnoseResponse.t :=
  let classifications := classify_errors error_message in
  let analysis :=
    analyze_devops_issue interp google_api_key llm dir cache error_message
      (Some classifications) k8s_context in
  build_response validation analysis classifications.

(** The severity and the category of the response of [diagnose]. *)
Definition diagnose_verdict (interp : interpreter) (validation : pydantic)
    (google_api_key : str) (llm : str -> outcome)
    (dir : directory) (cache : list Rb.t) (error_message k8s_context : str)
  : option (Severity * ErrorCategory) :=
  (fun response =>
     (DiagnoseResponse.severity response,
      DiagnoseResponse.error_category response))
  <$> diagnose interp validation google_api_key llm dir cache error_message
        k8s_context.

(** A validation that refuses every value that is not of the declared
    type. *)
Definition strict : pydantic :=
  {| lax_str := fun _ => None;
     lax_list := fun _ => None;
     related_runbook_model := fun _ => None |}.

(* ===================================================================== *)
(** * Properties *)

(** ** The stable sort *)

Section StableSortFacts.
Context {A : Type} (leb : A -> A -> bool).
Hypothesis leb_total : forall x y, leb x y = true \/ leb y x = true.
Hypothesis leb_trans :
  forall x y z, leb x y = true -> leb y z = true -> leb x z = true.

Lemma insert_sorted_perm (x : A) (l : list A) :
  insert_sorted leb x l ≡ₚ x :: l.
Proof.
  induction l as [|y l IH]; simpl; [done|].
  destruct (leb x y); [done|].
  rewrite IH. apply Permutation_swap.
Qed.

Lemma stable_sort_perm (l : list A) : stable_sort leb l ≡ₚ l.
Proof.
  induction l as [|x l IH]; simpl; [done|].
  by rewrite insert_sorted_perm, IH.
Qed.

Lemma insert_sorted_sorted (x : A) (l : list A) :
  StronglySorted (fun a b => leb a b = true) l ->
  StronglySorted (fun a b => leb a b = true) (insert_sorted leb x l).
Proof.
  induction 1 as [|y l Hs IH Hall]; simpl.
  - repeat constructor.
  - destruct (leb x y) eqn:Hxy.
    + constructor; [by constructor|].
      constructor; [done|].
      eapply Forall_impl; [exact Hall|]. intros z Hz. by eapply leb_trans.
    + constructor; [done|].
      rewrite insert_sorted_perm. constructor; [|done].
      destruct (leb_total x y) as [H|H]; congruence.
Qed.

Lemma stable_sort_sorted (l : list A) :
  StronglySorted (fun a b => leb a b = true) (stable_sort leb l).
Proof.
  induction l as [|x l IH]; simpl; [constructor|].
  by apply insert_sorted_sorted.
Qed.

(** Elements that the order does not tell apart keep their order. *)
Lemma insert_sorted_filter (P : A -> Prop) `{!forall a, Decision (P a)}
    (x : A) (l : list A) :
  (forall a b, P a -> P b -> leb a b = true) ->
  filter P (insert_sorted leb x l) = filter P (x :: l).
Proof.
  intros HP. induction l as [|y l IH]; simpl; [done|].
  destruct (leb x y) eqn:Hxy; [done|].
  rewrite filter_cons, IH, !filter_cons.
  destruct (decide (P y)) as [Hy|Hy]; [|done].
  destruct (decide (P x)) as [Hx|Hx]; [|done].
  rewrite (HP x y Hx Hy) in Hxy. discriminate.
Qed.

Lemma stable_sort_filter (P : A -> Prop) `{!forall a, Decision (P a)}
    (l : list A) :
  (forall a b, P a -> P b -> leb a b = true) ->
  filter P (stable_sort leb l) = filter P l.
Proof.
  intros HP. induction l as [|x l IH]; simpl; [done|].
  rewrite insert_sorted_filter by done.
  by rewrite !filter_cons, IH.
Qed.
End StableSortFacts.

(** ** The detectors consume text *)

Lemma rmatch_le (r : regex) :
  forall (s : str) (k : str -> option str) (x : str),
    rmatch r s k = Some x ->
    exists s', k s' = Some x /\ length s' <= length s.
Proof.
  induction r as [|c| | | |lo hi|r1 IH1 r2 IH2|r1 IH1 r2 IH2|r IH];
    intros s k x H; simpl in H;
    try (destruct s as [|a s]; [discriminate H|];
         match type of H with
         | (if ?b then _ else _) = _ => destruct b; [|discriminate H]
         end;
         exists s; split; [exact H|simpl; lia]).
  - exists s. split; [exact H|lia].
  - apply IH1 in H as (s1 & H & Hle1).
    apply IH2 in H as (s2 & H & Hle2).
    exists s2. split; [exact H|lia].
  - destruct (rmatch r1 s k) as [y|] eqn:H1.
    + injection H as ->. by apply IH1 in H1.
    + by apply IH2 in H.
  - revert H. generalize (length s) at 1. intros n. revert s x.
    induction n as [|n IHn]; intros s x H.
    + exists s. split; [exact H|lia].
    + destruct (rmatch r s _) as [y|] eqn:H1.
      * injection H as ->. apply IH in H1 as (s1 & H1 & Hle1).
        destruct (Nat.ltb_spec (length s1) (length s)); [|discriminate H1].
        apply IHn in H1 as (s2 & H2 & Hle2).
        exists s2. split; [exact H2|lia].
      * exists s. split; [exact H|lia].
Qed.

Lemma rmatch_lt (r : regex) :
  nullable r = false ->
  forall (s : str) (k : str -> option str) (x : str),
    rmatch r s k = Some x ->
    exists s', k s' = Some x /\ length s' < length s.
Proof.
  induction r as [|c| | | |lo hi|r1 IH1 r2 IH2|r1 IH1 r2 IH2|r IH];
    intros Hn s k x H; simpl in Hn; try discriminate Hn; simpl in H;
    try (destruct s as [|a s]; [discriminate H|];
         match type of H with
         | (if ?b then _ else _) = _ => destruct b; [|discriminate H]
         end;
         exists s; split; [exact H|simpl; lia]).
  - apply andb_false_iff in Hn as [Hn|Hn].
    + apply (IH1 Hn) in H as (s1 & H & Hlt).
      apply rmatch_le in H as (s2 & H & Hle).
      exists s2. split; [exact H|lia].
    + apply rmatch_le in H as (s1 & H & Hle).
      apply (IH2 Hn) in H as (s2 & H & Hlt).
      exists s2. split; [exact H|lia].
  - apply orb_false_iff in Hn as [Hn1 Hn2].
    destruct (rmatch r1 s k) as [y|] eqn:H1.
    + injection H as ->. by apply (IH1 Hn1) in H1.
    + by apply (IH2 Hn2) in H.
Qed.

(** A detector that cannot match the empty string yields no empty
    excerpt, so [findall] never takes its empty-match step. *)
Lemma findall_from_nonempty (r : regex) (fuel : nat) (s : str) :
  nullable r = false -> Forall (fun m => m <> []) (findall_from fuel r s).
Proof.
  intros Hn. revert s. induction fuel as [|fuel IH]; intros s; simpl.
  - constructor.
  - destruct (rmatch r s Some) as [rest|] eqn:Hm.
    + apply (rmatch_lt r Hn) in Hm as (s' & [= ->] & Hlt).
      destruct (take (length s - length rest) s) as [|a m] eqn:Ht.
      * apply (f_equal length) in Ht. rewrite length_take in Ht.
        simpl in Ht. lia.
      * constructor; [discriminate|apply IH].
    + destruct s; [constructor|apply IH].
Qed.

Lemma registry_not_nullable :
  Forall (fun e => nullable (Entry.pattern e) = false) ERROR_PATTERNS.
Proof. repeat constructor. Qed.

Lemma registry_excerpts_nonempty (text : str) (e : Entry.t) :
  e ∈ ERROR_PATTERNS ->
  Forall (fun m => m <> []) (findall (Entry.pattern e) text).
Proof.
  intros He. apply findall_from_nonempty.
  pose proof registry_not_nullable as H.
  rewrite Forall_forall in H. by apply H.
Qed.

(** ** The classifier *)

Lemma ErrorCategory_value_inj : Inj (=) (=) ErrorCategory_value.
Proof. intros [] [] H; first [reflexivity | discriminate H]. Qed.

Lemma severity_order_value (s : Severity) :
  severity_order (Severity_value s) =
  match s with CRITICAL => 0 | HIGH => 1 | MEDIUM => 2 | LOW => 3 | INFO => 4 end.
Proof. by destruct s. Qed.

Lemma severity_order_unmapped (s : str) :
  (forall v, s <> Severity_value v) -> severity_order s = 5.
Proof.
  intros H. unfold severity_order.
  repeat (case_decide; [by exfalso; eapply H|]). done.
Qed.

Lemma by_severity_total x y : by_severity x y = true \/ by_severity y x = true.
Proof. unfold by_severity. rewrite !Nat.leb_le. lia. Qed.

Lemma by_severity_trans x y z :
  by_severity x y = true -> by_severity y z = true -> by_severity x z = true.
Proof. unfold by_severity. rewrite !Nat.leb_le. lia. Qed.

Section Scan.
Variable text : str.

Lemma scan_step_winners (registry : list Entry.t) cs seen :
  (foldl (scan_step text) (cs, seen) registry).1
  = cs ++ map (classification_of text) (winners text seen registry).
Proof.
  revert cs seen. induction registry as [|e reg IH]; intros cs seen; simpl.
  - by rewrite app_nil_r.
  - unfold scan_step at 2. simpl. fold (detects text e).
    destruct (bool_decide (detects text e)
              && bool_decide (Entry.category e ∉ seen)); simpl.
    + rewrite IH. by rewrite <- app_assoc.
    + apply IH.
Qed.

Lemma scan_winners (registry : list Entry.t) :
  (scan registry text).1
  = map (classification_of text) (winners text ∅ registry).
Proof. unfold scan. by rewrite scan_step_winners. Qed.

Lemma winners_sublist seen registry :
  winners text seen registry `sublist_of` registry.
Proof.
  revert seen. induction registry as [|e reg IH]; intros seen; simpl.
  - done.
  - destruct (_ && _).
    + by apply sublist_skip.
    + by apply sublist_cons.
Qed.

Lemma winners_fresh seen registry e :
  e ∈ winners text seen registry -> Entry.category e ∉ seen.
Proof.
  revert seen. induction registry as [|e' reg IH]; intros seen; simpl.
  - by rewrite elem_of_nil.
  - destruct (bool_decide (detects text e')
              && bool_decide (Entry.category e' ∉ seen)) eqn:Hb.
    + apply andb_prop in Hb as [_ Hb%bool_decide_eq_true].
      rewrite elem_of_cons. intros [->|Hin]; [done|].
      apply IH in Hin. set_solver.
    + apply IH.
Qed.

Lemma winners_NoDup seen registry :
  NoDup (map Entry.category (winners text seen registry)).
Proof.
  revert seen. induction registry as [|e reg IH]; intros seen; simpl.
  - constructor.
  - destruct (_ && _); [|apply IH].
    simpl. constructor; [|apply IH].
    rewrite list_elem_of_fmap. intros (e' & Heq & Hin).
    apply winners_fresh in Hin. set_solver.
Qed.

(** A recorded entry matches, and no earlier entry of its category does. *)
Lemma winners_first seen registry e :
  e ∈ winners text seen registry ->
  exists i,
    registry !! i = Some e /\ detects text e /\
    forall j e', j < i -> registry !! j = Some e' ->
                 Entry.category e' = Entry.category e -> ~ detects text e'.
Proof.
  revert seen. induction registry as [|e0 reg IH]; intros seen; simpl.
  - by rewrite elem_of_nil.
  - destruct (bool_decide (detects text e0)
              && bool_decide (Entry.category e0 ∉ seen)) eqn:Hb.
    + apply andb_prop in Hb as [Hd%bool_decide_eq_true _].
      rewrite elem_of_cons. intros [->|Hin].
      * exists 0. split; [done|]. split; [done|]. intros; lia.
      * pose proof (winners_fresh _ _ _ Hin) as Hfresh.
        destruct (IH _ Hin) as (i & Hi & Hdet & Hfirst).
        exists (S i). split; [done|]. split; [done|].
        intros [|j] e' Hj Hlook Hcat; simpl in Hlook.
        -- injection Hlook as <-. set_solver.
        -- apply (Hfirst j); [lia|done..].
    + intros Hin. pose proof (winners_fresh _ _ _ Hin) as Hfresh.
      destruct (IH _ Hin) as (i & Hi & Hdet & Hfirst).
      exists (S i). split; [done|]. split; [done|].
      intros [|j] e' Hj Hlook Hcat; simpl in Hlook.
      * injection Hlook as <-. intros Hd.
        apply andb_false_iff in Hb as [Hb|Hb].
        -- by apply bool_decide_eq_false in Hb.
        -- apply bool_decide_eq_false in Hb. apply Hb. by rewrite Hcat.
      * apply (Hfirst j); [lia|done..].
Qed.

(** Every matching entry has its category recorded. *)
Lemma winners_cover seen registry e :
  e ∈ registry -> detects text e -> Entry.category e ∉ seen ->
  exists e', e' ∈ winners text seen registry
             /\ Entry.category e' = Entry.category e.
Proof.
  revert seen. induction registry as [|e0 reg IH]; intros seen; simpl.
  - by rewrite elem_of_nil.
  - rewrite elem_of_cons. intros [->|Hin] Hd Hfresh.
    + rewrite !bool_decide_eq_true_2 by done. simpl.
      exists e0. split; [left|done].
    + destruct (bool_decide (detects text e0)
                && bool_decide (Entry.category e0 ∉ seen)) eqn:Hb.
      * destruct (decide (Entry.category e0 = Entry.category e)) as [Heq|Hne].
        -- exists e0. split; [left|done].
        -- assert (Entry.category e ∉ seen ∪ {[Entry.category e0]}) as Hf
             by (rewrite not_elem_of_union, not_elem_of_singleton; auto).
           destruct (IH _ Hin Hd Hf) as (e' & Hin' & Hcat).
           exists e'. split; [by right|done].
      * by apply IH.
Qed.
End Scan.

Lemma elem_of_sorted_scan (registry : list Entry.t) (text : str) (c : Cls.t) :
  c ∈ stable_sort by_severity (scan registry text).1 <->
  exists e, e ∈ winners text ∅ registry /\ c = classification_of text e.
Proof.
  rewrite stable_sort_perm, scan_winners, list_elem_of_fmap.
  split; intros (e & H1 & H2); by exists e.
Qed.

Lemma elem_of_classify_errors (text : str) (c : Cls.t) :
  c ∈ classify_errors text <->
  exists e, e ∈ winners text ∅ ERROR_PATTERNS /\ c = classification_of text e.
Proof. apply elem_of_sorted_scan. Qed.

Lemma sorted_scan_NoDup (registry : list Entry.t) (text : str) :
  NoDup (map Cls.category (stable_sort by_severity (scan registry text).1)).
Proof.
  rewrite (stable_sort_perm by_severity), scan_winners.
  pose proof (winners_NoDup text ∅ registry) as Hes.
  revert Hes. generalize (winners text ∅ registry). intros es Hes.
  replace (map Cls.category (map (classification_of text) es))
    with (map ErrorCategory_value (map Entry.category es)).
  - apply (@NoDup_fmap_2 _ _ ErrorCategory_value ErrorCategory_value_inj); done.
  - rewrite !map_map. reflexivity.
Qed.

Lemma classify_errors_NoDup (text : str) :
  NoDup (map Cls.category (classify_errors text)).
Proof. apply sorted_scan_NoDup. Qed.

(** The only category with two signatures is PermissionDenied, at
    positions 7 and 12 of the registry. *)
Lemma registry_shared_category (i j : nat) (e1 e2 : Entry.t) :
  i < j -> ERROR_PATTERNS !! i = Some e1 -> ERROR_PATTERNS !! j = Some e2 ->
  Entry.category e1 = Entry.category e2 -> i = 7 /\ j = 12.
Proof.
  intros Hij H1 H2 Hc.
  assert (j < 13) as Hj by (apply lookup_lt_Some in H2; exact H2).
  do 13 (destruct i as [|i]; [
    do 13 (destruct j as [|j]; [
      first [lia | injection H1 as <-; injection H2 as <-;
                   first [discriminate Hc | split; reflexivity]]|]); lia|]).
  lia.
Qed.

Lemma StronglySorted_weaken {A} (R R' : A -> A -> Prop) (l : list A) :
  (forall x y, R x y -> R' x y) -> StronglySorted R l -> StronglySorted R' l.
Proof.
  intros HR. induction 1 as [|x l Hs IH Hall]; constructor; [done|].
  eapply Forall_impl; [exact Hall|]. intros y. apply HR.
Qed.

Lemma NoDup_map_eq {A B} (f : A -> B) (l : list A) (x y : A) :
  NoDup (map f l) -> x ∈ l -> y ∈ l -> f x = f y -> x = y.
Proof.
  induction l as [|a l IH]; simpl; intros Hnd Hx Hy Heq.
  - by apply elem_of_nil in Hx.
  - apply NoDup_cons in Hnd as [Hn Hnd].
    apply elem_of_cons in Hx as [->|Hx]; apply elem_of_cons in Hy as [->|Hy].
    + done.
    + exfalso. apply Hn. rewrite Heq. by apply list_elem_of_fmap_2.
    + exfalso. apply Hn. rewrite <- Heq. by apply list_elem_of_fmap_2.
    + by apply IH.
Qed.

(** C1. For every input text, [classify_errors] returns its
    classifications sorted ascending by severity rank, the rank being
    CRITICAL = 0, HIGH = 1, MEDIUM = 2, LOW = 3, INFO = 4 and 5 for any
    other severity string; classifications of one rank keep the order in
    which the loop recorded them, which is the order of their signatures
    in the registry. *)
Theorem classify_errors_sorted_stable (text : str) :
  StronglySorted (fun x y => severity_rank x <= severity_rank y)
    (classify_errors text)
  /\ (forall r,
        filter (fun c => severity_rank c = r) (classify_errors text)
        = filter (fun c => severity_rank c = r)
            (scan ERROR_PATTERNS text).1)
  /\ (exists es, es `sublist_of` ERROR_PATTERNS
                 /\ (scan ERROR_PATTERNS text).1
                    = map (classification_of text) es)
  /\ (map severity_order
         (map Severity_value [CRITICAL; HIGH; MEDIUM; LOW; INFO])
       = [0; 1; 2; 3; 4]
      /\ forall s, severity_order s <= 5
                   /\ ((forall v, s <> Severity_value v) ->
                       severity_order s = 5)).
Proof.
  split; [|split; [|split; [|split]]].
  - unfold classify_errors.
    eapply StronglySorted_weaken;
      [|apply stable_sort_sorted;
        [apply by_severity_total|apply by_severity_trans]].
    intros x y H. apply Nat.leb_le in H. exact H.
  - intros r. unfold classify_errors.
    apply stable_sort_filter. intros a b Ha Hb.
    unfold by_severity, severity_rank in *. apply Nat.leb_le. lia.
  - exists (winners text ∅ ERROR_PATTERNS).
    split; [apply winners_sublist|apply scan_winners].
  - reflexivity.
  - intros s. split; [|apply severity_order_unmapped].
    unfold severity_order. repeat case_decide; lia.
Qed.

(** C2. For every input text, no two classifications returned by
    [classify_errors] share a category; each one is built from the first
    signature of its category, in registry order, whose detector matches;
    and when two signatures of one category both match, the classification
    of that category carries the severity and the hint of the earlier
    one. *)
Theorem classify_errors_one_per_category (text : str) :
  NoDup (map Cls.category (classify_errors text))
  /\ (forall c, c ∈ classify_errors text ->
        exists i e,
          ERROR_PATTERNS !! i = Some e /\ detects text e
          /\ c = classification_of text e
          /\ forall j e', j < i -> ERROR_PATTERNS !! j = Some e' ->
                          Entry.category e' = Entry.category e ->
                          ~ detects text e')
  /\ (forall i j e1 e2,
        i < j ->
        ERROR_PATTERNS !! i = Some e1 -> ERROR_PATTERNS !! j = Some e2 ->
        Entry.category e1 = Entry.category e2 ->
        detects text e1 -> detects text e2 ->
        exists c,
          c ∈ classify_errors text
          /\ Cls.category c = ErrorCategory_value (Entry.category e1)
          /\ Cls.severity c = Severity_value (Entry.severity e1)
          /\ Cls.hint c = Entry.hint e1
          /\ forall c', c' ∈ classify_errors text ->
                        Cls.category c' = Cls.category c -> c' = c).
Proof.
  split; [apply classify_errors_NoDup|]. split.
  - intros c (e & Hin & ->)%elem_of_classify_errors.
    destruct (winners_first _ _ _ _ Hin) as (i & Hi & Hd & Hfirst).
    exists i, e. auto.
  - intros i j e1 e2 Hij H1 H2 Hcat Hd1 Hd2.
    destruct (registry_shared_category i j e1 e2) as [-> ->]; [done..|].
    destruct (winners_cover text ∅ ERROR_PATTERNS e1) as (e' & Hin & Hc);
      [by eapply list_elem_of_lookup_2|done|apply not_elem_of_empty|].
    destruct (winners_first _ _ _ _ Hin) as (k & Hk & _ & Hfirst).
    assert (e' = e1) as ->.
    { destruct (Nat.lt_total k 7) as [Hlt|[->|Hgt]].
      - destruct (registry_shared_category k 7 e' e1); [done..|lia].
      - congruence.
      - destruct (registry_shared_category 7 k e1 e') as [_ ->];
          [done..|].
        exfalso. by apply (Hfirst 7 e1). }
    exists (classification_of text e1). split.
    { apply elem_of_classify_errors. eauto. }
    do 3 (split; [reflexivity|]).
    intros c' Hc' Heq.
    pose proof (classify_errors_NoDup text) as Hnd.
    apply elem_of_classify_errors in Hc' as (e3 & Hin3 & ->).
    f_equal. apply ErrorCategory_value_inj in Heq.
    pose proof (winners_NoDup text ∅ ERROR_PATTERNS) as Hnd'.
    by eapply (NoDup_map_eq Entry.category).
Qed.

Lemma classify_errors_one_per_category_witness :
  exists c,
    c ∈ classify_errors (py "403 Forbidden: permission denied")
    /\ Cls.category c = py "PermissionDenied"
    /\ Cls.severity c = py "HIGH".
Proof.
  destruct (classify_errors_one_per_category
              (py "403 Forbidden: permission denied")) as (_ & _ & H).
  destruct (H 7 12
              (Entry.mk
                 (alt (lit "forbidden")
                    [lit "Unauthorized"; lit "403"; lit "RBAC"])
                 PERMISSION_DENIED HIGH
                 (py "Permission denied. Check RBAC roles, service account, and cluster role bindings."))
              (Entry.mk
                 (alt (seq (lit "permission") [ws; lit "denied"])
                    [lit "EACCES"])
                 PERMISSION_DENIED MEDIUM
                 (py "File/system permission denied. Check file ownership and process privileges.")))
    as (c & Hin & Hc & Hs & _).
  - lia.
  - reflexivity.
  - reflexivity.
  - reflexivity.
  - unfold detects. vm_compute. discriminate.
  - unfold detects. vm_compute. discriminate.
  - exists c. auto.
Defined.

(** C8, as stated, fails: the excerpts of a classification are the first
    matches as they come, repeats included.  On a text that names
    OOMKilled twice the classification holds the same excerpt twice. *)
Lemma classify_errors_excerpts_not_distinct :
  map Cls.matched_text (classify_errors (py "OOMKilled OOMKilled"))
  = [Many [py "OOMKilled"; py "OOMKilled"]]
  /\ map Cls.match_count (classify_errors (py "OOMKilled OOMKilled")) = [2]
  /\ ~ (forall c, c ∈ classify_errors (py "OOMKilled OOMKilled") ->
                  NoDup (excerpts (Cls.matched_text c))).
Proof.
  assert (classify_errors (py "OOMKilled OOMKilled")
          = [classification_of (py "OOMKilled OOMKilled")
               (Entry.mk (lit "OOMKilled") OOM_KILLED CRITICAL
                  (py "Container exceeded memory limits and was killed by the kernel OOM killer."))])
    as Heq by (vm_compute; reflexivity).
  rewrite Heq. split; [vm_compute; reflexivity|].
  split; [vm_compute; reflexivity|].
  intros H. specialize (H _ (list_elem_of_here _ _)).
  vm_compute in H. apply NoDup_cons in H as [H _].
  apply H. left.
Qed.

Lemma excerpts_record_of (entry : Entry.t) (matches : list str) :
  excerpts (Cls.matched_text (record_of entry matches)) = take 3 matches.
Proof. destruct matches as [|m [|m' ms]]; reflexivity. Qed.

(** C8, amended.  Every classification returned for a text is built from
    a registry signature whose detector matches the text: its
    [match_count] is the number of matches of that detector, and its
    excerpts are the first three matches in text order (all of them when
    there are fewer), repeats included; a single match is stored as a
    bare string and any other number as a list. *)
Theorem classify_errors_excerpts (text : str) (c : Cls.t) :
  c ∈ classify_errors text ->
  exists e,
    e ∈ ERROR_PATTERNS
    /\ Cls.category c = ErrorCategory_value (Entry.category e)
    /\ 1 <= Cls.match_count c
    /\ Cls.match_count c = length (findall (Entry.pattern e) text)
    /\ excerpts (Cls.matched_text c) = take 3 (findall (Entry.pattern e) text)
    /\ length (excerpts (Cls.matched_text c)) = Nat.min 3 (Cls.match_count c)
    /\ Cls.matched_text c
       = match findall (Entry.pattern e) text with
         | [m] => One m
         | ms => Many (take 3 ms)
         end.
Proof.
  intros (e & Hin & ->)%elem_of_classify_errors.
  destruct (winners_first _ _ _ _ Hin) as (i & Hi & Hd & _).
  exists e. split; [by eapply list_elem_of_lookup_2|].
  split; [reflexivity|].
  unfold classification_of, detects in *.
  destruct (findall (Entry.pattern e) text) as [|m ms] eqn:Hm; [done|].
  split; [simpl; lia|]. split; [reflexivity|].
  split; [apply excerpts_record_of|].
  split; [|by destruct ms].
  rewrite excerpts_record_of, length_take. simpl. lia.
Qed.

Lemma classify_errors_excerpts_witness :
  exists e,
    e ∈ ERROR_PATTERNS
    /\ take 3 (findall (Entry.pattern e) (py "OOMKilled, again OOMKilled"))
       = [py "OOMKilled"; py "OOMKilled"].
Proof.
  destruct (classify_errors_excerpts (py "OOMKilled, again OOMKilled")
              (Cls.mk (py "OOMKilled") (py "CRITICAL")
                 (py "Container exceeded memory limits and was killed by the kernel OOM killer.")
                 (Many [py "OOMKilled"; py "OOMKilled"]) 2))
    as (e & He & _ & _ & _ & Hex & _).
  - vm_compute. left.
  - exists e. split; [exact He|]. symmetry. exact Hex.
Defined.

(** ** The runbook store *)

Lemma head_split_on_newline (content : str) :
  default [] (head (split_on "010"%char content)) = first_line content.
Proof.
  induction content as [|c rest IH]; simpl; [done|].
  destruct (Ascii.eqb c "010"%char); [done|].
  destruct (split_on "010"%char rest); simpl in *; by rewrite <- IH.
Qed.

Lemma load_step_titles (files : list (str * option str)) (cache : list Rb.t) :
  Forall (fun rb => Rb.title rb = title_of (Rb.content rb)) cache ->
  Forall (fun rb => Rb.title rb = title_of (Rb.content rb))
    (foldl load_step cache files).
Proof.
  revert cache. induction files as [|[path read] files IH]; intros cache H.
  - done.
  - simpl. apply IH. unfold load_step. simpl.
    destruct read; [|done]. apply Forall_app. split; [done|].
    by repeat constructor.
Qed.

(** C9, as stated, fails: the title is taken from the first line also when
    that line is empty, and every [#] of the line is removed, not only the
    leading ones. *)
Lemma load_runbooks_title_first_line_only :
  map Rb.title
    (load_runbooks
       (Some [(py "runbooks/oomkilled.md",
               Some (NL ++ py "# OOMKilled" ++ NL ++ py "Raise the limit."));
              (py "runbooks/csharp.md", Some (py "# C# services" ++ NL))])
       [])
  = [[]; py "C services"]
  /\ map (fun rb => claimed_title (Rb.content rb))
       (load_runbooks
          (Some [(py "runbooks/oomkilled.md",
                  Some (NL ++ py "# OOMKilled" ++ NL ++ py "Raise the limit."));
                 (py "runbooks/csharp.md", Some (py "# C# services" ++ NL))])
          [])
     = [py "OOMKilled"; py "C# services"]
  /\ ~ (forall rb,
          rb ∈ load_runbooks
                 (Some [(py "runbooks/oomkilled.md",
                         Some (NL ++ py "# OOMKilled" ++ NL
                               ++ py "Raise the limit."))])
                 [] ->
          Rb.title rb = claimed_title (Rb.content rb)).
Proof.
  split; [vm_compute; reflexivity|]. split; [vm_compute; reflexivity|].
  intros H.
  specialize (H (Rb.mk (py "oomkilled.md") []
                   (NL ++ py "# OOMKilled" ++ NL ++ py "Raise the limit."))).
  assert ([] = py "OOMKilled") as Habs;
    [|vm_compute in Habs; discriminate Habs].
  etrans; [apply H; vm_compute; left|]. vm_compute. reflexivity.
Qed.

(** C9, amended.  For every document loaded into an empty cache, the stored
    title is the text before the first newline of the content (empty when
    the content starts with a newline) with every [#] removed and the
    surrounding whitespace stripped. *)
Theorem load_runbooks_title (dir : directory) (rb : Rb.t) :
  rb ∈ load_runbooks dir [] ->
  Rb.title rb = strip (remove_char "#"%char (first_line (Rb.content rb))).
Proof.
  intros Hin. rewrite <- head_split_on_newline.
  change (Rb.title rb = title_of (Rb.content rb)).
  revert rb Hin. apply Forall_forall.
  destruct dir as [files|]; simpl.
  - apply load_step_titles. constructor.
  - constructor.
Qed.

Lemma load_runbooks_title_witness :
  py "OOMKilled runbook"
  = strip (remove_char "#"%char
             (first_line (py "## OOMKilled runbook" ++ NL ++ py "Steps"))).
Proof.
  apply (load_runbooks_title
           (Some [(py "runbooks/oomkilled.md",
                   Some (py "## OOMKilled runbook" ++ NL ++ py "Steps"))])
           (Rb.mk (py "oomkilled.md") (py "OOMKilled runbook")
              (py "## OOMKilled runbook" ++ NL ++ py "Steps"))).
  vm_compute. left.
Defined.

(** ** The keyword search *)

Lemma search_step_scored (words : gset str) (runbooks : list Rb.t)
    (scored : list Hit.t) :
  foldl (search_step words) scored runbooks
  = scored
    ++ map (scored_entry words)
         (filter (fun rb => 0 < count_matches words (lower (Rb.content rb)))
            runbooks).
Proof.
  revert scored. induction runbooks as [|rb rbs IH]; intros scored; simpl.
  - by rewrite app_nil_r.
  - rewrite IH, filter_cons. unfold search_step.
    destruct (Nat.ltb_spec 0 (count_matches words (lower (Rb.content rb))))
      as [Hpos|Hzero].
    + rewrite decide_True by done. simpl. by rewrite <- app_assoc.
    + rewrite decide_False by lia. done.
Qed.

Lemma count_matches_le (words : gset str) (content_lower : str) :
  count_matches words content_lower <= size words.
Proof. unfold count_matches. apply length_filter. Qed.

Lemma relevance_quotient (matches n : nat) :
  0 < matches -> matches <= n ->
  (relevance matches n == Z.of_nat matches # Pos.of_nat n)%Q
  /\ (0 < relevance matches n)%Q /\ (relevance matches n <= 1)%Q.
Proof.
  intros Hpos Hle. unfold relevance.
  rewrite Nat.max_l by lia.
  assert (Z.of_nat matches # Pos.of_nat n <= 1)%Q as H1.
  { assert (Z.pos (Pos.of_nat n) = Z.of_nat n) as Hn
      by (rewrite <- positive_nat_Z, Nat2Pos.id; lia).
    unfold Qle. simpl. lia. }
  rewrite (Q.min_l _ _ H1). split; [reflexivity|]. split; [|done].
  unfold Qlt. simpl. lia.
Qed.

Lemma by_score_total x y : by_score x y = true \/ by_score y x = true.
Proof.
  unfold by_score. rewrite !Qle_bool_iff.
  destruct (Qlt_le_dec (Hit.relevance_score x) (Hit.relevance_score y))
    as [H|H]; [right; by apply Qlt_le_weak|by left].
Qed.

Lemma by_score_trans x y z :
  by_score x y = true -> by_score y z = true -> by_score x z = true.
Proof.
  unfold by_score. rewrite !Qle_bool_iff. intros Hyx Hzy.
  by apply Qle_trans with (Hit.relevance_score y).
Qed.

Lemma search_runbooks_take (dir : directory) (cache : list Rb.t)
    (query : str) (top_k : Z) :
  (0 < top_k)%Z ->
  search_runbooks dir cache query top_k
  = take (Z.to_nat top_k)
      (stable_sort by_score
         (map (scored_entry (query_words query))
            (filter (fun rb => 0 < overlap query rb)
               (load_runbooks dir cache)))).
Proof.
  intros Hk. unfold search_runbooks.
  destruct (load_runbooks dir cache) as [|rb rbs] eqn:Hload.
  - cbn. by rewrite take_nil.
  - rewrite search_step_scored. simpl app. unfold slice_to.
    destruct (Z.leb_spec 0 top_k); [reflexivity|lia].
Qed.

(** C7. For every query and positive [top_k], [search_runbooks] returns at
    most [top_k] entries, sorted by descending relevance score; they are
    the front of the stable descending sort of the scored documents, so
    entries of equal score keep the order in which the documents were
    loaded; each entry comes from a loaded document and its score is the
    number of distinct lowercased query words that occur in the lowercased
    document text divided by the number of distinct query words; every
    score is positive and at most 1. *)
Theorem search_runbooks_ranked (dir : directory) (cache : list Rb.t)
    (query : str) (top_k : Z) :
  (0 < top_k)%Z ->
  exists rest,
    let corpus := load_runbooks dir cache in
    let result := search_runbooks dir cache query top_k in
    let scored :=
      map (scored_entry (query_words query))
        (filter (fun rb => 0 < overlap query rb) corpus) in
    length result <= Z.to_nat top_k
    /\ StronglySorted
         (fun x y => (Hit.relevance_score y <= Hit.relevance_score x)%Q)
         result
    /\ stable_sort by_score scored = result ++ rest
    /\ (length result < Z.to_nat top_k -> rest = [])
    /\ (forall q,
          filter (fun h => (Hit.relevance_score h == q)%Q) (result ++ rest)
          = filter (fun h => (Hit.relevance_score h == q)%Q) scored)
    /\ (forall h, h ∈ result ->
          exists rb,
            rb ∈ corpus
            /\ Hit.title h = Rb.title rb
            /\ Hit.filename h = Rb.filename rb
            /\ (Hit.relevance_score h
                == Z.of_nat (overlap query rb)
                   # Pos.of_nat (size (query_words query)))%Q
            /\ (0 < Hit.relevance_score h)%Q
            /\ (Hit.relevance_score h <= 1)%Q).
Proof.
  intros Hk. rewrite (search_runbooks_take _ _ _ _ Hk).
  set (scored := map (scored_entry (query_words query))
                   (filter (fun rb => 0 < overlap query rb)
                      (load_runbooks dir cache))).
  set (sorted := stable_sort by_score scored).
  exists (drop (Z.to_nat top_k) sorted). cbv zeta.
  assert (StronglySorted
            (fun x y => (Hit.relevance_score y <= Hit.relevance_score x)%Q)
            sorted) as Hsorted.
  { eapply StronglySorted_weaken;
      [|apply stable_sort_sorted;
        [apply by_score_total|apply by_score_trans]].
    intros x y H. by apply Qle_bool_iff in H. }
  split; [rewrite length_take; lia|].
  split.
  { rewrite <- (take_drop (Z.to_nat top_k) sorted) in Hsorted.
    by apply StronglySorted_app_1_l in Hsorted. }
  split; [by rewrite take_drop|].
  split.
  { rewrite length_take. intros Hlt. apply drop_ge. lia. }
  split.
  { intros q. rewrite take_drop. apply stable_sort_filter.
    intros a b Ha Hb. unfold by_score. apply Qle_bool_iff.
    rewrite Ha, Hb. apply Qle_refl. }
  intros h Hin.
  assert (h ∈ scored) as Hscored.
  { rewrite <- (stable_sort_perm by_score scored).
    fold sorted. rewrite <- (take_drop (Z.to_nat top_k) sorted).
    apply elem_of_app. by left. }
  apply list_elem_of_fmap in Hscored as (rb & -> & Hrb).
  apply list_elem_of_filter in Hrb as [Hpos Hrb].
  exists rb. split; [done|]. split; [done|]. split; [done|].
  apply relevance_quotient; [done|apply count_matches_le].
Qed.

Lemma search_runbooks_ranked_witness :
  length
    (search_runbooks
       (Some [(py "runbooks/crashloopbackoff.md",
               Some (py "# CrashLoopBackOff" ++ NL ++ py "Check the pod logs."));
              (py "runbooks/oomkilled.md",
               Some (py "# OOMKilled" ++ NL ++ py "Raise the memory limit."))])
       [] (py "OOMKilled memory") 1)
  <= Z.to_nat 1.
Proof.
  destruct (search_runbooks_ranked
              (Some [(py "runbooks/crashloopbackoff.md",
                      Some (py "# CrashLoopBackOff" ++ NL
                            ++ py "Check the pod logs."));
                     (py "runbooks/oomkilled.md",
                      Some (py "# OOMKilled" ++ NL
                            ++ py "Raise the memory limit."))])
              [] (py "OOMKilled memory") 1) as (rest & Hlen & _).
  - lia.
  - exact Hlen.
Defined.

(** ** Stripped texts *)

Lemma lstrip_suffix (s : str) : exists ws, blank ws /\ s = ws ++ lstrip s.
Proof.
  induction s as [|c s (ws & Hws & IH)]; simpl.
  - exists []. split; [constructor|done].
  - destruct (isspace c) eqn:Hc.
    + exists (c :: ws). split; [by constructor|]. simpl. by rewrite <- IH.
    + exists []. split; [constructor|done].
Qed.

Lemma rstrip_prefix (s : str) : exists ws, blank ws /\ s = rstrip s ++ ws.
Proof.
  destruct (lstrip_suffix (rev s)) as (ws & Hws & Heq).
  exists (rev ws). split; [by apply Forall_rev|].
  unfold rstrip. rewrite <- rev_app_distr, <- Heq. by rewrite rev_involutive.
Qed.

Lemma lstrip_head (s rest : str) (c : ascii) :
  lstrip s = c :: rest -> isspace c = false.
Proof.
  induction s as [|a s IH]; simpl; [done|].
  destruct (isspace a) eqn:Ha; [done|]. by intros [= <- _].
Qed.

Lemma rstrip_last (s front : str) (c : ascii) :
  rstrip s = front ++ [c] -> isspace c = false.
Proof.
  unfold rstrip. intros H. apply (f_equal (@rev ascii)) in H.
  rewrite rev_involutive, rev_app_distr in H. simpl in H.
  by apply lstrip_head in H.
Qed.

Lemma strip_head (s rest : str) (c : ascii) :
  strip s = c :: rest -> isspace c = false.
Proof.
  unfold strip. intros H.
  destruct (rstrip_prefix (lstrip s)) as (ws & _ & Heq).
  rewrite H in Heq. simpl in Heq. by apply lstrip_head in Heq.
Qed.

(** ** The response normalizer and the pipeline *)








(** C10. When the invocation succeeds and the cleaned reply is valid JSON
    but not an object, the back-filling step raises, the handler of
    [analyze_devops_issue] catches it, and the result is the
    invocation-failure record, whose root cause is
    "LLM analysis failed — see pre-classified errors below" and not
    "See explanation"; the failure named in it is the attribute error. *)
Theorem analyze_devops_issue_non_object (interp : interpreter)
    (google_api_key : str)
    (llm : str -> outcome) (dir : directory) (cache : list Rb.t)
    (error_context : str) (classifications : option (list Cls.t))
    (k8s_context content : str) (v : value) :
  google_api_key <> [] ->
  llm (full_prompt error_context classifications k8s_context
         (search_runbooks dir cache error_context 3)) = Reply content ->
  json_loads interp (cleaned_response content) = Decoded v ->
  (forall d, v <> VDict d) ->
  analyze_devops_issue interp google_api_key llm dir cache error_context
    classifications k8s_context
  = _generate_fallback_response
      (py "'" ++ type_name v ++ py "' object has no attribute 'setdefault'")
      classifications (search_runbooks dir cache error_context 3)
  /\ dict_get
       (analyze_devops_issue interp google_api_key llm dir cache error_context
          classifications k8s_context) (py "root_cause")
     = Some (VStr (py "LLM analysis failed — see pre-classified errors below"))
  /\ dict_get
       (analyze_devops_issue interp google_api_key llm dir cache error_context
          classifications k8s_context) (py "root_cause")
     <> Some (VStr (py "See explanation")).
Proof.
  intros Hkey Hllm Hjson Hv.
  assert (analyze_devops_issue interp google_api_key llm dir cache error_context
            classifications k8s_context
          = _generate_fallback_response
              (py "'" ++ type_name v
               ++ py "' object has no attribute 'setdefault'")
              classifications (search_runbooks dir cache error_context 3))
    as Heq.
  { unfold analyze_devops_issue.
    destruct google_api_key as [|k key]; [done|].
    rewrite Hllm. unfold _parse_llm_response. rewrite Hjson.
    destruct v; try reflexivity. by destruct (Hv d). }
  rewrite Heq. split; [reflexivity|]. split; [reflexivity|].
  intros H. vm_compute in H. discriminate H.
Qed.

Lemma analyze_devops_issue_non_object_witness :
  dict_get
    (analyze_devops_issue fresh_interpreter (py "key")
       (fun _ => Reply (py "[1, 2]")) None [] (py "Pod OOMKilled") None [])
    (py "root_cause")
  = Some (VStr (py "LLM analysis failed — see pre-classified errors below")).
Proof.
  destruct (analyze_devops_issue_non_object fresh_interpreter (py "key")
              (fun _ => Reply (py "[1, 2]")) None [] (py "Pod OOMKilled")
              None [] (py "[1, 2]") (VList [VInt 1; VInt 2]))
    as (_ & H & _).
  - vm_compute. discriminate.
  - reflexivity.
  - vm_compute. reflexivity.
  - intros d. discriminate.
  - exact H.
Defined.

(** C3. When a key is configured and the invocation of the reasoning
    engine raises, [analyze_devops_issue] returns the fallback record: the
    fixed root cause "LLM analysis failed — see pre-classified errors
    below", the severity and category of the first classification when
    there is one and MEDIUM and Unknown otherwise, an explanation that
    names the failure and embeds the classification list, exactly one fix
    command, exactly one prevention tip and the filenames of the matched
    documents; its root cause differs from the one of the mock record. *)
Theorem analyze_devops_issue_invocation_fails (interp : interpreter)
    (google_api_key : str)
    (llm : str -> outcome) (dir : directory) (cache : list Rb.t)
    (error_context : str) (classifications : option (list Cls.t))
    (k8s_context error_msg : str) :
  google_api_key <> [] ->
  llm (full_prompt error_context classifications k8s_context
         (search_runbooks dir cache error_context 3)) = Failure error_msg ->
  let response :=
    analyze_devops_issue interp google_api_key llm dir cache error_context
      classifications k8s_context in
  let matching_runbooks := search_runbooks dir cache error_context 3 in
  map fst response
  = map py ["root_cause"; "severity"; "error_category"; "explanation";
            "fix_commands"; "prevention_tips"; "related_runbooks"]%string
  /\ dict_get response (py "root_cause")
     = Some (VStr (py "LLM analysis failed — see pre-classified errors below"))
  /\ dict_get response (py "severity")
     = Some (VStr match classifications with
                  | Some (c :: _) => Cls.severity c
                  | _ => py "MEDIUM"
                  end)
  /\ dict_get response (py "error_category")
     = Some (VStr match classifications with
                  | Some (c :: _) => Cls.category c
                  | _ => py "Unknown"
                  end)
  /\ dict_get response (py "explanation")
     = Some (VStr (py "The AI model could not be reached (" ++ error_msg
                   ++ py "). However, pattern-based analysis detected: "
                   ++ json_dumps None
                        (VList (map classification_value
                                  (default [] classifications)))))
  /\ (exists command,
        dict_get response (py "fix_commands") = Some (VList [command]))
  /\ (exists tip,
        dict_get response (py "prevention_tips") = Some (VList [VStr tip]))
  /\ dict_get response (py "related_runbooks")
     = Some (VList (map (fun rb => VStr (Hit.filename rb)) matching_runbooks))
  /\ dict_get response (py "root_cause")
     <> dict_get
          (_generate_mock_response error_context classifications
             matching_runbooks) (py "root_cause").
Proof.
  intros Hkey Hllm response matching_runbooks.
  assert (response
          = _generate_fallback_response error_msg classifications
              matching_runbooks) as ->.
  { unfold response, analyze_devops_issue.
    destruct google_api_key as [|k key]; [done|]. by rewrite Hllm. }
  repeat (split; [first [reflexivity | eexists; reflexivity]|]).
  intros H. injection H as H. discriminate H.
Qed.

Lemma analyze_devops_issue_invocation_fails_witness :
  dict_get
    (analyze_devops_issue fresh_interpreter (py "key")
       (fun _ => Failure (py "504 Deadline Exceeded")) None []
       (py "Pod OOMKilled") (Some (classify_errors (py "Pod OOMKilled"))) [])
    (py "severity")
  = Some (VStr (py "CRITICAL")).
Proof.
  destruct (analyze_devops_issue_invocation_fails fresh_interpreter (py "key")
              (fun _ => Failure (py "504 Deadline Exceeded")) None []
              (py "Pod OOMKilled")
              (Some (classify_errors (py "Pod OOMKilled"))) []
              (py "504 Deadline Exceeded"))
    as (_ & _ & H & _).
  - vm_compute. discriminate.
  - reflexivity.
  - etrans; [exact H|]. vm_compute. reflexivity.
Defined.

(** C5. When no key is configured, [analyze_devops_issue] returns the mock
    record: severity and category are those of the first classification
    when there is one and MEDIUM and Unknown otherwise, the root cause
    names the category, the explanation holds the classification list and
    the first 500 characters of the error text, and there are two fix
    commands, two prevention tips and the filenames of all matched
    documents. *)
Theorem analyze_devops_issue_mock (interp : interpreter)
    (llm : str -> outcome) (dir : directory)
    (cache : list Rb.t) (error_context : str)
    (classifications : option (list Cls.t)) (k8s_context : str) :
  exists severity category fix_commands prevention_tips,
    (severity, category)
    = match classifications with
      | Some (c :: _) => (Cls.severity c, Cls.category c)
      | _ => (py "MEDIUM", py "Unknown")
      end
    /\ 2 <= length fix_commands
    /\ 2 <= length prevention_tips
    /\ analyze_devops_issue interp [] llm dir cache error_context
         classifications k8s_context
       = [
           (py "root_cause",
             VStr (py "[MOCK] Detected " ++ category ++ py " error pattern"));
           (py "severity", VStr severity);
           (py "error_category", VStr category);
           (py "explanation",
             VStr (py "[MOCK MODE — No GOOGLE_API_KEY set]" ++ NL
                   ++ py "Detected error patterns: "
                   ++ json_dumps (Some 2)
                        (VList (map classification_value
                                  (default [] classifications)))
                   ++ NL ++ NL ++ py "Original error:" ++ NL
                   ++ take 500 error_context));
           (py "fix_commands", VList fix_commands);
           (py "prevention_tips", VList (map VStr prevention_tips));
           (py "related_runbooks",
             VList (map (fun rb => VStr (Hit.filename rb))
                      (search_runbooks dir cache error_context 3)))
         ].
Proof.
  unfold analyze_devops_issue, _generate_mock_response.
  eexists _, _, _, [_; _].
  split; [|split; [|split; [|reflexivity]]].
  - by destruct classifications as [[|c cs]|].
  - simpl. lia.
  - simpl. lia.
Qed.

(** ** Stripping a code fence *)

Lemma lstrip_blank (ws s : str) : blank ws -> lstrip (ws ++ s) = lstrip s.
Proof.
  induction 1 as [|c ws Hc _ IH]; simpl; [done|]. by rewrite Hc.
Qed.

Lemma lstrip_solid (c : ascii) (s : str) :
  isspace c = false -> lstrip (c :: s) = c :: s.
Proof. intros H. simpl. by rewrite H. Qed.

Lemma rstrip_blank (s ws : str) : blank ws -> rstrip (s ++ ws) = rstrip s.
Proof.
  intros H. unfold rstrip. rewrite rev_app_distr, lstrip_blank; [done|].
  by apply Forall_rev.
Qed.

Lemma rstrip_solid (s : str) (c : ascii) :
  isspace c = false -> rstrip (s ++ [c]) = s ++ [c].
Proof.
  intros H. unfold rstrip. rewrite rev_app_distr. simpl rev at 2.
  simpl app. rewrite lstrip_solid by done. simpl. by rewrite rev_involutive.
Qed.

(** [strip] removes exactly the blank margins of a text that starts and
    ends with a non-blank character. *)
Lemma strip_margins (pre post mid : str) (c d : ascii) :
  blank pre -> blank post -> isspace c = false -> isspace d = false ->
  strip (pre ++ (c :: mid ++ [d]) ++ post) = c :: mid ++ [d].
Proof.
  intros Hpre Hpost Hc Hd. unfold strip.
  rewrite lstrip_blank by done. simpl app at 1.
  rewrite lstrip_solid by done.
  rewrite app_comm_cons, rstrip_blank by done.
  rewrite app_comm_cons. by apply rstrip_solid.
Qed.

Lemma startswith_app (p s : str) : startswith (p ++ s) p = true.
Proof.
  induction p as [|a p IH]; simpl; [done|]. by rewrite Ascii.eqb_refl, IH.
Qed.

Lemma endswith_app (s p : str) : endswith (s ++ p) p = true.
Proof. unfold endswith. rewrite rev_app_distr. apply startswith_app. Qed.

(** A text that opens with blanks and then a character other than [x]
    does not start with a prefix that opens with the non-blank [x]. *)
Lemma startswith_mismatch (ws r p : str) (c x : ascii) :
  blank ws -> isspace x = false -> c <> x ->
  startswith (ws ++ c :: r) (x :: p) = false.
Proof.
  intros Hws Hx Hne. destruct Hws as [|a ws Ha _]; simpl.
  - destruct (Ascii.eqb_spec c x); [done|reflexivity].
  - destruct (Ascii.eqb_spec a x) as [->|]; [congruence|reflexivity].
Qed.

Lemma slice_to_fence (s : str) : slice_to (s ++ fence) (-3) = s.
Proof.
  unfold slice_to. simpl Z.leb. cbv iota.
  rewrite length_app. simpl length.
  replace (length s + 3 - Z.to_nat (- -3)) with (length s)
    by (simpl; lia).
  apply take_app_length.
Qed.

(** The unwrapped payload of an object is handed to the parser as it is. *)
Lemma cleaned_response_object (body : str) :
  cleaned_response ("{"%char :: body ++ ["}"%char])
  = "{"%char :: body ++ ["}"%char].
Proof.
  assert (strip ("{"%char :: body ++ ["}"%char])
          = "{"%char :: body ++ ["}"%char]) as Hstrip.
  { pose proof (strip_margins [] [] body "{"%char "}"%char) as H.
    simpl app at 1 in H. rewrite app_nil_r in H.
    apply H; first [constructor | reflexivity]. }
  unfold cleaned_response. rewrite Hstrip. simpl startswith. cbv iota.
  replace (endswith ("{"%char :: body ++ ["}"%char]) fence) with false.
  - exact Hstrip.
  - unfold endswith. rewrite app_comm_cons, rev_app_distr. reflexivity.
Qed.

Lemma cleaned_response_after_fence (ws1 ws2 body : str) :
  blank ws1 -> blank ws2 ->
  let rest := ws1 ++ ("{"%char :: body ++ ["}"%char]) ++ ws2 ++ fence in
  startswith rest fence = false
  /\ strip (if endswith rest fence then slice_to rest (-3) else rest)
     = "{"%char :: body ++ ["}"%char].
Proof.
  intros H1 H2 rest. split.
  - apply startswith_mismatch; [done|reflexivity|discriminate].
  - unfold rest. rewrite !app_assoc, endswith_app, slice_to_fence.
    rewrite <- app_assoc. by apply strip_margins.
Qed.

Lemma strip_fenced (pre post inner : str) :
  blank pre -> blank post ->
  strip (pre ++ fence ++ inner ++ fence ++ post) = fence ++ inner ++ fence.
Proof.
  intros Hpre Hpost.
  pose proof (strip_margins pre post
                (["`"%char; "`"%char] ++ inner ++ ["`"%char; "`"%char])
                "`"%char "`"%char Hpre Hpost eq_refl eq_refl) as H.
  unfold fence. simpl. simpl in H.
  rewrite <- ?app_assoc in H. simpl in H. rewrite <- ?app_assoc in H.
  exact H.
Qed.

Lemma cleaned_response_steps (raw s1 s2 s3 : str) :
  strip raw = s1 ->
  (if startswith s1 (fence ++ py "json") then drop 7 s1 else s1) = s2 ->
  (if startswith s2 fence then drop 3 s2 else s2) = s3 ->
  cleaned_response raw
  = strip (if endswith s3 fence then slice_to s3 (-3) else s3).
Proof. intros <- <- <-. reflexivity. Qed.

Lemma cleaned_response_fenced (tagged : bool) (pre ws1 body ws2 post : str) :
  blank pre -> blank ws1 -> blank ws2 -> blank post ->
  cleaned_response
    (pre ++ fence ++ (if tagged then py "json" else []) ++ ws1
     ++ ("{"%char :: body ++ ["}"%char]) ++ ws2 ++ fence ++ post)
  = "{"%char :: body ++ ["}"%char].
Proof.
  intros Hpre H1 H2 Hpost.
  destruct (cleaned_response_after_fence ws1 ws2 body H1 H2) as [Hsw Hend].
  cbv zeta in Hsw, Hend.
  set (rest := ws1 ++ ("{"%char :: body ++ ["}"%char]) ++ ws2 ++ fence) in *.
  assert (strip
            (pre ++ fence ++ (if tagged then py "json" else []) ++ ws1
             ++ ("{"%char :: body ++ ["}"%char]) ++ ws2 ++ fence ++ post)
          = fence ++ (if tagged then py "json" else []) ++ rest) as Hstrip.
  { pose proof (strip_fenced pre post
                  ((if tagged then py "json" else []) ++ ws1
                   ++ ("{"%char :: body ++ ["}"%char]) ++ ws2)
                  Hpre Hpost) as H.
    unfold rest. rewrite <- !app_assoc in H. exact H. }
  etrans; [|exact Hend].
  apply (cleaned_response_steps _ _
           (if tagged then rest else fence ++ rest) rest Hstrip).
  - destruct tagged; [reflexivity|].
    change ((if startswith rest (py "json") then drop 4 rest
             else fence ++ rest) = fence ++ rest).
    replace (startswith rest (py "json")) with false; [reflexivity|].
    symmetry. apply startswith_mismatch; [done|reflexivity|discriminate].
  - destruct tagged; [by rewrite Hsw|reflexivity].
Qed.

Lemma dict_get_app (d d' : dict) (k : str) :
  dict_get (d ++ d') k
  = match dict_get d k with
    | Some x => Some x
    | None => dict_get d' k
    end.
Proof.
  induction d as [|[k' v] d IH]; simpl; [done|]. by case_decide.
Qed.

Lemma dict_get_setdefault (k : str) (v : value) (d : dict) (field : str) :
  dict_get (setdefault k v d) field
  = match dict_get d field with
    | Some x => Some x
    | None => if decide (k = field) then Some v else None
    end.
Proof.
  unfold setdefault. destruct (dict_get d k) as [x|] eqn:Hk.
  - destruct (dict_get d field) eqn:Hf; [done|].
    case_decide; [congruence|done].
  - rewrite dict_get_app. simpl. by destruct (dict_get d field).
Qed.

Lemma setdefault_present (k : str) (v : value) (d : dict) :
  is_Some (dict_get d k) -> setdefault k v d = d.
Proof. intros [x Hx]. unfold setdefault. by rewrite Hx. Qed.

(** C6, as stated, fails in two ways.  A missing explanation is
    back-filled with the raw reply, fence included, so the fenced and the
    bare reply give different records; and a language tag other than
    [json] stays in the text handed to the parser, which then rejects
    it. *)
Lemma parse_llm_response_fence_differs :
  _parse_llm_response fresh_interpreter
    (py "```json" ++ NL ++ py "{}" ++ NL ++ py "```") []
  <> _parse_llm_response fresh_interpreter (py "{}") []
  /\ cleaned_response (py "```javascript" ++ NL ++ py "{}" ++ NL ++ py "```")
     = py "javascript" ++ NL ++ py "{}"
  /\ _parse_llm_response fresh_interpreter
       (py "```javascript" ++ NL ++ py "{}" ++ NL ++ py "```") []
     <> _parse_llm_response fresh_interpreter (py "{}") [].
Proof.
  split; [|split].
  - intros H. vm_compute in H. discriminate H.
  - vm_compute. reflexivity.
  - intros H. vm_compute in H. discriminate H.
Qed.

(** C6, amended.  Take a payload that starts with an opening brace and
    ends with a closing brace, as every JSON object does, and wrap it in a
    fence that is bare or tagged [json], with any whitespace around the
    fence and the payload.  The parser is handed the same text as for the
    bare payload; the two records are equal when the parsed object has an
    explanation, and in every case they agree on every field other than
    the explanation (and raise the same error when one raises). *)
Theorem parse_llm_response_fenced (interp : interpreter) (tagged : bool)
    (pre ws1 body ws2 post : str) (runbooks : list Hit.t) :
  blank pre -> blank ws1 -> blank ws2 -> blank post ->
  let payload := "{"%char :: body ++ ["}"%char] in
  let wrapped :=
    pre ++ fence ++ (if tagged then py "json" else []) ++ ws1
    ++ payload ++ ws2 ++ fence ++ post in
  cleaned_response wrapped = cleaned_response payload
  /\ (forall d,
        json_loads interp payload = Decoded (VDict d) ->
        is_Some (dict_get d (py "explanation")) ->
        _parse_llm_response interp wrapped runbooks
        = _parse_llm_response interp payload runbooks)
  /\ (forall field,
        field <> py "explanation" ->
        match _parse_llm_response interp wrapped runbooks,
              _parse_llm_response interp payload runbooks with
        | Return r1, Return r2 => dict_get r1 field = dict_get r2 field
        | Raise e1, Raise e2 => e1 = e2
        | _, _ => False
        end).
Proof.
  intros Hpre H1 H2 Hpost payload wrapped.
  assert (cleaned_response wrapped = payload) as Hw
    by (by apply cleaned_response_fenced).
  assert (cleaned_response payload = payload) as Hp
    by apply cleaned_response_object.
  split; [congruence|]. unfold _parse_llm_response. rewrite Hw, Hp. split.
  - intros d Hd Hex. rewrite Hd.
    assert (forall raw,
              setdefault (py "explanation") (VStr raw)
                (setdefault (py "error_category") (VStr (py "Unknown"))
                   (setdefault (py "severity") (VStr (py "MEDIUM"))
                      (setdefault (py "root_cause")
                         (VStr (py "Unable to determine root cause")) d)))
              = setdefault (py "error_category") (VStr (py "Unknown"))
                  (setdefault (py "severity") (VStr (py "MEDIUM"))
                     (setdefault (py "root_cause")
                        (VStr (py "Unable to determine root cause")) d)))
      as Hsame.
    { intros raw. apply setdefault_present.
      rewrite !dict_get_setdefault. destruct Hex as [x ->]. by eexists. }
    by rewrite !Hsame.
  - intros field Hfield.
    destruct (json_loads interp payload) as [[| | | | | |d]| | |];
      try reflexivity.
    + rewrite !dict_get_setdefault.
      destruct (decide (py "explanation" = field)) as [<-|_]; [done|].
      reflexivity.
    + cbn [dict_get].
      repeat (case_decide; [first [reflexivity | by subst]|]).
      reflexivity.
Qed.

Lemma parse_llm_response_fenced_witness :
  cleaned_response (py "```json" ++ NL ++ py "{}" ++ NL ++ py "```")
  = cleaned_response (py "{}").
Proof.
  destruct (parse_llm_response_fenced fresh_interpreter true [] NL [] NL [] [])
    as [H _].
  - constructor.
  - repeat constructor.
  - repeat constructor.
  - constructor.
  - exact H.
Defined.

(** ** The scenarios of the test suite *)

Example test_oomkilled :
  map (fun c => (Cls.category c, Cls.severity c))
    (classify_errors (py "Container OOMKilled due to memory limit"))
  = [(py "OOMKilled", py "CRITICAL")].
Proof. vm_compute. reflexivity. Qed.

Example test_network_error :
  map (fun c => (Cls.category c, excerpts (Cls.matched_text c)))
    (classify_errors (py "connection refused when dial tcp 10.0.0.1:5432"))
  = [(py "NetworkError", [py "connection refused"])].
Proof. vm_compute. reflexivity. Qed.

Example test_terraform_state_lock :
  map (fun c => (Cls.category c, Cls.matched_text c, Cls.match_count c))
    (classify_errors (py "Error acquiring state lock. Lock ID: abc123"))
  = [(py "TerraformStateLock", Many [py "state lock"; py "Lock ID"], 2)].
Proof. vm_compute. reflexivity. Qed.

Example test_empty_text : classify_errors [] = [].
Proof. vm_compute. reflexivity. Qed.

Example test_no_match :
  classify_errors (py "Some random log message with no known patterns") = [].
Proof. vm_compute. reflexivity. Qed.

Example test_multiple_patterns_sorted_by_severity :
  map (fun c => (Cls.severity c, Cls.category c))
    (classify_errors
       (py "Readiness probe failed, then ImagePullBackOff and OOMKilled; liveness probe failed"))
  = [(py "CRITICAL", py "OOMKilled"); (py "HIGH", py "ImagePullBackOff");
     (py "HIGH", py "LivenessProbeFailure");
     (py "MEDIUM", py "ReadinessProbeFailure")].
Proof. vm_compute. reflexivity. Qed.

Example test_empty_classifications : get_highest_severity [] = INFO.
Proof. reflexivity. Qed.

Example test_critical_first :
  get_highest_severity
    (classify_errors (py "Readiness probe failed after OOMKilled"))
  = CRITICAL.
Proof. vm_compute. reflexivity. Qed.

Example test_json_with_markdown_wrapper :
  _parse_llm_response fresh_interpreter
    (py "```json" ++ NL ++ py "{" ++ quoted "root_cause" ++ py ":"
     ++ quoted "a" ++ py "," ++ quoted "severity" ++ py ":"
     ++ quoted "MEDIUM" ++ py "," ++ quoted "fix_commands" ++ py ":[]}"
     ++ NL ++ py "```") []
  = Return [
      (py "root_cause", VStr (py "a"));
      (py "severity", VStr (py "MEDIUM"));
      (py "fix_commands", VList []);
      (py "error_category", VStr (py "Unknown"));
      (py "explanation",
        VStr (py "```json" ++ NL ++ py "{" ++ quoted "root_cause" ++ py ":"
              ++ quoted "a" ++ py "," ++ quoted "severity" ++ py ":"
              ++ quoted "MEDIUM" ++ py "," ++ quoted "fix_commands"
              ++ py ":[]}" ++ NL ++ py "```"));
      (py "prevention_tips", VList []);
      (py "related_runbooks", VList [])
    ].
Proof. vm_compute. reflexivity. Qed.

Example test_fallback_structure :
  dict_get
    (_generate_fallback_response (py "Connection timeout")
       (Some [Cls.mk (py "NetworkError") (py "HIGH") [] (One []) 1]) [])
    (py "explanation")
  = Some (VStr (py "The AI model could not be reached (Connection timeout). However, pattern-based analysis detected: [{"
                ++ quoted "category" ++ py ": " ++ quoted "NetworkError"
                ++ py ", " ++ quoted "severity" ++ py ": " ++ quoted "HIGH"
                ++ py ", " ++ quoted "hint" ++ py ": " ++ [dquote; dquote]
                ++ py ", " ++ quoted "matched_text" ++ py ": "
                ++ [dquote; dquote] ++ py ", " ++ quoted "match_count"
                ++ py ": 1}]")).
Proof. vm_compute. reflexivity. Qed.

Example test_mock_response_scenario :
  map (fun field =>
         dict_get
           (analyze_devops_issue fresh_interpreter [] (fun _ => Failure [])
              None [] (py "Pod OOMKilled in production")
              (Some (classify_errors (py "Pod OOMKilled in production"))) [])
           (py field))
    ["root_cause"; "severity"; "error_category"]%string
  = [Some (VStr (py "[MOCK] Detected OOMKilled error pattern"));
     Some (VStr (py "CRITICAL")); Some (VStr (py "OOMKilled"))].
Proof. vm_compute. reflexivity. Qed.

Example test_matching_query_returns_results :
  map (fun hit => (Hit.filename hit, Hit.relevance_score hit))
    (search_runbooks
       (Some [(py "runbooks/crashloopbackoff.md",
               Some (py "# CrashLoopBackOff" ++ NL
                     ++ py "Check the previous logs and the memory."));
              (py "runbooks/imagepullbackoff.md",
               Some (py "# ImagePullBackOff" ++ NL ++ py "Check the tag."));
              (py "runbooks/oomkilled.md",
               Some (py "# OOMKilled" ++ NL ++ py "Raise the memory limit."))])
       [] (py "OOMKilled memory") 3)
  = [(py "oomkilled.md", 2 # 2); (py "crashloopbackoff.md", 1 # 2)].
Proof. vm_compute. reflexivity. Qed.

(* ===================================================================== *)
(** * Further properties of the code *)

(** ** The runbook loader *)

Lemma load_step_files (files : list (str * option str)) (cache : list Rb.t) :
  map (fun rb => (Rb.filename rb, Rb.content rb)) (foldl load_step cache files)
  = map (fun rb => (Rb.filename rb, Rb.content rb)) cache
    ++ omap (fun file => (fun content => (basename file.1, content)) <$> file.2)
         files.
Proof.
  revert cache. induction files as [|[path read] files IH]; intros cache; simpl.
  - by rewrite app_nil_r.
  - rewrite IH. unfold load_step. simpl. destruct read as [content|]; simpl.
    + by rewrite map_app, <- app_assoc.
    + done.
Qed.

(** X1. Loading into an empty cache keeps one document per readable file, in
    the order of the listing: its filename is the base name of the path and
    its content is what was read.  Files that cannot be read are skipped
    without ending the load, and a missing directory gives no document. *)
Theorem load_runbooks_files (dir : directory) :
  map (fun rb => (Rb.filename rb, Rb.content rb)) (load_runbooks dir [])
  = omap (fun file => (fun content => (basename file.1, content)) <$> file.2)
      (default [] dir).
Proof.
  destruct dir as [files|]; simpl; [|done].
  by rewrite load_step_files.
Qed.

(** X2. The cache is filled once: after a load that found documents, every
    later call returns the same documents whatever the directory holds
    then; a load that found none leaves the cache empty, so the next call
    reads the directory again.  In particular loading twice from the same
    directory gives what loading once gives. *)
Theorem load_runbooks_cached (dir dir' : directory) (cache : list Rb.t) :
  load_runbooks dir' (load_runbooks dir cache)
  = match load_runbooks dir cache with
    | [] => load_runbooks dir' []
    | loaded => loaded
    end
  /\ load_runbooks dir (load_runbooks dir cache) = load_runbooks dir cache.
Proof.
  split.
  - by destruct (load_runbooks dir cache).
  - destruct cache as [|rb cache]; [|done].
    destruct (load_runbooks dir []) as [|rb loaded] eqn:Hload; [|done].
    exact Hload.
Qed.

Lemma split_on_cons (sep : ascii) (s : str) :
  exists h t, split_on sep s = h :: t.
Proof.
  induction s as [|c s (h & t & IH)]; simpl; [by eexists _, _|].
  destruct (Ascii.eqb c sep); [by eexists _, _|]. rewrite IH. by eexists _, _.
Qed.

Lemma split_on_free (sep : ascii) (s : str) :
  Forall (fun part => sep ∉ part) (split_on sep s).
Proof.
  induction s as [|c s IH]; simpl.
  - constructor; [apply not_elem_of_nil|constructor].
  - destruct (Ascii.eqb_spec c sep) as [->|Hne].
    + constructor; [apply not_elem_of_nil|done].
    + destruct (split_on sep s) as [|h t].
      { constructor; [|constructor].
        rewrite elem_of_cons, elem_of_nil. intros [->|[]]. done. }
      apply Forall_cons in IH as [Hh Ht]. constructor; [|done].
      rewrite elem_of_cons. intros [->|Hin]; [done|by apply Hh].
Qed.

Lemma split_on_app (sep : ascii) (s1 s2 : str) :
  split_on sep (s1 ++ sep :: s2) = split_on sep s1 ++ split_on sep s2.
Proof.
  induction s1 as [|c s1 IH]; simpl.
  - by rewrite Ascii.eqb_refl.
  - rewrite IH. destruct (Ascii.eqb c sep); [reflexivity|].
    destruct (split_on_cons sep s1) as (h & t & ->). reflexivity.
Qed.

Lemma split_on_absent (sep : ascii) (s : str) :
  sep ∉ s -> split_on sep s = [s].
Proof.
  induction s as [|c s IH]; simpl; [done|]. intros Hnot.
  destruct (Ascii.eqb_spec c sep) as [->|Hne]; [set_solver|].
  rewrite IH; [done|set_solver].
Qed.

(** X3. The filename of a document never contains a slash, and it is the
    file name itself for a path made of a directory, a slash and a file
    name without a slash. *)
Theorem basename_file_name (path : str) :
  ("/"%char ∉ basename path)
  /\ forall directory_path name,
       "/"%char ∉ name ->
       basename (directory_path ++ "/"%char :: name) = name.
Proof.
  split.
  - unfold basename.
    pose proof (split_on_free "/"%char path) as Hfree.
    destruct (last (split_on "/"%char path)) as [part|] eqn:Hlast; simpl.
    + rewrite Forall_forall in Hfree. apply Hfree.
      apply last_Some in Hlast as [l' ->].
      apply elem_of_app. right. apply list_elem_of_here.
    + apply not_elem_of_nil.
  - intros directory_path name Hname. unfold basename.
    rewrite split_on_app, (split_on_absent _ name Hname).
    by rewrite last_snoc.
Qed.

Lemma elem_of_strip (s : str) (c : ascii) : c ∈ strip s -> c ∈ s.
Proof.
  unfold strip. intros H.
  destruct (lstrip_suffix s) as (ws1 & _ & H1).
  destruct (rstrip_prefix (lstrip s)) as (ws2 & _ & H2).
  rewrite H1, H2, !elem_of_app. auto.
Qed.

Lemma first_line_free (content : str) : "010"%char ∉ first_line content.
Proof.
  induction content as [|c rest IH]; simpl; [apply not_elem_of_nil|].
  destruct (Ascii.eqb_spec c "010"%char) as [->|Hne];
    [apply not_elem_of_nil|].
  rewrite elem_of_cons. intros [Heq|Hin]; [congruence|done].
Qed.

(** X4. The title stored for a loaded document holds no [#] and no
    newline, and it neither starts nor ends with whitespace. *)
Theorem load_runbooks_title_clean (dir : directory) (rb : Rb.t) :
  rb ∈ load_runbooks dir [] ->
  ("#"%char ∉ Rb.title rb)
  /\ ("010"%char ∉ Rb.title rb)
  /\ (forall c rest, Rb.title rb = c :: rest -> isspace c = false)
  /\ (forall front c, Rb.title rb = front ++ [c] -> isspace c = false).
Proof.
  intros Hin.
  assert (Rb.title rb = title_of (Rb.content rb)) as ->.
  { revert rb Hin. apply Forall_forall.
    destruct dir as [files|]; simpl; [|constructor].
    apply load_step_titles. constructor. }
  unfold title_of. rewrite head_split_on_newline.
  split; [|split; [|split]].
  - intros H%elem_of_strip. unfold remove_char in H.
    apply list_elem_of_In, filter_In in H as [_ H]. by vm_compute in H.
  - intros H%elem_of_strip. unfold remove_char in H.
    apply list_elem_of_In, filter_In in H as [H _].
    apply list_elem_of_In in H. by apply first_line_free in H.
  - intros c rest. apply strip_head.
  - intros front c. unfold strip. apply rstrip_last.
Qed.

Lemma load_runbooks_title_clean_witness :
  "#"%char ∉ py "OOMKilled: pod killed".
Proof.
  apply (load_runbooks_title_clean
           (Some [(py "runbooks/oomkilled.md",
                   Some (py "## OOMKilled: #pod killed  " ++ NL ++ py "Steps"))])
           (Rb.mk (py "oomkilled.md") (py "OOMKilled: pod killed")
              (py "## OOMKilled: #pod killed  " ++ NL ++ py "Steps"))).
  vm_compute. left.
Defined.

(** ** The search at its edges *)

Lemma search_runbooks_slice (dir : directory) (cache : list Rb.t)
    (query : str) (top_k : Z) :
  search_runbooks dir cache query top_k
  = slice_to (ranking dir cache query) top_k.
Proof.
  unfold search_runbooks, ranking.
  destruct (load_runbooks dir cache) as [|rb rbs] eqn:Hload.
  - cbn. unfold slice_to. by destruct (0 <=? top_k)%Z; rewrite take_nil.
  - by rewrite search_step_scored.
Qed.

(** X5. A [top_k] that is not positive is not refused: with 0 the search
    returns nothing, and with a negative [top_k] it returns the ranking
    without its last [-top_k] entries, so it can still return documents. *)
Theorem search_runbooks_nonpositive_top_k (dir : directory)
    (cache : list Rb.t) (query : str) :
  search_runbooks dir cache query 0 = []
  /\ forall top_k,
       (top_k < 0)%Z ->
       search_runbooks dir cache query top_k
       = take (length (ranking dir cache query) - Z.to_nat (- top_k))
           (ranking dir cache query).
Proof.
  split.
  - by rewrite search_runbooks_slice.
  - intros top_k Hk. rewrite search_runbooks_slice. unfold slice_to.
    destruct (Z.leb_spec 0 top_k); [lia|done].
Qed.

Lemma search_runbooks_nonpositive_top_k_witness :
  map Hit.filename
    (search_runbooks
       (Some [(py "runbooks/crashloopbackoff.md",
               Some (py "# CrashLoopBackOff" ++ NL ++ py "Check the memory."));
              (py "runbooks/oomkilled.md",
               Some (py "# OOMKilled" ++ NL ++ py "Raise the memory limit."))])
       [] (py "OOMKilled memory") (-1))
  = [py "oomkilled.md"].
Proof.
  destruct (search_runbooks_nonpositive_top_k
              (Some [(py "runbooks/crashloopbackoff.md",
                      Some (py "# CrashLoopBackOff" ++ NL
                            ++ py "Check the memory."));
                     (py "runbooks/oomkilled.md",
                      Some (py "# OOMKilled" ++ NL
                            ++ py "Raise the memory limit."))])
              [] (py "OOMKilled memory")) as [_ H].
  rewrite (H (-1)%Z) by lia. vm_compute. reflexivity.
Defined.

Lemma isspace_not_upper (c : ascii) :
  isspace c = true -> lower_char c = c.
Proof.
  intros H. unfold lower_char.
  destruct (in_range 65 90 c) eqn:Hup; [|done].
  exfalso. revert H Hup.
  destruct c as [[] [] [] [] [] [] [] []]; vm_compute; congruence.
Qed.

Lemma split_ws_blank (s : str) : blank s -> split_ws (lower s) = [].
Proof.
  unfold split_ws. induction 1 as [|c s Hc _ IH]; simpl; [done|].
  by rewrite (isspace_not_upper c Hc), Hc.
Qed.

Lemma ranking_no_words (dir : directory) (cache : list Rb.t) (query : str) :
  split_ws (lower query) = [] -> ranking dir cache query = [].
Proof.
  intros Hq. unfold ranking, overlap, query_words. rewrite Hq. simpl.
  assert (filter (fun rb : Rb.t => 0 < count_matches ∅ (lower (Rb.content rb)))
            (load_runbooks dir cache) = []) as ->; [|done].
  induction (load_runbooks dir cache) as [|rb rbs IH]; [done|].
  rewrite filter_cons, IH. unfold count_matches. rewrite elements_empty.
  cbn. by rewrite decide_False by lia.
Qed.

(** X6. A query without a word (empty or made of whitespace only) matches
    no document: the search returns nothing for every [top_k]. *)
Theorem search_runbooks_blank_query (dir : directory) (cache : list Rb.t)
    (query : str) (top_k : Z) :
  blank query -> search_runbooks dir cache query top_k = [].
Proof.
  intros Hq. rewrite search_runbooks_slice.
  rewrite (ranking_no_words dir cache query (split_ws_blank query Hq)).
  unfold slice_to. by destruct (0 <=? top_k)%Z; rewrite take_nil.
Qed.

Lemma search_runbooks_blank_query_witness :
  search_runbooks
    (Some [(py "runbooks/oomkilled.md",
            Some (py "# OOMKilled" ++ NL ++ py "Raise the memory limit."))])
    [] (py "  " ++ NL) 3
  = [].
Proof.
  apply (search_runbooks_blank_query
           (Some [(py "runbooks/oomkilled.md",
                   Some (py "# OOMKilled" ++ NL
                         ++ py "Raise the memory limit."))])
           [] (py "  " ++ NL) 3).
  repeat constructor.
Defined.

(** X7. [total_matched] of the runbook endpoint counts the returned
    results, not the matching documents: for a [top_k] that is not
    negative it is the smaller of [top_k] and the number of loaded
    documents that hold at least one query word. *)
Theorem suggest_runbook_total_matched (dir : directory) (cache : list Rb.t)
    (error_message : str) (top_k : Z) :
  (0 <= top_k)%Z ->
  Suggestion.total_matched (suggest_runbook dir cache error_message top_k)
  = Nat.min (Z.to_nat top_k)
      (length (filter (fun rb => 0 < overlap error_message rb)
                 (load_runbooks dir cache)))
  /\ Suggestion.total_matched (suggest_runbook dir cache error_message top_k)
     = length (Suggestion.results
                 (suggest_runbook dir cache error_message top_k))
  /\ Suggestion.query (suggest_runbook dir cache error_message top_k)
     = error_message.
Proof.
  intros Hk. split; [|done]. unfold suggest_runbook. simpl.
  rewrite search_runbooks_slice. unfold slice_to.
  destruct (Z.leb_spec 0 top_k); [|lia].
  rewrite length_take. unfold ranking.
  rewrite (Permutation_length (stable_sort_perm by_score _)).
  by rewrite length_map.
Qed.

Lemma suggest_runbook_total_matched_witness :
  Suggestion.total_matched
    (suggest_runbook
       (Some [(py "runbooks/crashloopbackoff.md",
               Some (py "# CrashLoopBackOff" ++ NL ++ py "Check the memory."));
              (py "runbooks/oomkilled.md",
               Some (py "# OOMKilled" ++ NL ++ py "Raise the memory limit."))])
       [] (py "OOMKilled memory") 1)
  = 1.
Proof.
  destruct (suggest_runbook_total_matched
              (Some [(py "runbooks/crashloopbackoff.md",
                      Some (py "# CrashLoopBackOff" ++ NL
                            ++ py "Check the memory."));
                     (py "runbooks/oomkilled.md",
                      Some (py "# OOMKilled" ++ NL
                            ++ py "Raise the memory limit."))])
              [] (py "OOMKilled memory") 1) as [H _].
  - lia.
  - rewrite H. vm_compute. reflexivity.
Defined.

(** ** The classifier and its callers *)

Lemma rmatch_suffix (r : regex) :
  forall (s : str) (k : str -> option str) (x : str),
    rmatch r s k = Some x ->
    exists s', k s' = Some x /\ s' `suffix_of` s.
Proof.
  induction r as [|c| | | |lo hi|r1 IH1 r2 IH2|r1 IH1 r2 IH2|r IH];
    intros s k x H; simpl in H;
    try (destruct s as [|a s]; [discriminate H|];
         match type of H with
         | (if ?b then _ else _) = _ => destruct b; [|discriminate H]
         end;
         exists s; split; [exact H|by apply suffix_cons_r]).
  - by exists s.
  - apply IH1 in H as (s1 & H & Hs1).
    apply IH2 in H as (s2 & H & Hs2).
    exists s2. split; [exact H|by etrans].
  - destruct (rmatch r1 s k) as [y|] eqn:H1.
    + injection H as ->. by apply IH1 in H1.
    + by apply IH2 in H.
  - revert H. generalize (length s) at 1. intros n. revert s x.
    induction n as [|n IHn]; intros s x H.
    + by exists s.
    + destruct (rmatch r s _) as [y|] eqn:H1.
      * injection H as ->. apply IH in H1 as (s1 & H1 & Hs1).
        destruct (Nat.ltb_spec (length s1) (length s)); [|discriminate H1].
        apply IHn in H1 as (s2 & H2 & Hs2).
        exists s2. split; [exact H2|by etrans].
      * by exists s.
Qed.

Lemma contains_infix (pre m post : str) : contains (pre ++ m ++ post) m = true.
Proof.
  induction pre as [|c pre IH]; simpl.
  - pose proof (startswith_app m post) as H.
    destruct (m ++ post); simpl; by rewrite H.
  - rewrite IH. apply orb_true_r.
Qed.

(** Every match that [findall] reports is a piece of the text. *)
Lemma findall_from_infix (r : regex) (fuel : nat) (text pre s : str) :
  text = pre ++ s ->
  Forall (fun m => contains text m = true) (findall_from fuel r s).
Proof.
  revert pre s. induction fuel as [|fuel IH]; intros pre s Htext; simpl.
  - constructor.
  - destruct (rmatch r s Some) as [rest|] eqn:Hm.
    + apply rmatch_suffix in Hm as (s' & [= ->] & [m Hs]).
      assert (take (length s - length rest) s = m) as ->.
      { rewrite Hs, length_app.
        replace (length m + length rest - length rest) with (length m) by lia.
        apply take_app_length. }
      constructor.
      { rewrite Htext, Hs. apply contains_infix. }
      destruct m as [|a m].
      * destruct s as [|b s]; [constructor|].
        apply (IH (pre ++ [b])). by rewrite Htext, <- app_assoc.
      * apply (IH (pre ++ a :: m)). by rewrite Htext, Hs, <- app_assoc.
    + destruct s as [|b s]; [constructor|].
      apply (IH (pre ++ [b])). by rewrite Htext, <- app_assoc.
Qed.

(** X8. Every excerpt that a classification holds is a non-empty piece of
    the input text, letter for letter. *)
Theorem classify_errors_excerpts_from_text (text : str) :
  forall c m,
    c ∈ classify_errors text ->
    m ∈ excerpts (Cls.matched_text c) ->
    m <> [] /\ contains text m = true.
Proof.
  intros c m (e & Hin & ->)%elem_of_classify_errors Hm.
  destruct (winners_first _ _ _ _ Hin) as (i & Hi & _).
  apply list_elem_of_lookup_2 in Hi.
  unfold classification_of in Hm. rewrite excerpts_record_of in Hm.
  assert (m ∈ findall (Entry.pattern e) text) as Hm'.
  { apply (subseteq_take 3). exact Hm. }
  split.
  - pose proof (registry_excerpts_nonempty text e Hi) as H.
    rewrite Forall_forall in H. by apply H.
  - pose proof (findall_from_infix (Entry.pattern e) (S (length text))
                  text [] text eq_refl) as H.
    rewrite Forall_forall in H. by apply H.
Qed.

Lemma classify_errors_excerpts_from_text_witness :
  py "Lock ID" <> [] /\
  contains (py "Error acquiring state lock. Lock ID: abc123") (py "Lock ID")
  = true.
Proof.
  apply (classify_errors_excerpts_from_text
           (py "Error acquiring state lock. Lock ID: abc123")
           (Cls.mk (py "TerraformStateLock") (py "MEDIUM")
              (py "Terraform state is locked. Check DynamoDB lock table or use force-unlock if safe.")
              (Many [py "state lock"; py "Lock ID"]) 2)).
  - vm_compute. left.
  - vm_compute. right. left.
Defined.

Lemma get_highest_severity_head (c : Cls.t) (cs : list Cls.t) (s : Severity) :
  Cls.severity c = Severity_value s -> get_highest_severity (c :: cs) = s.
Proof. intros H. unfold get_highest_severity. rewrite H. by destruct s. Qed.

Lemma registry_severities :
  Forall (fun e => Entry.severity e = CRITICAL \/ Entry.severity e = HIGH
                   \/ Entry.severity e = MEDIUM) ERROR_PATTERNS.
Proof. repeat (constructor; [simpl; auto|]). constructor. Qed.

(** X9. On the output of the classifier, [get_highest_severity] is the
    severity of the first classification and no classification ranks
    before it; it is CRITICAL, HIGH or MEDIUM when something was
    classified, and INFO exactly when nothing was. *)
Theorem get_highest_severity_classified (text : str) :
  (classify_errors text = []
   <-> get_highest_severity (classify_errors text) = INFO)
  /\ (forall c,
        c ∈ classify_errors text ->
        severity_order
          (Severity_value (get_highest_severity (classify_errors text)))
        <= severity_rank c)
  /\ (forall c cs,
        classify_errors text = c :: cs ->
        Cls.severity c
        = Severity_value (get_highest_severity (classify_errors text))
        /\ get_highest_severity (classify_errors text)
           ∈ [CRITICAL; HIGH; MEDIUM]).
Proof.
  assert (forall c cs,
            classify_errors text = c :: cs ->
            Cls.severity c
            = Severity_value (get_highest_severity (classify_errors text))
            /\ get_highest_severity (classify_errors text)
               ∈ [CRITICAL; HIGH; MEDIUM]) as Hhead.
  { intros c cs Heq.
    assert (c ∈ classify_errors text) as Hc by (rewrite Heq; left).
    apply elem_of_classify_errors in Hc as (e & Hin & ->).
    destruct (winners_first _ _ _ _ Hin) as (i & Hi & _).
    apply list_elem_of_lookup_2 in Hi.
    pose proof registry_severities as Hsev.
    rewrite Forall_forall in Hsev. specialize (Hsev e Hi).
    rewrite Heq.
    rewrite (get_highest_severity_head (classification_of text e) cs
               (Entry.severity e)) by reflexivity.
    split; [reflexivity|].
    destruct Hsev as [-> | [-> | ->]];
      repeat first [apply list_elem_of_here | apply list_elem_of_further]. }
  split; [|split; [|exact Hhead]].
  - destruct (classify_errors text) as [|c cs] eqn:Heq; [done|].
    split; [done|]. intros Hinfo.
    destruct (Hhead c cs eq_refl) as [_ Hin].
    rewrite Hinfo in Hin.
    repeat (apply elem_of_cons in Hin as [Hin|Hin]; [discriminate Hin|]).
    by apply elem_of_nil in Hin.
  - intros c Hc.
    assert (StronglySorted (fun a b => by_severity a b = true)
              (classify_errors text)) as Hsorted.
    { unfold classify_errors.
      apply stable_sort_sorted;
        [apply by_severity_total|apply by_severity_trans]. }
    destruct (classify_errors text) as [|c0 cs] eqn:Heq;
      [by apply elem_of_nil in Hc|].
    destruct (Hhead c0 cs eq_refl) as [Hsev _]. rewrite <- Hsev.
    apply StronglySorted_inv in Hsorted as [_ Hall].
    apply elem_of_cons in Hc as [->|Hc]; [done|].
    rewrite Forall_forall in Hall. specialize (Hall c Hc).
    unfold by_severity in Hall. by apply Nat.leb_le in Hall.
Qed.

(** ** Detection does not depend on letter case *)

Lemma lower_char_idemp (a : ascii) : lower_char (lower_char a) = lower_char a.
Proof. destruct a as [[] [] [] [] [] [] [] []]; reflexivity. Qed.

Lemma upper_lower_char (a : ascii) : upper_char (lower_char a) = upper_char a.
Proof. destruct a as [[] [] [] [] [] [] [] []]; reflexivity. Qed.

Lemma lower_or_upper_char (a : ascii) : a = lower_char a \/ a = upper_char a.
Proof.
  destruct a as [[] [] [] [] [] [] [] []];
    first [left; reflexivity | right; reflexivity].
Qed.

Lemma lower_char_plain (a : ascii) :
  Ascii.eqb (lower_char a) "010"%char = Ascii.eqb a "010"%char
  /\ isspace (lower_char a) = isspace a
  /\ isdigit (lower_char a) = isdigit a.
Proof. destruct a as [[] [] [] [] [] [] [] []]; repeat split. Qed.

Lemma char_matches_lower (r : regex) (a : ascii) :
  char_matches r (lower_char a) = char_matches r a.
Proof.
  destruct (lower_char_plain a) as (Hnl & Hsp & Hdg).
  destruct r as [|c| | | |lo hi|r1 r2|r1 r2|r]; simpl; try reflexivity.
  - by rewrite lower_char_idemp.
  - by rewrite Hnl.
  - exact Hsp.
  - exact Hdg.
  - rewrite lower_char_idemp, upper_lower_char.
    assert (in_range (nat_of_ascii lo) (nat_of_ascii hi) a
            = in_range (nat_of_ascii lo) (nat_of_ascii hi) (lower_char a)
            \/ in_range (nat_of_ascii lo) (nat_of_ascii hi) a
               = in_range (nat_of_ascii lo) (nat_of_ascii hi) (upper_char a))
      as [-> | ->]
      by (destruct (lower_or_upper_char a) as [H|H];
          [left|right]; by rewrite <- H).
    + by destruct (in_range _ _ (lower_char a)), (in_range _ _ (upper_char a)).
    + by destruct (in_range _ _ (lower_char a)), (in_range _ _ (upper_char a)).
Qed.

#[local] Arguments char_matches : simpl never.

Lemma length_lower (s : str) : length (lower s) = length s.
Proof. apply length_map. Qed.

Lemma rmatch_lower (r : regex) :
  forall (s : str) (k k' : str -> option str),
    (forall s', k' (lower s') = lower <$> k s') ->
    rmatch r (lower s) k' = lower <$> rmatch r s k.
Proof.
  induction r as [|c| | | |lo hi|r1 IH1 r2 IH2|r1 IH1 r2 IH2|r IH];
    intros s k k' Hk; simpl;
    try (destruct s as [|a s]; simpl; [reflexivity|];
         match goal with
         | |- context [char_matches ?r (lower_char a)] =>
             rewrite (char_matches_lower r a)
         end; simpl;
         match goal with
         | |- (if ?b then _ else _) = _ => destruct b; [apply Hk|reflexivity]
         end).
  - apply Hk.
  - apply IH1. intros s'. by apply IH2.
  - rewrite (IH1 s k k' Hk), (IH2 s k k' Hk).
    by destruct (rmatch r1 s k).
  - match goal with
    | |- ?f' _ _ = lower <$> ?f _ _ => set (loop' := f'); set (loop := f)
    end.
    rewrite length_lower. generalize (length s). intros n.
    revert s. induction n as [|n IHn]; intros s.
    + apply Hk.
    + change (match rmatch r (lower s)
                      (fun s' => if length s' <? length (lower s)
                                 then loop' n s' else None) with
              | Some rest => Some rest
              | None => k' (lower s)
              end
              = lower <$> match rmatch r s
                                  (fun s' => if length s' <? length s
                                             then loop n s' else None) with
                          | Some rest => Some rest
                          | None => k s
                          end).
      rewrite (IH s (fun s' => if length s' <? length s
                               then loop n s' else None)).
      * rewrite Hk. by destruct (rmatch r s _).
      * intros s'. rewrite !length_lower.
        destruct (length s' <? length s); [apply IHn|reflexivity].
Qed.

Lemma findall_from_lower (r : regex) (fuel : nat) (s : str) :
  findall_from fuel r (lower s) = map lower (findall_from fuel r s).
Proof.
  revert s. induction fuel as [|fuel IH]; intros s; simpl; [done|].
  rewrite (rmatch_lower r s Some Some) by done.
  destruct (rmatch r s Some) as [rest|]; simpl.
  - assert (take (length (lower s) - length (lower rest)) (lower s)
            = lower (take (length s - length rest) s)) as ->.
    { rewrite !length_lower. unfold lower. by rewrite fmap_take. }
    destruct (take (length s - length rest) s) as [|a m]; simpl.
    + destruct s as [|b s]; simpl; [done|]. by rewrite IH.
    + by rewrite IH.
  - destruct s as [|b s]; simpl; [done|]. apply IH.
Qed.

Lemma findall_lower (r : regex) (text : str) :
  findall r (lower text) = map lower (findall r text).
Proof.
  unfold findall. by rewrite <- findall_from_lower, length_lower.
Qed.

Lemma winners_lower (text : str) (seen : gset ErrorCategory)
    (registry : list Entry.t) :
  winners (lower text) seen registry = winners text seen registry.
Proof.
  revert seen. induction registry as [|e reg IH]; intros seen; simpl; [done|].
  assert (bool_decide (detects (lower text) e) = bool_decide (detects text e))
    as ->.
  { apply bool_decide_ext. unfold detects. rewrite findall_lower.
    by destruct (findall (Entry.pattern e) text). }
  by rewrite !IH.
Qed.

Lemma classification_of_lower (text : str) (e : Entry.t) :
  classification_of (lower text) e
  = map_excerpts lower (classification_of text e).
Proof.
  unfold classification_of. rewrite findall_lower.
  unfold record_of, map_excerpts. simpl. rewrite length_map.
  f_equal. destruct (findall (Entry.pattern e) text) as [|m [|m' ms]];
    simpl; try reflexivity.
  f_equal. f_equal. f_equal. by rewrite <- fmap_take.
Qed.

Lemma stable_sort_map {A} (leb : A -> A -> bool) (f : A -> A) (l : list A) :
  (forall x y, leb (f x) (f y) = leb x y) ->
  stable_sort leb (map f l) = map f (stable_sort leb l).
Proof.
  intros Hf. induction l as [|x l IH]; simpl; [done|]. rewrite IH.
  generalize (stable_sort leb l). intros sorted.
  induction sorted as [|y sorted IHs]; simpl; [done|].
  rewrite Hf. destruct (leb x y); simpl; [done|]. by rewrite IHs.
Qed.

Lemma sorted_scan_lower (registry : list Entry.t) (text : str) :
  stable_sort by_severity (scan registry (lower text)).1
  = map (map_excerpts lower) (stable_sort by_severity (scan registry text).1).
Proof.
  rewrite !scan_winners, winners_lower.
  rewrite <- stable_sort_map by done. f_equal.
  rewrite map_map. apply map_ext. intros e. apply classification_of_lower.
Qed.

(** X10. On ASCII text the classifier ignores letter case: putting the
    text in lower case changes nothing in the result but the letter case
    of the excerpts, so two ASCII texts that differ only in letter case get
    the same categories, severities, hints and match counts, in the same
    order.  (Outside ASCII this fails in Python, where [str.lower] can
    turn one character into two that a detector no longer matches.) *)
Theorem classify_errors_ignores_case (text : str) :
  ascii_text text ->
  classify_errors (lower text)
  = map (map_excerpts lower) (classify_errors text)
  /\ forall text',
       ascii_text text' ->
       lower text' = lower text ->
       map (fun c => (Cls.category c, Cls.severity c, Cls.hint c,
                      Cls.match_count c)) (classify_errors text')
       = map (fun c => (Cls.category c, Cls.severity c, Cls.hint c,
                        Cls.match_count c)) (classify_errors text).
Proof.
  intros _.
  assert (forall t,
            map (fun c => (Cls.category c, Cls.severity c, Cls.hint c,
                           Cls.match_count c)) (classify_errors (lower t))
            = map (fun c => (Cls.category c, Cls.severity c, Cls.hint c,
                             Cls.match_count c)) (classify_errors t)) as Hsum.
  { intros t. unfold classify_errors. rewrite sorted_scan_lower.
    by rewrite map_map. }
  split; [apply sorted_scan_lower|].
  intros text' _ Heq. by rewrite <- (Hsum text'), Heq, Hsum.
Qed.

Lemma classify_errors_ignores_case_witness :
  map (fun c => (Cls.category c, Cls.severity c, Cls.hint c,
                 Cls.match_count c))
    (classify_errors (py "pod OOMKILLED, LIVENESS PROBE FAILED"))
  = map (fun c => (Cls.category c, Cls.severity c, Cls.hint c,
                   Cls.match_count c))
      (classify_errors (py "Pod oomkilled, liveness probe failed")).
Proof.
  destruct (classify_errors_ignores_case
              (py "Pod oomkilled, liveness probe failed")) as [_ H].
  - unfold ascii_text. apply (bool_decide_unpack _). vm_compute. exact I.
  - apply H; [|vm_compute; reflexivity].
    unfold ascii_text. apply (bool_decide_unpack _). vm_compute. exact I.
Defined.

(** ** The summary for the prompt *)

Lemma split_on_join (sep : ascii) (parts : list str) :
  parts <> [] -> Forall (fun part => sep ∉ part) parts ->
  split_on sep (join [sep] parts) = parts.
Proof.
  intros Hne Hfree. induction Hfree as [|p parts Hp Hfree IH]; [done|].
  destruct parts as [|p' parts]; simpl.
  - by apply split_on_absent.
  - change (split_on sep (p ++ sep :: join [sep] (p' :: parts))
            = p :: p' :: parts).
    rewrite split_on_app, (split_on_absent _ _ Hp), IH; done.
Qed.

Lemma string_of_uint_digits (d : Decimal.uint) :
  "010"%char ∉ list_ascii_of_string (NilEmpty.string_of_uint d).
Proof.
  induction d as [|d IH|d IH|d IH|d IH|d IH|d IH|d IH|d IH|d IH|d IH]; simpl;
    [apply not_elem_of_nil|..];
    (rewrite elem_of_cons; intros [H|H]; [discriminate H|done]).
Qed.

Lemma registry_single_line :
  Forall (fun e =>
            ("010"%char ∉ ErrorCategory_value (Entry.category e))
            /\ ("010"%char ∉ Severity_value (Entry.severity e))
            /\ ("010"%char ∉ Entry.hint e)) ERROR_PATTERNS.
Proof. apply (bool_decide_unpack _). vm_compute. reflexivity. Qed.

(** X11. The summary of what the classifier found has one line per
    classification after its heading line: cut at the newlines it is the
    heading followed by one numbered line for each classification, in
    order; when nothing was classified it is the single line saying
    so. *)
Theorem format_classifications_lines (text : str) :
  split_on "010"%char
    (format_classifications_for_prompt (classify_errors text))
  = match classify_errors text with
    | [] => [py "No known error patterns detected."]
    | cs =>
        py "Pre-analysis detected the following error patterns:"
        :: imap (fun i c =>
                   py "  " ++ str_of_nat (S i) ++ py ". [" ++ Cls.severity c
                   ++ py "] " ++ Cls.category c ++ py ": " ++ Cls.hint c) cs
    end
  /\ length (split_on "010"%char
               (format_classifications_for_prompt (classify_errors text)))
     = S (length (classify_errors text)).
Proof.
  assert (Forall (fun c => ("010"%char ∉ Cls.category c)
                           /\ ("010"%char ∉ Cls.severity c)
                           /\ ("010"%char ∉ Cls.hint c))
            (classify_errors text)) as Hfree.
  { apply Forall_forall. intros c (e & Hin & ->)%elem_of_classify_errors.
    destruct (winners_first _ _ _ _ Hin) as (i & Hi & _).
    apply list_elem_of_lookup_2 in Hi.
    pose proof registry_single_line as H. rewrite Forall_forall in H.
    destruct (H e Hi) as (H1 & H2 & H3). done. }
  revert Hfree. generalize (classify_errors text). intros cs Hfree.
  assert (split_on "010"%char (format_classifications_for_prompt cs)
          = match cs with
            | [] => [py "No known error patterns detected."]
            | _ =>
                py "Pre-analysis detected the following error patterns:"
                :: imap (fun i c =>
                           py "  " ++ str_of_nat (S i) ++ py ". ["
                           ++ Cls.severity c ++ py "] " ++ Cls.category c
                           ++ py ": " ++ Cls.hint c) cs
            end) as Hlines.
  { destruct cs as [|c cs]; [vm_compute; reflexivity|].
    unfold format_classifications_for_prompt.
    apply split_on_join; [done|]. constructor.
    { apply (bool_decide_unpack _). vm_compute. reflexivity. }
    apply Forall_forall. intros line Hline.
    apply elem_of_lookup_imap in Hline as (i & c' & -> & Hc').
    apply list_elem_of_lookup_2 in Hc'.
    rewrite Forall_forall in Hfree. destruct (Hfree c' Hc') as (H1 & H2 & H3).
    rewrite !elem_of_app. intros [H|[H|[H|[H|[H|[H|[H|H]]]]]]];
      try done;
      try (revert H; apply (bool_decide_unpack _); vm_compute; reflexivity).
    by apply string_of_uint_digits in H. }
  split; [by destruct cs|]. rewrite Hlines.
  destruct cs; simpl; [done|]. by rewrite length_imap.
Qed.

(** ** Back-filling the reply *)

Lemma setdefault_extends (k : str) (v : value) (d : dict) :
  exists added, setdefault k v d = d ++ added.
Proof.
  unfold setdefault. destruct (dict_get d k).
  - exists []. by rewrite app_nil_r.
  - by eexists.
Qed.

(** X12. When the cleaned reply is a JSON object, the normalizer returns it
    with the missing fields added after its own: every field of the reply
    keeps its value (those the pipeline does not know too), a field of the
    seven that the reply lacks gets its default, and nothing else is
    added. *)
Theorem parse_llm_response_backfill (interp : interpreter)
    (raw_response : str)
    (runbooks : list Hit.t) (d : dict) :
  json_loads interp (cleaned_response raw_response) = Decoded (VDict d) ->
  exists response added,
    _parse_llm_response interp raw_response runbooks = Return response
    /\ response = d ++ added
    /\ (forall k v, dict_get d k = Some v -> dict_get response k = Some v)
    /\ (forall k,
          dict_get d k = None ->
          dict_get response k
          = dict_get (response_defaults raw_response runbooks) k).
Proof.
  intros Hd. unfold _parse_llm_response. rewrite Hd.
  match goal with
  | |- exists response added, Return ?r = _ /\ _ =>
      assert (exists added, r = d ++ added) as [added Hadded]
  end.
  { repeat match goal with
           | |- context [setdefault ?k ?v ?x] =>
               let H := fresh in
               let a := fresh "added" in
               destruct (setdefault_extends k v x) as [a H]; rewrite H; clear H
           end.
    eexists. rewrite <- !app_assoc. reflexivity. }
  eexists _, added. split; [reflexivity|]. split; [exact Hadded|split].
  - intros k v Hk. rewrite !dict_get_setdefault, Hk. reflexivity.
  - intros k Hk. rewrite !dict_get_setdefault, Hk.
    unfold response_defaults. cbn [dict_get].
    repeat (case_decide; [reflexivity|]). reflexivity.
Qed.

Lemma parse_llm_response_backfill_witness :
  exists response,
    _parse_llm_response fresh_interpreter
      (py "{" ++ quoted "severity" ++ py ": " ++ quoted "HIGH" ++ py ", "
       ++ quoted "confidence" ++ py ": 3}") []
    = Return response
    /\ dict_get response (py "severity") = Some (VStr (py "HIGH"))
    /\ dict_get response (py "confidence") = Some (VInt 3)
    /\ dict_get response (py "error_category") = Some (VStr (py "Unknown")).
Proof.
  destruct (parse_llm_response_backfill fresh_interpreter
              (py "{" ++ quoted "severity" ++ py ": " ++ quoted "HIGH"
               ++ py ", " ++ quoted "confidence" ++ py ": 3}") []
              [(py "severity", VStr (py "HIGH"));
               (py "confidence", VInt 3)])
    as (response & added & Hr & _ & Hkeep & Hfill).
  - vm_compute. reflexivity.
  - exists response. split; [exact Hr|].
    split; [by apply Hkeep|]. split; [by apply Hkeep|].
    by rewrite Hfill.
Defined.

Lemma parse_llm_response_fields (interp : interpreter)
    (raw_response : str) (runbooks : list Hit.t)
    (response : dict) :
  _parse_llm_response interp raw_response runbooks = Return response ->
  Forall (fun field => is_Some (dict_get response field)) response_fields.
Proof.
  unfold _parse_llm_response.
  destruct (json_loads interp (cleaned_response raw_response))
    as [[| | | | | |d]| | |]; try discriminate.
  - intros [= <-]. apply Forall_forall. intros field Hfield.
    rewrite !dict_get_setdefault.
    destruct (dict_get d field); [by eexists|].
    unfold response_fields in Hfield. simpl in Hfield.
    repeat (apply elem_of_cons in Hfield as [->|Hfield];
            [repeat (case_decide; [by eexists|]); done|]).
    by apply elem_of_nil in Hfield.
  - intros [= <-]. repeat constructor; by eexists.
Qed.

(** X13. Whatever the configuration, the engine and the inputs are, the
    diagnosis that [analyze_devops_issue] returns has all seven fields:
    root_cause, severity, error_category, explanation, fix_commands,
    prevention_tips and related_runbooks. *)
Theorem analyze_devops_issue_fields (interp : interpreter)
    (google_api_key : str)
    (llm : str -> outcome) (dir : directory) (cache : list Rb.t)
    (error_context : str) (classifications : option (list Cls.t))
    (k8s_context : str) :
  Forall (fun field =>
            is_Some (dict_get
                       (analyze_devops_issue interp google_api_key llm dir cache
                          error_context classifications k8s_context) field))
    response_fields.
Proof.
  unfold analyze_devops_issue.
  destruct google_api_key as [|c key].
  - repeat constructor; by eexists.
  - destruct (llm _) as [content|e].
    + destruct (_parse_llm_response interp content _) as [parsed|e] eqn:Hparse.
      * by eapply parse_llm_response_fields.
      * repeat constructor; by eexists.
    + repeat constructor; by eexists.
Qed.

(** ** From the analysis to the response *)

Lemma Severity_of_value (s : Severity) :
  Severity_of (VStr (Severity_value s)) = Some s.
Proof. by destruct s. Qed.

Lemma ErrorCategory_of_value (c : ErrorCategory) :
  ErrorCategory_of (VStr (ErrorCategory_value c)) = Some c.
Proof. by destruct c. Qed.

Lemma sorted_scan_head (registry : list Entry.t) (text : str)
    (c : Cls.t) (cs : list Cls.t) :
  stable_sort by_severity (scan registry text).1 = c :: cs ->
  exists e, Cls.severity c = Severity_value (Entry.severity e)
            /\ Cls.category c = ErrorCategory_value (Entry.category e).
Proof.
  intros Heq.
  assert (c ∈ stable_sort by_severity (scan registry text).1) as Hc
    by (rewrite Heq; left).
  apply elem_of_sorted_scan in Hc as (e & _ & ->). by exists e.
Qed.

Lemma classify_errors_head (text : str) (c : Cls.t) (cs : list Cls.t) :
  classify_errors text = c :: cs ->
  exists e, Cls.severity c = Severity_value (Entry.severity e)
            /\ Cls.category c = ErrorCategory_value (Entry.category e).
Proof. apply sorted_scan_head. Qed.

(** The verdict when the analysis repeats the first classification. *)
Lemma verdict_of_first (analysis : dict) (cs : list Cls.t) :
  dict_get analysis (py "severity")
  = Some (VStr match cs with c :: _ => Cls.severity c | [] => py "MEDIUM" end) ->
  dict_get analysis (py "error_category")
  = Some (VStr match cs with c :: _ => Cls.category c | [] => py "Unknown" end) ->
  (forall c rest, cs = c :: rest ->
     exists e, Cls.severity c = Severity_value (Entry.severity e)
               /\ Cls.category c = ErrorCategory_value (Entry.category e)) ->
  match cs with
  | [] =>
      (response_severity analysis cs, response_category analysis)
      = (MEDIUM, UNKNOWN)
  | c :: _ =>
      response_severity analysis cs = get_highest_severity cs
      /\ Severity_value (response_severity analysis cs) = Cls.severity c
      /\ ErrorCategory_value (response_category analysis) = Cls.category c
  end.
Proof.
  intros Hsev Hcat Hhead. unfold response_severity, response_category.
  rewrite Hsev, Hcat. destruct cs as [|c rest]; [reflexivity|].
  repeat match goal with
         | |- context [from_option id ?x (Some ?y)] =>
             change (from_option id x (Some y)) with y
         end.
  destruct (Hhead c rest eq_refl) as (e & Hs & Hc).
  rewrite Hs, Hc, Severity_of_value, ErrorCategory_of_value.
  split; [|done]. symmetry. by apply get_highest_severity_head.
Qed.

Lemma related_runbooks_of_filenames (validation : pydantic)
    (analysis : dict) (runbooks : list Hit.t) :
  dict_get analysis (py "related_runbooks") = Some (filenames runbooks) ->
  related_runbooks_of validation analysis
  = Some (map (fun rb =>
                 {| RelatedRunbook.title := Hit.filename rb;
                    RelatedRunbook.filename := Hit.filename rb;
                    RelatedRunbook.relevance_score := 8 # 10;
                    RelatedRunbook.summary := [] |}) runbooks).
Proof.
  intros Hget. unfold related_runbooks_of. rewrite Hget.
  unfold filenames. cbn [default from_option id iterate mbind option_bind].
  clear Hget. induction runbooks as [|rb runbooks IH]; [done|].
  cbn [map]. cbn [mapM related_runbook]. rewrite IH. reflexivity.
Qed.

(** What a response that is built holds. *)
Lemma build_response_Some (validation : pydantic) (analysis : dict)
    (cs : list Cls.t) (response : DiagnoseResponse.t) :
  build_response validation analysis cs = Some response ->
  DiagnoseResponse.severity response = response_severity analysis cs
  /\ DiagnoseResponse.error_category response = response_category analysis
  /\ fix_commands_of validation analysis
     = Some (DiagnoseResponse.fix_commands response)
  /\ related_runbooks_of validation analysis
     = Some (DiagnoseResponse.related_runbooks response).
Proof.
  unfold build_response.
  destruct (fix_commands_of validation analysis); [|done].
  destruct (related_runbooks_of validation analysis); [|done].
  cbn [mbind option_bind].
  destruct (str_field validation (default _ (dict_get analysis (py "root_cause"))));
    [|done].
  destruct (str_field validation (default _ (dict_get analysis (py "explanation"))));
    [|done].
  destruct (list_str_field _ _); [|done].
  by intros [= <-].
Qed.

(** The response is built when the five fields that are checked pass. *)
Lemma build_response_is_Some (validation : pydantic) (analysis : dict)
    (cs : list Cls.t) :
  is_Some (fix_commands_of validation analysis) ->
  is_Some (related_runbooks_of validation analysis) ->
  is_Some (str_field validation
             (default (VStr (py "Unknown"))
                (dict_get analysis (py "root_cause")))) ->
  is_Some (str_field validation
             (default (VStr (py "No analysis available"))
                (dict_get analysis (py "explanation")))) ->
  is_Some (list_str_field validation
             (default (VList []) (dict_get analysis (py "prevention_tips")))) ->
  is_Some (build_response validation analysis cs).
Proof.
  unfold build_response. intros [? ->] [? ->] [? ->] [? ->] [? ->].
  by eexists.
Qed.

(** The records that the pipeline writes itself pass every check. *)
Lemma build_response_mock (validation : pydantic) (error_context : str)
    (classifications : option (list Cls.t)) (runbooks : list Hit.t)
    (cs : list Cls.t) :
  is_Some (build_response validation
             (_generate_mock_response error_context classifications runbooks)
             cs).
Proof.
  apply build_response_is_Some; try (by eexists).
  erewrite related_runbooks_of_filenames by reflexivity. by eexists.
Qed.

Lemma build_response_fallback (validation : pydantic) (error_msg : str)
    (classifications : option (list Cls.t)) (runbooks : list Hit.t)
    (cs : list Cls.t) :
  is_Some (build_response validation
             (_generate_fallback_response error_msg classifications runbooks)
             cs).
Proof.
  apply build_response_is_Some; try (by eexists).
  erewrite related_runbooks_of_filenames by reflexivity. by eexists.
Qed.

(** The verdict on a record that the pipeline writes itself. *)
Lemma verdict_of_builders (validation : pydantic) (analysis : dict)
    (cs : list Cls.t) :
  (forall c rest, cs = c :: rest ->
     exists e, Cls.severity c = Severity_value (Entry.severity e)
               /\ Cls.category c = ErrorCategory_value (Entry.category e)) ->
  (exists e rbs,
     analysis = _generate_mock_response e (Some cs) rbs
     \/ analysis = _generate_fallback_response e (Some cs) rbs) ->
  match cs with
  | [] =>
      (fun response =>
         (DiagnoseResponse.severity response,
          DiagnoseResponse.error_category response))
      <$> build_response validation analysis cs
      = Some (MEDIUM, UNKNOWN)
  | c :: _ =>
      exists severity category,
        (fun response =>
           (DiagnoseResponse.severity response,
            DiagnoseResponse.error_category response))
        <$> build_response validation analysis cs
        = Some (severity, category)
        /\ severity = get_highest_severity cs
        /\ Severity_value severity = Cls.severity c
        /\ ErrorCategory_value category = Cls.category c
  end.
Proof.
  intros Hhead (e & rbs & Hanalysis).
  assert (is_Some (build_response validation analysis cs))
    as [response Hbuilt].
  { destruct Hanalysis as [-> | ->];
      [apply build_response_mock|apply build_response_fallback]. }
  rewrite Hbuilt. cbn [fmap option_fmap option_map].
  apply build_response_Some in Hbuilt as (-> & -> & _).
  pose proof (verdict_of_first analysis cs) as H.
  destruct cs as [|c rest].
  - f_equal. apply H; try (intros; by eapply Hhead);
      destruct Hanalysis as [-> | ->]; reflexivity.
  - eexists _, _. split; [reflexivity|].
    apply H; try (intros; by eapply Hhead);
      destruct Hanalysis as [-> | ->]; reflexivity.
Qed.

(** X14. Without a key, and when the call of the reasoning engine fails,
    the response is built, and its severity and category are those of the
    classifier: the highest severity found and the category of the first
    classification, or MEDIUM and Unknown when nothing was classified. *)
Theorem diagnose_verdict_of_classifier (interp : interpreter)
    (validation : pydantic) (google_api_key : str)
    (llm : str -> outcome) (dir : directory) (cache : list Rb.t)
    (error_message k8s_context : str) :
  google_api_key = []
  \/ (exists e,
        llm (full_prompt error_message (Some (classify_errors error_message))
               k8s_context (search_runbooks dir cache error_message 3))
        = Failure e) ->
  match classify_errors error_message with
  | [] =>
      diagnose_verdict interp validation google_api_key llm dir cache
        error_message k8s_context
      = Some (MEDIUM, UNKNOWN)
  | c :: _ =>
      exists severity category,
        diagnose_verdict interp validation google_api_key llm dir cache
          error_message k8s_context
        = Some (severity, category)
        /\ severity = get_highest_severity (classify_errors error_message)
        /\ Severity_value severity = Cls.severity c
        /\ ErrorCategory_value category = Cls.category c
  end.
Proof.
  intros Hcase. unfold diagnose_verdict, diagnose. cbv zeta.
  pose proof (classify_errors_head error_message) as Hhead.
  revert Hcase Hhead. generalize (classify_errors error_message).
  intros cs Hcase Hhead.
  assert (exists e rbs,
            analyze_devops_issue interp google_api_key llm dir cache
              error_message (Some cs) k8s_context
            = _generate_mock_response e (Some cs) rbs
            \/ analyze_devops_issue interp google_api_key llm dir cache
                 error_message (Some cs) k8s_context
               = _generate_fallback_response e (Some cs) rbs)
    as (e & rbs & Hanalysis).
  { unfold analyze_devops_issue. destruct Hcase as [->|[e He]].
    - eexists _, _. by left.
    - destruct google_api_key; [eexists _, _; by left|].
      rewrite He. eexists _, _. by right. }
  apply verdict_of_builders; [exact Hhead|by exists e, rbs].
Qed.

Lemma diagnose_verdict_of_classifier_witness :
  exists category,
    diagnose_verdict fresh_interpreter strict [] (fun _ => Reply []) None []
      (py "Back-off restarting failed container: liveness probe failed") []
    = Some (HIGH, category).
Proof.
  pose proof (diagnose_verdict_of_classifier fresh_interpreter strict []
                (fun _ => Reply []) None []
                (py "Back-off restarting failed container: liveness probe failed")
                [] (or_introl eq_refl)) as H.
  remember (classify_errors
              (py "Back-off restarting failed container: liveness probe failed"))
    as cs eqn:Hcs in H.
  vm_compute in Hcs. subst cs.
  destruct H as (severity & category & H & _ & Hvalue & _).
  exists category. rewrite H.
  by destruct severity; try discriminate Hvalue.
Defined.

(** X15. When the engine answers with text that the decoder rejects as
    JSON, the response is built with severity MEDIUM and category Unknown
    whatever the classifier found: the classifications do not reach these
    two fields. *)
Theorem diagnose_verdict_malformed_reply (interp : interpreter)
    (validation : pydantic) (google_api_key : str)
    (llm : str -> outcome) (dir : directory) (cache : list Rb.t)
    (error_message k8s_context content : str) :
  google_api_key <> [] ->
  llm (full_prompt error_message (Some (classify_errors error_message))
         k8s_context (search_runbooks dir cache error_message 3))
  = Reply content ->
  json_loads interp (cleaned_response content) = JSONDecodeError ->
  diagnose_verdict interp validation google_api_key llm dir cache
    error_message k8s_context
  = Some (MEDIUM, UNKNOWN).
Proof.
  intros Hkey Hllm Hjson. unfold diagnose_verdict, diagnose. cbv zeta.
  revert Hllm. generalize (classify_errors error_message). intros cs Hllm.
  unfold analyze_devops_issue.
  destruct google_api_key as [|c key]; [done|].
  rewrite Hllm. unfold _parse_llm_response. rewrite Hjson.
  match goal with
  | |- _ <$> build_response _ ?a _ = _ =>
      assert (is_Some (build_response validation a cs)) as [response Hbuilt];
      [|rewrite Hbuilt;
        apply build_response_Some in Hbuilt as (Hs & Hc & _)]
  end.
  { apply build_response_is_Some; try (by eexists).
    erewrite related_runbooks_of_filenames by reflexivity. by eexists. }
  cbn [fmap option_fmap option_map]. by rewrite Hs, Hc.
Qed.

Lemma diagnose_verdict_malformed_reply_witness :
  diagnose_verdict fresh_interpreter strict (py "key")
    (fun _ => Reply (py "The pod ran out of memory."))
    None [] (py "Pod OOMKilled") []
  = Some (MEDIUM, UNKNOWN).
Proof.
  apply (diagnose_verdict_malformed_reply fresh_interpreter strict (py "key")
           (fun _ => Reply (py "The pod ran out of memory.")) None []
           (py "Pod OOMKilled") [] (py "The pod ran out of memory.")).
  - discriminate.
  - reflexivity.
  - vm_compute. reflexivity.
Defined.

(** X16. When the engine answers with a JSON object and the response is
    built, the severity and category of the reply win over the
    classifier's whenever they are members of the enumerations.  A reply
    without a severity gives MEDIUM, since the default is filled in first;
    only a severity that is present and is not a member falls back on the
    highest severity of the classifications (MEDIUM when there is none).
    A category that is missing or is not a member gives Unknown.  The
    response is built at least when the reply has none of the five fields
    that are checked on the way. *)
Theorem diagnose_verdict_of_reply (interp : interpreter)
    (validation : pydantic) (google_api_key : str)
    (llm : str -> outcome) (dir : directory) (cache : list Rb.t)
    (error_message k8s_context content : str) (d : dict) :
  google_api_key <> [] ->
  llm (full_prompt error_message (Some (classify_errors error_message))
         k8s_context (search_runbooks dir cache error_message 3))
  = Reply content ->
  json_loads interp (cleaned_response content) = Decoded (VDict d) ->
  let severity :=
    match dict_get d (py "severity") with
    | None => MEDIUM
    | Some v =>
        match Severity_of v with
        | Some severity => severity
        | None =>
            match classify_errors error_message with
            | [] => MEDIUM
            | cs => get_highest_severity cs
            end
        end
    end in
  let category :=
    match dict_get d (py "error_category") with
    | None => UNKNOWN
    | Some v => default UNKNOWN (ErrorCategory_of v)
    end in
  (forall verdict,
     diagnose_verdict interp validation google_api_key llm dir cache
       error_message k8s_context
     = Some verdict ->
     verdict = (severity, category))
  /\ ((forall field,
         field ∈ map py ["fix_commands"; "related_runbooks"; "root_cause";
                         "explanation"; "prevention_tips"]%string ->
         dict_get d field = None) ->
      diagnose_verdict interp validation google_api_key llm dir cache
        error_message k8s_context
      = Some (severity, category)).
Proof.
  intros Hkey Hllm Hjson. cbv zeta.
  unfold diagnose_verdict, diagnose. cbv zeta.
  revert Hllm. generalize (classify_errors error_message). intros cs Hllm.
  unfold analyze_devops_issue.
  destruct google_api_key as [|c key]; [done|].
  rewrite Hllm. unfold _parse_llm_response. rewrite Hjson.
  match goal with
  | |- context [build_response _ ?a _] => set (analysis := a)
  end.
  assert (response_severity analysis cs
          = match dict_get d (py "severity") with
            | None => MEDIUM
            | Some v =>
                match Severity_of v with
                | Some severity => severity
                | None =>
                    match cs with
                    | [] => MEDIUM
                    | c0 :: rest => get_highest_severity (c0 :: rest)
                    end
                end
            end) as Hs.
  { unfold response_severity, analysis. rewrite !dict_get_setdefault.
    destruct (dict_get d (py "severity")) as [v|]; [|reflexivity].
    change (from_option id (VStr (py "MEDIUM")) (Some v)) with v.
    destruct (Severity_of v); [reflexivity|]. by destruct cs. }
  assert (response_category analysis
          = match dict_get d (py "error_category") with
            | None => UNKNOWN
            | Some v => default UNKNOWN (ErrorCategory_of v)
            end) as Hc.
  { unfold response_category, analysis. rewrite !dict_get_setdefault.
    destruct (dict_get d (py "error_category")) as [v|]; reflexivity. }
  rewrite <- Hs, <- Hc. split.
  - intros verdict.
    destruct (build_response validation analysis cs) as [response|] eqn:Hbuilt;
      [|done].
    apply build_response_Some in Hbuilt as (<- & <- & _).
    by intros [= <-].
  - intros Hnone.
    assert (is_Some (build_response validation analysis cs))
      as [response Hbuilt].
    { assert (forall field,
                field ∈ map py ["fix_commands"; "related_runbooks";
                                "root_cause"; "explanation";
                                "prevention_tips"]%string ->
                dict_get analysis field
                = dict_get (response_defaults content
                              (search_runbooks dir cache error_message 3))
                    field) as Hdefault.
      { intros field Hfield. unfold analysis.
        rewrite !dict_get_setdefault, (Hnone field Hfield).
        unfold response_defaults. cbn [dict_get].
        repeat (case_decide; [reflexivity|]). reflexivity. }
      apply build_response_is_Some.
      - unfold fix_commands_of. rewrite Hdefault; [by eexists|].
        cbn [map]. rewrite !elem_of_cons. auto.
      - erewrite related_runbooks_of_filenames; [by eexists|].
        rewrite Hdefault; [reflexivity|].
        cbn [map]. rewrite !elem_of_cons. auto.
      - rewrite Hdefault; [by eexists|].
        cbn [map]. rewrite !elem_of_cons. auto.
      - rewrite Hdefault; [by eexists|].
        cbn [map]. rewrite !elem_of_cons. auto.
      - rewrite Hdefault; [by eexists|].
        cbn [map]. rewrite !elem_of_cons. auto 10. }
    rewrite Hbuilt. cbn [fmap option_fmap option_map].
    by apply build_response_Some in Hbuilt as (-> & -> & _).
Qed.

Lemma diagnose_verdict_of_reply_witness :
  diagnose_verdict fresh_interpreter strict (py "key")
    (fun _ => Reply (py "{}")) None [] (py "Pod OOMKilled") []
  = Some (MEDIUM, UNKNOWN).
Proof.
  destruct (diagnose_verdict_of_reply fresh_interpreter strict (py "key")
              (fun _ => Reply (py "{}")) None [] (py "Pod OOMKilled") []
              (py "{}") []) as [_ H].
  - discriminate.
  - reflexivity.
  - vm_compute. reflexivity.
  - apply H. reflexivity.
Defined.

(** X27. A reply that the decoder gives up on is treated like a failed
    call.  When decoding the reply raises RecursionError or ValueError,
    the normalizer raises, [analyze_devops_issue] answers with the
    fallback record, and the response of [diagnose] has the severity and
    the category of the classifier, not MEDIUM and Unknown as for a reply
    that is rejected as JSON. *)
Theorem diagnose_verdict_decoder_error (interp : interpreter)
    (validation : pydantic) (google_api_key : str)
    (llm : str -> outcome) (dir : directory) (cache : list Rb.t)
    (error_message k8s_context content : str) :
  google_api_key <> [] ->
  llm (full_prompt error_message (Some (classify_errors error_message))
         k8s_context (search_runbooks dir cache error_message 3))
  = Reply content ->
  (exists container,
     json_loads interp (cleaned_response content) = RecursionError container)
  \/ (exists digits,
        json_loads interp (cleaned_response content) = ValueError digits) ->
  match classify_errors error_message with
  | [] =>
      diagnose_verdict interp validation google_api_key llm dir cache
        error_message k8s_context
      = Some (MEDIUM, UNKNOWN)
  | c :: _ =>
      exists severity category,
        diagnose_verdict interp validation google_api_key llm dir cache
          error_message k8s_context
        = Some (severity, category)
        /\ severity = get_highest_severity (classify_errors error_message)
        /\ Severity_value severity = Cls.severity c
        /\ ErrorCategory_value category = Cls.category c
  end.
Proof.
  intros Hkey Hllm Hjson. unfold diagnose_verdict, diagnose. cbv zeta.
  pose proof (classify_errors_head error_message) as Hhead.
  revert Hllm Hhead. generalize (classify_errors error_message).
  intros cs Hllm Hhead.
  apply verdict_of_builders; [exact Hhead|].
  unfold analyze_devops_issue.
  destruct google_api_key as [|c key]; [done|].
  rewrite Hllm. unfold _parse_llm_response.
  destruct Hjson as [[container ->]|[digits ->]]; eexists _, _; by right.
Qed.

Lemma diagnose_verdict_decoder_error_witness :
  diagnose_verdict fresh_interpreter strict (py "key")
    (fun _ => Reply (replicate 2000 "["%char)) None [] (py "Pod OOMKilled") []
  = Some (CRITICAL, OOM_KILLED).
Proof.
  pose proof (diagnose_verdict_decoder_error fresh_interpreter strict
                (py "key") (fun _ => Reply (replicate 2000 "["%char)) None []
                (py "Pod OOMKilled") [] (replicate 2000 "["%char)) as H.
  remember (classify_errors (py "Pod OOMKilled")) as cs eqn:Hcs in H.
  vm_compute in Hcs. subst cs.
  destruct H as (severity & category & H & _ & Hs & Hc).
  - discriminate.
  - reflexivity.
  - left. eexists. vm_compute. reflexivity.
  - rewrite H.
    pose proof (Severity_of_value severity) as Es.
    pose proof (ErrorCategory_of_value category) as Ec.
    rewrite Hs in Es. rewrite Hc in Ec. vm_compute in Es, Ec.
    by injection Es as <-; injection Ec as <-.
Defined.

(** ** The cluster snapshot in the prompt *)

Lemma k8s_context_of_parts (d : dict) :
  k8s_context_of (Some d)
  = match k8s_summary_parts d with
    | None => None
    | Some [] => Some []
    | Some parts =>
        Some (NL ++ NL ++ py "Live Kubernetes Cluster Data:" ++ NL
              ++ join (NL ++ NL) parts)
    end.
Proof. by destruct d. Qed.

Lemma k8s_summary_parts_keys (d1 d2 : dict) :
  (forall key, key ∈ summary_keys -> dict_get d1 key = dict_get d2 key) ->
  k8s_summary_parts d1 = k8s_summary_parts d2.
Proof.
  intros H. unfold k8s_summary_parts, dumped_part.
  rewrite (H (py "containers")), (H (py "events")), (H (py "conditions")),
    (H (py "resource_spec")), (H (py "recent_logs")); [done|..];
    unfold summary_keys; simpl;
    repeat first [apply list_elem_of_here | apply list_elem_of_further].
Qed.

(** X17. Only five keys of a cluster snapshot reach the prompt: two
    snapshots that agree on containers, events, conditions, resource_spec
    and recent_logs are rendered alike, and a snapshot with none of them
    (the collector's error record, or a namespace overview alone) adds
    nothing to the prompt, like no snapshot at all. *)
Theorem k8s_context_of_keys (d1 d2 : dict) :
  (forall key, key ∈ summary_keys -> dict_get d1 key = dict_get d2 key) ->
  k8s_context_of (Some d1) = k8s_context_of (Some d2)
  /\ ((forall key, key ∈ summary_keys -> dict_get d1 key = None) ->
      k8s_context_of (Some d1) = k8s_context_of None).
Proof.
  intros H. split.
  - by rewrite !k8s_context_of_parts, (k8s_summary_parts_keys d1 d2).
  - intros Hnone. rewrite k8s_context_of_parts.
    by rewrite (k8s_summary_parts_keys d1 []).
Qed.

Lemma k8s_context_of_keys_witness :
  k8s_context_of
    (Some [(py "error", VStr (py "Kubernetes not available"));
           (py "namespace_overview", VDict [(py "total_pods", VInt 4)])])
  = k8s_context_of (Some [(py "error", VStr (py "Failed to fetch pod: Not Found"))]).
Proof.
  destruct (k8s_context_of_keys
              [(py "error", VStr (py "Kubernetes not available"));
               (py "namespace_overview", VDict [(py "total_pods", VInt 4)])]
              [(py "error", VStr (py "Failed to fetch pod: Not Found"))])
    as [H _].
  - intros key Hkey. unfold summary_keys in Hkey. simpl in Hkey.
    repeat (apply elem_of_cons in Hkey as [->|Hkey]; [reflexivity|]).
    by apply elem_of_nil in Hkey.
  - exact H.
Defined.

Lemma dict_get_dict_set (d : dict) (k k' : str) (v : value) :
  dict_get (dict_set d k v) k'
  = if decide (k = k') then Some v else dict_get d k'.
Proof.
  induction d as [|[k0 v0] d IH]; simpl.
  - done.
  - destruct (decide (k0 = k)) as [->|Hne]; simpl.
    + by destruct (decide (k = k')).
    + rewrite IH. destruct (decide (k0 = k')) as [->|]; [|done].
      by rewrite decide_False.
Qed.

(** X18. At most ten events reach the prompt: a snapshot with a list of
    events is rendered like the same snapshot with only the first ten of
    them. *)
Theorem k8s_context_of_events (d : dict) (events : list value) :
  dict_get d (py "events") = Some (VList events) ->
  k8s_context_of (Some d)
  = k8s_context_of
      (Some (dict_set d (py "events") (VList (take 10 events)))).
Proof.
  intros Hev. rewrite !k8s_context_of_parts.
  unfold k8s_summary_parts, dumped_part.
  rewrite !dict_get_dict_set, Hev.
  rewrite decide_True by done. rewrite !decide_False by done.
  cbn [first_ten]. by rewrite take_take.
Qed.

Lemma k8s_context_of_events_witness :
  k8s_context_of
    (Some [(py "events", VList (map VInt (seqZ 1 12)))])
  = k8s_context_of
      (Some [(py "events", VList (map VInt (seqZ 1 10)))]).
Proof.
  etrans.
  - apply (k8s_context_of_events
             [(py "events", VList (map VInt (seqZ 1 12)))]
             (map VInt (seqZ 1 12))).
    reflexivity.
  - reflexivity.
Defined.

(** X19. The snapshot is rendered before the guarded block of
    [analyze_devops_issue], so an exception there is not turned into the
    fallback diagnosis: the call raises exactly when the snapshot has
    events that are neither a list nor a string, which cannot be sliced. *)
Theorem analyze_devops_issue_snapshot_raises (interp : interpreter)
    (google_api_key : str)
    (llm : str -> outcome) (dir : directory) (cache : list Rb.t)
    (error_context : str) (classifications : option (list Cls.t))
    (k8s_data : option dict) :
  analyze_devops_issue_snapshot interp google_api_key llm dir cache
    error_context classifications k8s_data = None
  <-> exists d events,
        k8s_data = Some d
        /\ dict_get d (py "events") = Some events
        /\ (forall l, events <> VList l) /\ (forall s, events <> VStr s).
Proof.
  unfold analyze_devops_issue_snapshot. rewrite fmap_None.
  destruct k8s_data as [d|]; [|split; [done|by intros (? & ? & ? & _)]].
  rewrite k8s_context_of_parts. unfold k8s_summary_parts.
  destruct (dict_get d (py "events")) as [events|] eqn:Hev.
  - destruct events as [| | | |s|l|d']; simpl;
      try (split; [intros _; eexists _, _; repeat split; done|done]).
    + split; [by repeat case_match|].
      intros (? & ? & [= <-] & Heq & _ & H).
      pose proof (eq_trans (eq_sym Heq) Hev) as [= ->]. by destruct (H s).
    + split; [by repeat case_match|].
      intros (? & ? & [= <-] & Heq & H & _).
      pose proof (eq_trans (eq_sym Heq) Hev) as [= ->]. by destruct (H l).
  - split; [by repeat case_match|].
    intros (? & ? & [= <-] & H & _). congruence.
Qed.

Lemma last_fifty_app {A} (older recent : list A) :
  length recent = 50 -> last_fifty (older ++ recent) = recent.
Proof.
  intros Hlen. unfold last_fifty. rewrite length_app, Hlen.
  replace (length older + 50 - 50) with (length older) by lia.
  by rewrite drop_app_length.
Qed.

(** X20. Only the last fifty lines of the pod logs reach the prompt: when
    the logs end in fifty lines [recent], everything before them is
    dropped, and the snapshot is rendered as if the logs were [recent]
    alone.  (The logs are stripped first, so both texts are taken without
    whitespace at their ends.) *)
Theorem k8s_context_of_logs (d : dict) (older recent : str) :
  strip (older ++ NL ++ recent) = older ++ NL ++ recent ->
  strip recent = recent ->
  length (split_on "010"%char recent) = 50 ->
  k8s_context_of
    (Some (dict_set d (py "recent_logs") (VStr (older ++ NL ++ recent))))
  = k8s_context_of (Some (dict_set d (py "recent_logs") (VStr recent))).
Proof.
  intros Hall Hrecent Hlen. rewrite !k8s_context_of_parts.
  unfold k8s_summary_parts, dumped_part.
  rewrite !dict_get_dict_set.
  repeat match goal with
         | |- context [decide (?a = ?b)] =>
             first [ rewrite (decide_True (P := a = b)) by done
                   | rewrite (decide_False (P := a = b)) by done ]
         end.
  rewrite Hall, Hrecent.
  change (older ++ NL ++ recent) with (older ++ "010"%char :: recent).
  rewrite split_on_app, last_fifty_app by done.
  unfold last_fifty at 1 2. rewrite Hlen. reflexivity.
Qed.

Lemma k8s_context_of_logs_witness :
  k8s_context_of
    (Some [(py "recent_logs",
            VStr (py "starting" ++ NL ++ join NL (replicate 50 (py "retry"))))])
  = k8s_context_of
      (Some [(py "recent_logs", VStr (join NL (replicate 50 (py "retry"))))]).
Proof.
  apply (k8s_context_of_logs [] (py "starting")
           (join NL (replicate 50 (py "retry")))).
  - vm_compute. reflexivity.
  - vm_compute. reflexivity.
  - vm_compute. reflexivity.
Defined.

(** ** The health of the cluster *)

Lemma length_filter_all {A} (P : A -> Prop) `{!forall x, Decision (P x)}
    (l : list A) :
  length (filter P l) = length l <-> Forall P l.
Proof.
  induction l as [|x l IH]; [by split; [constructor|]|].
  rewrite filter_cons, Forall_cons. destruct (decide (P x)); simpl.
  - rewrite <- IH. split; [intros [= ?]; done|intros [_ ->]; done].
  - pose proof (length_filter P l). split; [lia|tauto].
Qed.

Lemma length_filter_none {A} (P : A -> Prop) `{!forall x, Decision (P x)}
    (l : list A) :
  length (filter P l) = 0 <-> Forall (fun x => ~ P x) l.
Proof.
  induction l as [|x l IH]; [by split; [constructor|]|].
  rewrite filter_cons, Forall_cons. destruct (decide (P x)); simpl.
  - split; [lia|tauto].
  - rewrite IH. tauto.
Qed.

Lemma flat_map_nil {A B} (f : A -> list B) (l : list A) :
  flat_map f l = [] <-> Forall (fun x => f x = []) l.
Proof.
  induction l as [|x l IH]; simpl; [by split; [constructor|]|].
  rewrite Forall_cons, <- IH. split.
  - by intros [-> ->]%app_eq_nil.
  - by intros [-> ->].
Qed.

Lemma node_issue_nil (node : Node.t) :
  node_issue (node_info node) = [] <-> ~ under_pressure node.
Proof.
  unfold node_issue, under_pressure.
  destruct (NodeInfo.memory_pressure _), (NodeInfo.disk_pressure _),
    (NodeInfo.pid_pressure _); simpl.
  all: split;
    [ intros H; try discriminate H; intros [?|[?|?]]; discriminate
    | intros H; try reflexivity; exfalso; apply H; auto ].
Qed.

(** X21. The overall status of [cluster_health] when Kubernetes is
    configured.  The response counts the nodes listed, and never more
    ready nodes than nodes.  The status is CRITICAL exactly when there are
    nodes and none of them is ready, HEALTHY exactly when every node is
    ready and none is under pressure, and DEGRADED otherwise.  A listing
    that fails with an API error is reported like a cluster without nodes,
    so as HEALTHY. *)
Theorem cluster_health_status (list_node : listing Node.t) :
  let nodes := listed list_node in
  let response := cluster_health true list_node in
  ClusterHealthResponse.total_nodes response = length nodes
  /\ ClusterHealthResponse.ready_nodes response
     <= ClusterHealthResponse.total_nodes response
  /\ (ClusterHealthResponse.cluster_status response = py "CRITICAL"
      \/ ClusterHealthResponse.cluster_status response = py "DEGRADED"
      \/ ClusterHealthResponse.cluster_status response = py "HEALTHY")
  /\ (ClusterHealthResponse.cluster_status response = py "CRITICAL"
      <-> nodes <> [] /\ Forall (fun node => ~ is_ready node) nodes)
  /\ (ClusterHealthResponse.cluster_status response = py "HEALTHY"
      <-> Forall (fun node => is_ready node /\ ~ under_pressure node) nodes).
Proof.
  cbv zeta.
  assert (exists items, listed list_node = items
            /\ cluster_health true list_node = cluster_health true (Items items))
    as (items & -> & ->).
  { destruct list_node as [items|reason]; by eexists. }
  unfold cluster_health, collect_cluster_health.
  cbn [negb Health.nodes Health.total_nodes Health.ready_nodes default
       from_option id listed ClusterHealthResponse.total_nodes
       ClusterHealthResponse.ready_nodes ClusterHealthResponse.cluster_status].
  pose proof (length_filter (fun n => NodeInfo.ready n = py "True")
                (map node_info items)) as Hle.
  pose proof (length_filter_none (fun n => NodeInfo.ready n = py "True")
                (map node_info items)) as Hnone.
  pose proof (length_filter_all (fun n => NodeInfo.ready n = py "True")
                (map node_info items)) as Hall.
  pose proof (flat_map_nil node_issue (map node_info items)) as Hissues.
  rewrite List.Forall_map in Hnone, Hall, Hissues.
  rewrite (Forall_iff _ _ (fun node => ~ under_pressure node))
    in Hissues by apply node_issue_nil.
  rewrite Forall_and.
  change (Forall (fun x => NodeInfo.ready (node_info x) = py "True") items)
    with (Forall is_ready items) in Hall.
  change (Forall (fun x => NodeInfo.ready (node_info x) <> py "True") items)
    with (Forall (fun node => ~ is_ready node) items) in Hnone.
  rewrite length_map in *.
  assert (length items = 0 <-> items = []) as Hempty by (by destruct items).
  revert Hle Hnone Hall Hissues.
  generalize (length (filter (fun n => NodeInfo.ready n = py "True")
                        (map node_info items))) as r.
  generalize (flat_map node_issue (map node_info items)) as issues.
  intros issues r Hle Hnone Hall Hissues.
  destruct (Nat.eqb_spec r 0), (Nat.ltb_spec 0 (length items)),
    (bool_decide_reflect (issues = [])), (Nat.ltb_spec r (length items));
    cbn [andb orb negb].
  all: split; [reflexivity|]; split; [exact Hle|]; split; [auto|].
  all: split; split; intros; try discriminate;
    try (assert (length items = 0) by lia);
    try (assert (r = length items) by lia);
    intuition lia.
Qed.

Lemma condition_map_lookup (conditions : list (str * str)) (type : str) :
  condition_map conditions !! type
  = snd <$> last (filter (fun c => c.1 = type) conditions).
Proof.
  induction conditions as [|c conditions IH] using rev_ind; [done|].
  unfold condition_map. rewrite foldl_app. simpl.
  fold (condition_map conditions).
  rewrite filter_app, filter_cons, filter_nil.
  destruct (decide (c.1 = type)) as [<-|Hne].
  - by rewrite lookup_insert_eq, last_snoc.
  - by rewrite lookup_insert_ne, app_nil_r by done.
Qed.

(** X22. What the collector reads from the conditions of a node: for each
    type the status of the last condition of that type counts, earlier
    ones of the type are overridden.  A node is reported with the status of
    its last Ready condition, or Unknown when it has none, and under
    memory, disk or PID pressure exactly when the last condition of that
    type says True. *)
Theorem node_info_conditions (node : Node.t) :
  let status (type : string) :=
    snd <$> last (filter (fun c => c.1 = py type)
                    (default [] (Node.conditions node))) in
  NodeInfo.ready (node_info node) = default (py "Unknown") (status "Ready")
  /\ (NodeInfo.memory_pressure (node_info node) = true
      <-> status "MemoryPressure" = Some (py "True"))
  /\ (NodeInfo.disk_pressure (node_info node) = true
      <-> status "DiskPressure" = Some (py "True"))
  /\ (NodeInfo.pid_pressure (node_info node) = true
      <-> status "PIDPressure" = Some (py "True")).
Proof.
  cbv zeta. unfold node_info.
  cbn [NodeInfo.ready NodeInfo.memory_pressure NodeInfo.disk_pressure
       NodeInfo.pid_pressure].
  rewrite <- !condition_map_lookup.
  generalize (condition_map (default [] (Node.conditions node))) as m.
  intros m. split; [reflexivity|].
  repeat split; rewrite bool_decide_eq_true;
    destruct (m !! _) as [v|]; simpl; congruence.
Qed.

(** X23. The node issues of [cluster_health] name exactly the nodes under
    pressure, in the order of the listing; a node that is only not ready
    is not among them.  Every issue has the status Degraded, at least one
    condition, never CPU pressure, and names memory and disk pressure among
    its conditions exactly when its flag for them is set. *)
Theorem cluster_health_node_issues (list_node : listing Node.t) :
  let issues :=
    ClusterHealthResponse.node_issues (cluster_health true list_node) in
  map NodeHealthSummary.name issues
  = map Node.name (filter under_pressure (listed list_node))
  /\ Forall (fun issue =>
       NodeHealthSummary.status issue = py "Degraded"
       /\ NodeHealthSummary.cpu_pressure issue = false
       /\ NodeHealthSummary.conditions issue <> []
       /\ (py "MemoryPressure" ∈ NodeHealthSummary.conditions issue
           <-> NodeHealthSummary.memory_pressure issue = true)
       /\ (py "DiskPressure" ∈ NodeHealthSummary.conditions issue
           <-> NodeHealthSummary.disk_pressure issue = true)) issues.
Proof.
  cbv zeta.
  assert (exists items, listed list_node = items
            /\ cluster_health true list_node = cluster_health true (Items items))
    as (items & -> & ->).
  { destruct list_node as [items|reason]; by eexists. }
  unfold cluster_health, collect_cluster_health.
  cbn [negb Health.nodes default from_option id
       ClusterHealthResponse.node_issues].
  induction items as [|node items [IHnames IHall]]; [by split; [|constructor]|].
  cbn [map flat_map]. rewrite filter_cons, map_app, Forall_app.
  unfold node_issue at 1 3.
  destruct (decide (under_pressure node)) as [Hp|Hp].
  - unfold under_pressure in Hp.
    destruct (NodeInfo.memory_pressure (node_info node)),
      (NodeInfo.disk_pressure (node_info node)),
      (NodeInfo.pid_pressure (node_info node));
      try (by destruct Hp as [?|[?|?]]).
    all: cbn [orb map app NodeHealthSummary.name node_info NodeInfo.name].
    all: split; [by f_equal|]; split; [|done].
    all: constructor; [|constructor].
    all: cbn [NodeHealthSummary.status NodeHealthSummary.cpu_pressure
              NodeHealthSummary.conditions NodeHealthSummary.memory_pressure
              NodeHealthSummary.disk_pressure app].
    all: repeat split; try done.
    all: rewrite ?elem_of_cons, ?elem_of_nil; try (by left); try (by right; left).
    all: intros H; repeat (destruct H as [H|H]); done.
  - unfold under_pressure in Hp.
    destruct (NodeInfo.memory_pressure (node_info node)),
      (NodeInfo.disk_pressure (node_info node)),
      (NodeInfo.pid_pressure (node_info node));
      try (exfalso; apply Hp; auto; fail).
    cbn [orb map app]. split; [done|]. split; [constructor|done].
Qed.

(** ** The cluster data of a diagnosis *)

Lemma dict_get_dict_update (d other : dict) (k : str) :
  NoDup other.*1 ->
  dict_get (dict_update d other) k
  = match dict_get other k with
    | Some v => Some v
    | None => dict_get d k
    end.
Proof.
  unfold dict_update. revert d.
  induction other as [|[k' v'] other IH]; intros d Hdup; [done|].
  apply NoDup_cons in Hdup as [Hnew Hdup]. cbn [foldl fst snd dict_get].
  rewrite IH by done. destruct (decide (k' = k)) as [->|Hne].
  - rewrite dict_get_dict_set, decide_True by done.
    destruct (dict_get other k) as [v|] eqn:Hget; [|done].
    destruct Hnew. clear -Hget.
    induction other as [|[k0 v0] other IH]; [done|].
    simpl in *. destruct (decide (k0 = k)) as [->|]; [left|right; auto].
  - by rewrite dict_get_dict_set, decide_False.
Qed.

(** X24. The cluster data that [diagnose] hands to the analysis.  Without
    Kubernetes there is none, whatever the request names.  With it, the
    namespace overview sits under its own key when it is asked for; under
    any other key the details of the deployment come before those of the
    pod, so the name, the namespace and the error of the pod are replaced
    by the deployment's, and what only the pod has is kept. *)
Theorem diagnose_k8s_data_lookup
    (collect_pod_details collect_deployment_details : str -> str -> dict)
    (collect_namespace_overview : str -> dict)
    (pod_name deployment_name namespace : str)
    (include_cluster_health : bool) (key : str) :
  NoDup (collect_deployment_details deployment_name namespace).*1 ->
  pod_name <> [] -> deployment_name <> [] ->
  diagnose_k8s_data false collect_pod_details collect_deployment_details
    collect_namespace_overview (Some pod_name) (Some deployment_name)
    namespace include_cluster_health = None
  /\ dict_get
       (default []
          (diagnose_k8s_data true collect_pod_details
             collect_deployment_details collect_namespace_overview
             (Some pod_name) (Some deployment_name) namespace
             include_cluster_health)) key
     = if include_cluster_health && bool_decide (key = py "namespace_overview")
       then Some (VDict (collect_namespace_overview namespace))
       else match dict_get (collect_deployment_details deployment_name
                              namespace) key with
            | Some v => Some v
            | None => dict_get (collect_pod_details pod_name namespace) key
            end.
Proof.
  intros Hdup Hpod Hdep. split; [done|].
  unfold diagnose_k8s_data.
  destruct pod_name as [|c pod_name]; [done|].
  destruct deployment_name as [|c' deployment_name]; [done|].
  set (pod := collect_pod_details _ _).
  set (dep := collect_deployment_details _ _) in *.
  assert (forall d : dict,
            dict_get (default [] match d with [] => None | _ => Some d end) key
            = dict_get d key) as -> by (by intros []).
  destruct include_cluster_health; cbn [andb].
  - rewrite dict_get_dict_set. case_bool_decide as Hkey.
    + by rewrite decide_True.
    + rewrite decide_False by done. by apply dict_get_dict_update.
  - by apply dict_get_dict_update.
Qed.

Lemma diagnose_k8s_data_lookup_witness :
  dict_get
    (default []
       (diagnose_k8s_data true
          (fun name _ => [(py "name", VStr name); (py "events", VList [])])
          (fun name _ => [(py "name", VStr name); (py "conditions", VList [])])
          (fun _ => []) (Some (py "web-1")) (Some (py "web")) (py "default")
          false))
    (py "name")
  = Some (VStr (py "web")).
Proof.
  destruct (diagnose_k8s_data_lookup
              (fun name _ => [(py "name", VStr name); (py "events", VList [])])
              (fun name _ => [(py "name", VStr name);
                              (py "conditions", VList [])])
              (fun _ => []) (py "web-1") (py "web") (py "default") false
              (py "name")) as [_ H].
  - apply (bool_decide_unpack _). vm_compute. reflexivity.
  - discriminate.
  - discriminate.
  - rewrite H. reflexivity.
Defined.

(** ** The runbooks and the commands of a diagnosis *)

(** X25. The runbook references in the response of [diagnose].  Unless
    the reply of the engine is a JSON object with its own
    related_runbooks, a response that is built refers to the runbooks that
    the search found for the message, in the order of the search, each with
    its file name as file name and as title (not the title of the
    document) and with the score 0.8 (not the score of the search). *)
Theorem diagnose_related_runbooks (interp : interpreter)
    (validation : pydantic) (google_api_key : str)
    (llm : str -> outcome) (dir : directory) (cache : list Rb.t)
    (error_message k8s_context : str) (response : DiagnoseResponse.t) :
  let found := search_runbooks dir cache error_message 3 in
  (forall content parsed,
     google_api_key <> [] ->
     llm (full_prompt error_message (Some (classify_errors error_message))
            k8s_context found)
     = Reply content ->
     json_loads interp (cleaned_response content) = Decoded (VDict parsed) ->
     dict_get parsed (py "related_runbooks") = None) ->
  diagnose interp validation google_api_key llm dir cache error_message
    k8s_context
  = Some response ->
  DiagnoseResponse.related_runbooks response
  = map (fun rb =>
           {| RelatedRunbook.title := Hit.filename rb;
              RelatedRunbook.filename := Hit.filename rb;
              RelatedRunbook.relevance_score := 8 # 10;
              RelatedRunbook.summary := [] |}) found.
Proof.
  intros found. unfold diagnose. cbv zeta.
  generalize (classify_errors error_message). intros cs Hreply Hbuilt.
  apply build_response_Some in Hbuilt as (_ & _ & _ & Hrelated).
  erewrite related_runbooks_of_filenames in Hrelated;
    [by injection Hrelated as <-|].
  unfold analyze_devops_issue. fold found.
  destruct google_api_key as [|c key]; [reflexivity|].
  destruct (llm _) as [content|e] eqn:Hllm; [|reflexivity].
  unfold _parse_llm_response.
  destruct (json_loads interp (cleaned_response content))
    as [[| | | | | |parsed]| | |] eqn:Hjson; try reflexivity.
  rewrite !dict_get_setdefault.
  rewrite (Hreply content parsed) by done.
  reflexivity.
Qed.

Lemma diagnose_related_runbooks_witness :
  DiagnoseResponse.related_runbooks
    <$> diagnose fresh_interpreter strict (py "key")
          (fun _ => Reply (py "{}")) None
          [{| Rb.filename := py "oom.md"; Rb.title := py "Out of memory";
              Rb.content := py "# Out of memory" |}]
          (py "memory") []
  = Some [{| RelatedRunbook.title := py "oom.md";
             RelatedRunbook.filename := py "oom.md";
             RelatedRunbook.relevance_score := 8 # 10;
             RelatedRunbook.summary := [] |}].
Proof.
  destruct (diagnose fresh_interpreter strict (py "key")
              (fun _ => Reply (py "{}")) None
              [{| Rb.filename := py "oom.md"; Rb.title := py "Out of memory";
                  Rb.content := py "# Out of memory" |}]
              (py "memory") []) as [response|] eqn:Hbuilt;
    [|vm_compute in Hbuilt; discriminate Hbuilt].
  cbn [fmap option_fmap option_map]. f_equal.
  etrans.
  - apply (diagnose_related_runbooks fresh_interpreter strict (py "key")
             (fun _ => Reply (py "{}")) None
             [{| Rb.filename := py "oom.md"; Rb.title := py "Out of memory";
                 Rb.content := py "# Out of memory" |}]
             (py "memory") [] response); [|exact Hbuilt].
    intros content parsed _ [= <-] Hjson. vm_compute in Hjson.
    by injection Hjson as <-.
  - vm_compute. reflexivity.
Defined.

Lemma mapM_refused {A B} (f : A -> option B) (l : list A) :
  Exists (fun x => f x = None) l -> mapM f l = None.
Proof.
  induction 1 as [x l Hx|x l _ IH]; cbn [mapM].
  - by rewrite Hx.
  - rewrite IH. by destruct (f x).
Qed.

Lemma fix_commands_of_refused (validation : pydantic) (analysis : dict)
    (commands : value) :
  dict_get analysis (py "fix_commands") = Some commands ->
  match commands with
  | VList items => Exists (fun cmd => forall fields, cmd <> VDict fields) items
  | VStr text => text <> []
  | VDict fields => fields <> []
  | _ => True
  end ->
  fix_commands_of validation analysis = None.
Proof.
  intros Hget Hbad. unfold fix_commands_of. rewrite Hget.
  change (default (VList []) (Some commands)) with commands.
  destruct commands as [| | | |text|items|fields]; try done;
    cbn [iterate mbind option_bind]; apply mapM_refused.
  - destruct text as [|a text]; [done|]. by left.
  - eapply Exists_impl; [exact Hbad|].
    intros cmd Hcmd. destruct cmd as [| | | | | |fields]; try done.
    by destruct (Hcmd fields).
  - destruct fields as [|[k v] fields]; [done|]. by left.
Qed.

(** X26. A reply of the engine can make [diagnose] fail.  When the reply
    is a JSON object whose fix_commands is a list with an element that is
    not an object, a string or an object that is not empty, or a number, a
    truth value or null, building the commands raises, and the request
    ends with status 500 instead of a response, whatever the rest of the
    reply and the classifier say. *)
Theorem diagnose_fix_commands_refused (interp : interpreter)
    (validation : pydantic) (google_api_key : str)
    (llm : str -> outcome) (dir : directory) (cache : list Rb.t)
    (error_message k8s_context content : str) (d : dict) (commands : value) :
  google_api_key <> [] ->
  llm (full_prompt error_message (Some (classify_errors error_message))
         k8s_context (search_runbooks dir cache error_message 3))
  = Reply content ->
  json_loads interp (cleaned_response content) = Decoded (VDict d) ->
  dict_get d (py "fix_commands") = Some commands ->
  match commands with
  | VList items => Exists (fun cmd => forall fields, cmd <> VDict fields) items
  | VStr text => text <> []
  | VDict fields => fields <> []
  | _ => True
  end ->
  diagnose interp validation google_api_key llm dir cache error_message
    k8s_context
  = None.
Proof.
  intros Hkey Hllm Hjson Hget Hbad. unfold diagnose. cbv zeta.
  revert Hllm. generalize (classify_errors error_message). intros cs Hllm.
  unfold analyze_devops_issue.
  destruct google_api_key as [|c key]; [done|].
  rewrite Hllm. unfold _parse_llm_response. rewrite Hjson.
  unfold build_response.
  erewrite fix_commands_of_refused; [done| |exact Hbad].
  by rewrite !dict_get_setdefault, Hget.
Qed.

Lemma diagnose_fix_commands_refused_witness :
  diagnose fresh_interpreter strict (py "key")
    (fun _ =>
       Reply (py "{" ++ quoted "severity" ++ py ": " ++ quoted "HIGH"
              ++ py ", " ++ quoted "fix_commands" ++ py ": ["
              ++ quoted "kubectl get pods" ++ py "]}"))
    None [] (py "Pod OOMKilled") []
  = None.
Proof.
  apply (diagnose_fix_commands_refused fresh_interpreter strict (py "key")
           (fun _ =>
              Reply (py "{" ++ quoted "severity" ++ py ": " ++ quoted "HIGH"
                     ++ py ", " ++ quoted "fix_commands" ++ py ": ["
                     ++ quoted "kubectl get pods" ++ py "]}"))
           None [] (py "Pod OOMKilled") []
           (py "{" ++ quoted "severity" ++ py ": " ++ quoted "HIGH"
            ++ py ", " ++ quoted "fix_commands" ++ py ": ["
            ++ quoted "kubectl get pods" ++ py "]}")
           [(py "severity", VStr (py "HIGH"));
            (py "fix_commands", VList [VStr (py "kubectl get pods")])]
           (VList [VStr (py "kubectl get pods")])).
  - discriminate.
  - reflexivity.
  - vm_compute. reflexivity.
  - reflexivity.
  - left. discriminate.
Defined.
